(** * heyao_query: order lookup plugin (main.py)

    A shallow embedding of [main.py]: the API client [fetch_wechat_info],
    the image renderer [generate_image] and the command handler
    [HeyaoQueryStar.handle_heyao_query], followed by the properties of the
    pipeline fetch -> parse -> render -> cleanup.

    Python values are modelled as the interpreter has them after
    [response.json()]: [str] is a sequence of Unicode code points, [dict]
    an insertion-ordered association list with [str] keys.  The file
    system is a finite map from paths to file contents.  What the plugin
    does not own (the C library's [strftime], the interpreter's [repr] of
    floats and containers, the install directory, PIL's and the network's
    failures) is an explicit parameter of the model.  The calls to the
    logger change nothing the properties below speak of and are left
    out. *)

From Stdlib Require Import ZArith NArith List String Ascii Bool Lia.
From Stdlib Require Import Floats.SpecFloat.
From stdpp Require Import gmap list.

Local Open Scope N_scope.
Local Set Warnings "-register-all".

(* ===================================================================== *)
(** ** Python [str]: sequences of code points *)
(* ===================================================================== *)

Module PyStr.

(** A Python [str]; each element is one Unicode code point. *)
Abbreviation pystr := (list N).

Definition bytes_of (s : string) : list N :=
  List.map N_of_ascii (list_ascii_of_string s).

(** UTF-8 decoding of a source literal (the source file is UTF-8). *)
Fixpoint utf8_decode (bs : list N) : pystr :=
  match bs with
  | [] => []
  | b0 :: r0 =>
    if b0 <? 128 then b0 :: utf8_decode r0
    else
      match r0 with
      | [] => [b0]
      | b1 :: r1 =>
        if b0 <? 224 then
          N.lor (N.shiftl (N.land b0 31) 6) (N.land b1 63) :: utf8_decode r1
        else
          match r1 with
          | [] => [b0]
          | b2 :: r2 =>
            if b0 <? 240 then
              N.lor (N.shiftl (N.land b0 15) 12)
                    (N.lor (N.shiftl (N.land b1 63) 6) (N.land b2 63))
              :: utf8_decode r2
            else
              match r2 with
              | [] => [b0]
              | b3 :: r3 =>
                N.lor (N.shiftl (N.land b0 7) 18)
                      (N.lor (N.shiftl (N.land b1 63) 12)
                             (N.lor (N.shiftl (N.land b2 63) 6) (N.land b3 63)))
                :: utf8_decode r3
              end
          end
      end
  end.

(** A string literal of the source. *)
Definition lit (s : string) : pystr := utf8_decode (bytes_of s).
Arguments lit : simpl never.
#[global] Opaque lit.

(** [Py_UNICODE_ISSPACE]: the characters [str.split()], [str.strip()]
    and [str.isspace()] treat as whitespace. *)
Definition is_space (c : N) : bool :=
     ((9 <=? c) && (c <=? 13))
  || ((28 <=? c) && (c <=? 32))
  || (c =? 133) || (c =? 160) || (c =? 5760)
  || ((8192 <=? c) && (c <=? 8202))
  || (c =? 8232) || (c =? 8233) || (c =? 8239) || (c =? 8287)
  || (c =? 12288).

Definition is_in (chars : pystr) (c : N) : bool :=
  existsb (N.eqb c) chars.

(** [dropwhile p s] *)
Fixpoint skip (p : N -> bool) (s : pystr) : pystr :=
  match s with
  | c :: r => if p c then skip p r else s
  | [] => []
  end.

(** the longest prefix on which [p] holds *)
Fixpoint prefix_of (p : N -> bool) (s : pystr) : pystr :=
  match s with
  | c :: r => if p c then c :: prefix_of p r else []
  | [] => []
  end.

(** [s.lstrip(chars)]: every leading character in [chars] is removed. *)
Definition lstrip (chars : pystr) (s : pystr) : pystr := skip (is_in chars) s.

(** [s.strip()] *)
Definition strip (s : pystr) : pystr :=
  rev (skip is_space (rev (skip is_space s))).

(** [s.replace(old, new)] for one-character [old] and [new]. *)
Definition replace (old new : N) (s : pystr) : pystr :=
  List.map (fun c => if c =? old then new else c) s.

(** [s.isspace()]: at least one character and all of them whitespace. *)
Definition isspace (s : pystr) : bool :=
  match s with
  | [] => false
  | _ => forallb is_space s
  end.

(** [s.split(maxsplit=n)], splitting at runs of whitespace
    (CPython's [split_whitespace]): at most [n] tokens are cut off, the
    remainder after the following whitespace run is kept as it is. *)
Fixpoint split (maxsplit : nat) (s : pystr) : list pystr :=
  let s' := skip is_space s in
  match maxsplit with
  | O => match s' with [] => [] | _ => [s'] end
  | S n =>
    match s' with
    | [] => []
    | _ => prefix_of (fun c => negb (is_space c)) s'
           :: split n (skip (fun c => negb (is_space c)) s')
    end
  end.

(** Decimal digits *)
Fixpoint uint_digits (d : Decimal.uint) : pystr :=
  match d with
  | Decimal.Nil => []
  | Decimal.D0 r => 48 :: uint_digits r
  | Decimal.D1 r => 49 :: uint_digits r
  | Decimal.D2 r => 50 :: uint_digits r
  | Decimal.D3 r => 51 :: uint_digits r
  | Decimal.D4 r => 52 :: uint_digits r
  | Decimal.D5 r => 53 :: uint_digits r
  | Decimal.D6 r => 54 :: uint_digits r
  | Decimal.D7 r => 55 :: uint_digits r
  | Decimal.D8 r => 56 :: uint_digits r
  | Decimal.D9 r => 57 :: uint_digits r
  end.

Definition decimal (n : N) : pystr := uint_digits (N.to_uint n).

(** [%02d] and the like *)
Definition decimal_pad (width : nat) (n : N) : pystr :=
  let ds := decimal n in
  repeat 48 (width - length ds)%nat ++ ds.

Definition str_eqb (a b : pystr) : bool := bool_decide (a = b).

Fixpoint starts_with (p s : pystr) : bool :=
  match p, s with
  | [], _ => true
  | a :: p', b :: s' => (a =? b) && starts_with p' s'
  | _ :: _, [] => false
  end.

(** [p in s] for two strings *)
Fixpoint has_sub (p s : pystr) : bool :=
  starts_with p s || match s with [] => false | _ :: r => has_sub p r end.

End PyStr.
Import PyStr.

(* ===================================================================== *)
(** ** Python values, as [response.json()] builds them *)
(* ===================================================================== *)

Module PyVal.

(** A [dict] keeps insertion order and has [str] keys (JSON objects). *)
Inductive pyval :=
| PNone
| PBool (b : bool)
| PInt (z : Z)
| PFloat (f : spec_float)
| PStr (s : pystr)
| PList (l : list pyval)
| PDict (d : list (pystr * pyval)).

Abbreviation pydict := (list (pystr * pyval)).

(** Exceptions, all of them subclasses of [Exception].  [Timeout] and
    [HTTPError] are [requests.exceptions.RequestException]s.
    ([KeyboardInterrupt] and task cancellation derive from
    [BaseException] only; no handler of the plugin names them and they
    are left out.) *)
Inductive exn :=
| Timeout
| RequestException
| JSONDecodeError
| FileNotFoundError
| OSError
| AttributeError
| IndexError
| KeyError
| TypeError
| ValueError
| OtherException.

(** A computation that returns or raises. *)
Inductive py (A : Type) :=
| Ok (a : A)
| Raise (e : exn).
Arguments Ok {A} a.
Arguments Raise {A} e.

Definition bind {A B} (m : py A) (k : A -> py B) : py B :=
  match m with
  | Ok a => k a
  | Raise e => Raise e
  end.

(** [try: body  except ...: handler] *)
Definition try_except {A} (body : py A) (handler : exn -> py A) : py A :=
  match body with
  | Ok a => Ok a
  | Raise e => handler e
  end.

(** [d.get(key)] on the entries of a [dict] *)
Fixpoint lookup_key (d : pydict) (key : pystr) : option pyval :=
  match d with
  | [] => None
  | (k, v) :: r => if str_eqb k key then Some v else lookup_key r key
  end.

(** [bool(v)] *)
Definition truthy (v : pyval) : bool :=
  match v with
  | PNone => false
  | PBool b => b
  | PInt z => negb (z =? 0)%Z
  | PFloat (S754_zero _) => false
  | PFloat _ => true
  | PStr s => match s with [] => false | _ => true end
  | PList l => match l with [] => false | _ => true end
  | PDict d => match d with [] => false | _ => true end
  end.

Definition is_list (v : pyval) : bool :=
  match v with PList _ => true | _ => false end.

Definition is_dict (v : pyval) : bool :=
  match v with PDict _ => true | _ => false end.

(** [v.get(key, default)]: only a [dict] has the method. *)
Definition get (v : pyval) (key : pystr) (default : pyval) : py pyval :=
  match v with
  | PDict d => Ok (match lookup_key d key with Some x => x | None => default end)
  | _ => Raise AttributeError
  end.

(** [key in v] *)
Definition contains (v : pyval) (key : pystr) : py bool :=
  match v with
  | PDict d => Ok (match lookup_key d key with Some _ => true | None => false end)
  | PList l => Ok (existsb (fun x => match x with PStr s => str_eqb s key | _ => false end) l)
  | PStr s => Ok (has_sub key s)
  | _ => Raise TypeError
  end.

(** [v[key]] with a [str] key *)
Definition getitem (v : pyval) (key : pystr) : py pyval :=
  match v with
  | PDict d => match lookup_key d key with Some x => Ok x | None => Raise KeyError end
  | _ => Raise TypeError
  end.

(** [v[0]] *)
Definition first_item (v : pyval) : py pyval :=
  match v with
  | PList (x :: _) => Ok x
  | PList [] => Raise IndexError
  | PStr (c :: _) => Ok (PStr [c])
  | PStr [] => Raise IndexError
  | PDict _ => Raise KeyError
  | _ => Raise TypeError
  end.

(** The mathematical value of a float is [+-m * 2^e]; Python compares a
    float with an [int] exactly. *)
Definition float_is_int (f : spec_float) (n : Z) : bool :=
  match f with
  | S754_zero _ => (n =? 0)%Z
  | S754_finite s m e =>
    let v := (if s then - Z.pos m else Z.pos m)%Z in
    if (0 <=? e)%Z then (v * 2 ^ e =? n)%Z else (v =? n * 2 ^ (- e))%Z
  | _ => false
  end.

(** [v == n] for an [int] literal [n] *)
Definition eq_int (v : pyval) (n : Z) : bool :=
  match v with
  | PInt z => (z =? n)%Z
  | PBool b => (Z.b2z b =? n)%Z
  | PFloat f => float_is_int f n
  | _ => false
  end.

(** [v == s] for a [str] literal [s] *)
Definition eq_str (v : pyval) (s : pystr) : bool :=
  match v with
  | PStr t => str_eqb t s
  | _ => false
  end.

End PyVal.
Import PyVal.

#[export] Instance py_ret : MRet py := @Ok.
#[export] Instance py_bind : MBind py := fun A B k m => bind m k.

(* ===================================================================== *)
(** ** The host: interpreter, C library, install directory *)
(* ===================================================================== *)

(** [time.localtime()]: broken-down local time, whole seconds only. *)
Record struct_time := {
  tm_year : N; tm_mon : N; tm_mday : N;
  tm_hour : N; tm_min : N; tm_sec : N }.

(** A reading of the system clock: the local time and the microseconds
    within its second. *)
Record instant := { local_time : struct_time; microsecond : N }.

(** A [pathlib.Path]: its components below the root. *)
Abbreviation path := (list pystr).

Class Host := {
  (** [Path(__file__).parent.resolve()] *)
  PLUGIN_DIR : path;
  (** [repr] of a float, a list or a dict *)
  repr_other : pyval -> pystr;
  (** the C library's [strftime]; [None] when the platform rejects the
      format and [time.strftime] raises [ValueError] *)
  libc_strftime : pystr -> struct_time -> option pystr }.

(** One conversion, as glibc prints it; a conversion glibc does not know
    is copied to the output unchanged. *)
Definition glibc_conversion (d : N) (t : struct_time) : pystr :=
  if d =? 89 then decimal (tm_year t)               (* %Y *)
  else if d =? 109 then decimal_pad 2 (tm_mon t)    (* %m *)
  else if d =? 100 then decimal_pad 2 (tm_mday t)   (* %d *)
  else if d =? 72 then decimal_pad 2 (tm_hour t)    (* %H *)
  else if d =? 77 then decimal_pad 2 (tm_min t)     (* %M *)
  else if d =? 83 then decimal_pad 2 (tm_sec t)     (* %S *)
  else [37; d].

Fixpoint glibc_strftime (fmt : pystr) (t : struct_time) : pystr :=
  match fmt with
  | [] => []
  | c :: r =>
    if c =? 37 then
      match r with
      | d :: r' => glibc_conversion d t ++ glibc_strftime r' t
      | [] => [c]
      end
    else c :: glibc_strftime r t
  end.

Section WithHost.
Context {host : Host}.

(** [str(v)], also what an f-string prints for [{v}] *)
Definition str (v : pyval) : pystr :=
  match v with
  | PStr s => s
  | PNone => lit "None"
  | PBool true => lit "True"
  | PBool false => lit "False"
  | PInt z => (if (z <? 0)%Z then lit "-" else []) ++ decimal (Z.abs_N z)
  | _ => repr_other v
  end.

(** [time.strftime(fmt)]: formats [time.localtime()], which has no
    sub-second field. *)
Definition time_strftime (fmt : pystr) (now : instant) : py pystr :=
  match libc_strftime fmt (local_time now) with
  | Some s => Ok s
  | None => Raise ValueError
  end.

(** [PLUGIN_DIR / name], for a [name] that is a single component *)
Definition path_div (dir : path) (name : pystr) : path := dir ++ [name].

Definition resource_path (relative_path : pystr) : path :=
  path_div PLUGIN_DIR relative_path.

End WithHost.

(* ===================================================================== *)
(** ** API client *)
(* ===================================================================== *)

(** What [requests.post] hands back: the status line and what
    [response.json()] does with the body. *)
Record response := { status_code : Z; json : py pyval }.

(** [bool(response)] is [response.ok]: false for 4xx and 5xx. *)
Definition response_ok (r : response) : bool :=
  negb ((400 <=? status_code r)%Z && (status_code r <? 600)%Z).

(** [response.raise_for_status()]: [HTTPError], a [RequestException] *)
Definition raise_for_status (r : response) : py unit :=
  if response_ok r then Ok tt else Raise RequestException.

(** [fetch_wechat_info(content)].  The request is fixed but for
    [content]; [post] is the outcome of lines 44-49, the call
    [requests.post(url, data=payload, headers=headers, timeout=15)]
    awaited from the executor: a response, or the exception raised. *)
Definition fetch_wechat_info (post : py response) : py pyval :=
  try_except
    (response ← post;
     if response_ok response && (status_code response =? 200)%Z then
       response_json ← json response;
       _ ← raise_for_status response;
       Ok response_json
     else if response_ok response then
       Ok PNone
     else
       Ok PNone)
    (fun e =>
       match e with
       | Timeout => Ok PNone              (* except requests.exceptions.Timeout *)
       | RequestException => Ok PNone     (* except requests.exceptions.RequestException *)
       | JSONDecodeError => Ok PNone      (* except json.JSONDecodeError *)
       | _ => Ok PNone                    (* except Exception *)
       end).

(* ===================================================================== *)
(** ** Files, images and the faults of one invocation *)
(* ===================================================================== *)

Inductive font :=
| TrueType (file : path) (size : Z)     (* ImageFont.truetype(file, size) *)
| DefaultFont.                           (* ImageFont.load_default() *)

(** One [draw.text(position, text, font=font, fill=(0, 0, 0))] that went
    through. *)
Record drawn := { at_xy : Z * Z; text : pystr; in_font : font }.

Inductive mode := RGB | OtherMode.

(** An image: its mode, its dimensions and the text drawn on it, the
    latest first. *)
Record image := { im_mode : mode; im_size : Z * Z; im_text : list drawn }.

Inductive file :=
| ImageFile (im : image)                 (* a file PIL can open *)
| OtherFile.                             (* any other file, the font for one *)

Abbreviation filesys := (gmap (list (list N)) file).

(** What the world does during one invocation of the command: the
    network's answer, the clock readings and the calls that fail. *)
Record env := {
  http_post : pystr -> py response;
  mkdir_fails : bool;
  truetype_fails : path -> Z -> bool;
  load_default_fails : bool;
  draw_fails : Z * Z -> pystr -> font -> bool;
  save_fails : path -> bool;
  unlink_fails : path -> bool;
  packaging_fails : bool;
  draw_clock : instant;                  (* at line 135 *)
  name_clock : instant }.                (* at line 162 *)

Definition path_exists (fs : filesys) (p : path) : bool :=
  bool_decide (is_Some (fs !! p)).

(** [Image.open(p).convert('RGB')] *)
Definition image_open_rgb (fs : filesys) (p : path) : py image :=
  match fs !! p with
  | Some (ImageFile im) =>
    Ok {| im_mode := RGB; im_size := im_size im; im_text := im_text im |}
  | Some OtherFile => Raise OSError
  | None => Raise FileNotFoundError
  end.

Definition truetype (E : env) (p : path) (size : Z) : py font :=
  if truetype_fails E p size then Raise OSError else Ok (TrueType p size).

Definition load_default (E : env) : py font :=
  if load_default_fails E then Raise OSError else Ok DefaultFont.

Definition draw_text (E : env) (img : image) (position : Z * Z)
    (s : pystr) (f : font) : py image :=
  if draw_fails E position s f then Raise OtherException
  else Ok {| im_mode := im_mode img; im_size := im_size img;
             im_text := {| at_xy := position; text := s; in_font := f |}
                        :: im_text img |}.

(* ===================================================================== *)
(** ** Image renderer *)
(* ===================================================================== *)

Section Renderer.
Context {host : Host}.

(** lines 115-126 and 138-149: the bundled font when there is one, the
    default font when that fails, no font when that fails too. *)
Definition pick_font (E : env) (font_path : option path) (font_size : Z)
    : option font :=
  match
    try_except
      (match font_path with
       | Some p => truetype E p font_size
       | None => load_default E
       end)
      (fun _ => load_default E)
  with
  | Ok f => Some f
  | Raise _ => None
  end.

(** lines 114-131: one round of the drawing loop. *)
Definition draw_field (E : env) (font_path : option path) (img : image)
    (item : pyval * (Z * Z) * Z) : image :=
  let '(text, position, font_size) := item in
  match pick_font E font_path font_size with
  | None => img                                           (* continue *)
  | Some f =>
    match draw_text E img position (str text) f with
    | Ok img' => img'
    | Raise _ => img
    end
  end.

Definition NA : pyval := PStr (lit "N/A").

Definition dict_get (data : pydict) (key : pystr) (default : pyval) : pyval :=
  match lookup_key data key with
  | Some v => v
  | None => default
  end.

Definition content_map (data : pydict) : list (pyval * (Z * Z) * Z) :=
  let order_id_api := dict_get data (lit "v2") NA in
  [ (dict_get data (lit "v0") NA, (1490, 1030), 80);
    (dict_get data (lit "v1") NA, (1450, 1300), 80);
    (order_id_api,                (1100, 1570), 80);
    (dict_get data (lit "v3") NA, (1440, 1850), 80);
    (dict_get data (lit "v4") NA, (1000, 2110), 80);
    (dict_get data (lit "v5") NA, (1440, 2380), 80) ]%Z.

(** line 159; only a [str] has [lstrip]. *)
Definition sanitize (batch_number : pyval) : py pystr :=
  match batch_number with
  | PStr s => Ok (replace 32 95 (replace 92 95 (replace 47 95 (lstrip [35] s))))
  | _ => Raise AttributeError
  end.

(** lines 160-161 *)
Definition or_unknown (safe_batch : pystr) : pystr :=
  if negb (truthy (PStr safe_batch)) || isspace safe_batch
  then lit "UnknownBatch" else safe_batch.

(** line 163 *)
Definition img_filename (safe_batch current_timestamp : pystr) : pystr :=
  lit "Heyao_" ++ safe_batch ++ lit "_" ++ current_timestamp ++ lit ".png".

(** [generate_image(data)]: the path written, or [None], and the file
    system afterwards.  A [save] that fails leaves no file behind.
    [filesys] holds files: the directory [temp_images] that line 88
    makes when it is not there is not recorded in it. *)
Definition generate_image (E : env) (fs : filesys) (data : pydict)
    : option path * filesys :=
  let template_path := resource_path (lit "hymb.png") in
  let font_path := resource_path (lit "FZSTK.TTF") in
  let temp_image_dir := path_div PLUGIN_DIR (lit "temp_images") in
  let body : py (option path * filesys) :=
    if mkdir_fails E then Raise OSError else
    if negb (path_exists fs template_path) then Ok (None, fs) else
    let font_path :=
      if negb (path_exists fs font_path) then None else Some font_path in
    img ← image_open_rgb fs template_path;
    let batch_number := dict_get data (lit "v0") NA in
    let img := fold_left (draw_field E font_path) (content_map data) img in
    timestamp ← time_strftime (lit "%Y-%m-%d %H:%M:%S") (draw_clock E);
    let timestamp_position := (1210, 2680)%Z in
    let timestamp_font_size := 80%Z in
    let timestamp_font := pick_font E font_path timestamp_font_size in
    let img :=
      match timestamp_font with
      | Some f =>
        match draw_text E img timestamp_position timestamp f with
        | Ok img' => img'
        | Raise _ => img
        end
      | None => img
      end in
    safe_batch ← sanitize batch_number;
    let safe_batch := or_unknown safe_batch in
    current_timestamp ← time_strftime (lit "%Y%m%d%H%M%S_%f") (name_clock E);
    let img_path :=
      path_div temp_image_dir (img_filename safe_batch current_timestamp) in
    if save_fails E img_path then Raise OSError
    else Ok (Some img_path, <[img_path := ImageFile img]> fs)
  in
  match body with
  | Ok r => r
  | Raise FileNotFoundError => (None, fs)      (* except FileNotFoundError *)
  | Raise _ => (None, fs)                      (* except Exception *)
  end.

End Renderer.

(* ===================================================================== *)
(** ** Command handler *)
(* ===================================================================== *)

Inductive component :=
| ImageComp (file : path).

Inductive message_result :=
| plain_result (s : pystr)
| chain_result (chain : list component).

(** What an invocation does that can be seen from outside, in order. *)
Inductive event :=
| Yield (r : message_result)             (* handed to the framework *)
| Fetch (content : pystr)                (* await fetch_wechat_info(content) *)
| Unlink (p : path)                      (* p.unlink() *)
| Render (data : pydict)                 (* generate_image(data) *)
| SetLast (p : path)                     (* self.last_image_path = p *)
| Package (p : path).                    (* ImageComp(file=str(p.absolute())) *)

(** The plugin instance ([self]), the disk and the events so far. *)
Record state := {
  last_image_path : option path;
  disk : filesys;
  events : list event }.

(** A step of the handler: it returns or raises, and leaves a state. *)
Definition H (A : Type) : Type := state -> py A * state.

#[export] Instance H_ret : MRet H := fun A a s => (Ok a, s).
#[export] Instance H_bind : MBind H := fun A B k m s =>
  match m s with
  | (Ok a, s') => k a s'
  | (Raise e, s') => (Raise e, s')
  end.

Definition emit (e : event) : H unit := fun s =>
  (Ok tt, {| last_image_path := last_image_path s; disk := disk s;
             events := events s ++ [e] |}).

Definition yield (r : message_result) : H unit := emit (Yield r).

Definition read {A} (f : state -> A) : H A := fun s => (Ok (f s), s).

Definition set_disk (fs : filesys) : H unit := fun s =>
  (Ok tt, {| last_image_path := last_image_path s; disk := fs;
             events := events s |}).

Definition set_last_image_path (p : path) : H unit := fun s =>
  (Ok tt, {| last_image_path := Some p; disk := disk s;
             events := events s ++ [SetLast p] |}).

Definition lift {A} (m : py A) : H A := fun s => (m, s).

Inductive parsed :=
| Reply (msg : pystr)                    (* yield a text and return *)
| Details (order_details : pydict).

(** The texts the handler replies with. *)
Definition usage_text : pystr := lit "请提供订单号。用法：/heyao <订单号>".

Definition empty_id_text : pystr := lit "订单号不能为空。用法：/heyao <订单号>".

Definition searching_text (order_id_user : pystr) : pystr :=
  lit "正在查询订单号：" ++ order_id_user ++ lit "...".

Definition fetch_failed_text (order_id_user : pystr) : pystr :=
  lit "查询订单 " ++ order_id_user ++ lit " 时出错，请检查日志或稍后再试。".

Definition GENERIC : pystr := lit "未找到订单信息或API返回格式不正确。".

Definition not_found_text (order_id_user : pystr) : pystr :=
  lit "未找到订单 " ++ order_id_user ++ lit " 的信息。".

Definition api_error_text (e : pystr) : pystr := lit "API错误: " ++ e.

Definition query_failed_text (error_msg order_id_user : pystr) : pystr :=
  lit "查询失败：" ++ error_msg ++ lit " (订单号: " ++ order_id_user ++ lit ")".

Definition malformed_text (order_id_user : pystr) : pystr :=
  lit "查询成功，但未能解析订单详细信息。(订单号: " ++ order_id_user ++ lit ")".

Definition processing_error_text (order_id_user : pystr) : pystr :=
  lit "处理API响应时发生错误。(订单号: " ++ order_id_user ++ lit ")".

Definition render_failed_text (order_id_user : pystr) : pystr :=
  lit "成功获取订单信息，但在生成图片时失败。(订单号: " ++ order_id_user ++ lit ")".

Definition not_sent_text : pystr := lit "生成图片成功，但发送时遇到问题。".

Section Handler.
Context {host : Host}.

(** line 234 *)
Definition no_results (query_data_list : pyval) : bool :=
  negb (truthy query_data_list)
  || negb (is_list query_data_list)
  || match query_data_list with PList l => (length l =? 0)%nat | _ => false end.

(** lines 236-242 *)
Definition build_error_msg (api_data : pyval) (order_id_user : pystr)
    : py pystr :=
  error_msg ← get api_data (lit "msg") (PStr GENERIC);
  error_msg ←
    (if eq_str error_msg GENERIC then
       code ← get api_data (lit "code") PNone;
       if eq_int code (-1) then
         Ok (PStr (not_found_text order_id_user))
       else
         has_error ← contains api_data (lit "error");
         if has_error : bool then
           e ← getitem api_data (lit "error");
           Ok (PStr (api_error_text (str e)))
         else Ok error_msg
     else Ok error_msg);
  Ok (str error_msg).

(** lines 231-254, the body of the [try] *)
Definition parse_response (api_data : pyval) (order_id_user : pystr)
    : py parsed :=
  query_data_list ← get api_data (lit "queryDataList") PNone;
  if no_results query_data_list then
    error_msg ← build_error_msg api_data order_id_user;
    Ok (Reply (query_failed_text error_msg order_id_user))
  else
    first ← first_item query_data_list;
    order_details ← get first (lit "content") PNone;
    match order_details with
    | PDict d =>
      if negb (truthy order_details) then
        Ok (Reply (malformed_text order_id_user))
      else Ok (Details d)
    | _ =>
      Ok (Reply (malformed_text order_id_user))
    end.

(** lines 265-274: the previous image is removed before the new one is
    made; a failing [unlink] is logged and nothing more. *)
Definition remove_previous (E : env) : H unit :=
  last ← read last_image_path;
  fs ← read disk;
  match last with
  | Some p =>
    if path_exists fs p then
      _ ← emit (Unlink p);
      if unlink_fails E p then mret tt else set_disk (delete p fs)
    else mret tt
  | None => mret tt
  end.

(** lines 279-310 *)
Definition render_and_deliver (E : env) (order_details : pydict)
    (order_id_user : pystr) : H unit :=
  fs ← read disk;
  _ ← emit (Render order_details);
  let '(image_path, fs') := generate_image E fs order_details in
  _ ← set_disk fs';
  match image_path with
  | Some p =>
    if path_exists fs' p then
      _ ← set_last_image_path p;
      _ ← emit (Package p);
      if packaging_fails E then
        yield (plain_result not_sent_text)
      else
        yield (chain_result [ImageComp p])
    else
      yield (plain_result (render_failed_text order_id_user))
  | None =>
    yield (plain_result (render_failed_text order_id_user))
  end.

(** [HeyaoQueryStar.handle_heyao_query(self, event)], on the text of the
    message *)
Definition handle_heyao_query (E : env) (full_message : pystr) : H unit :=
  let parts := split 1 full_message in
  if (length parts <? 2)%nat
     || negb (truthy (PStr (strip (nth 1 parts [])))) then
    yield (plain_result usage_text)
  else
    let order_id_user := strip (nth 1 parts []) in
    if negb (truthy (PStr order_id_user)) then
      yield (plain_result empty_id_text)
    else
      _ ← yield (plain_result (searching_text order_id_user));
      _ ← emit (Fetch order_id_user);
      api_data ← lift (fetch_wechat_info (http_post E order_id_user));
      match api_data with
      | PNone =>
        yield (plain_result (fetch_failed_text order_id_user))
      | _ =>
        match parse_response api_data order_id_user with
        | Raise _ =>
          yield (plain_result (processing_error_text order_id_user))
        | Ok (Reply msg) => yield (plain_result msg)
        | Ok (Details order_details) =>
          _ ← remove_previous E;
          render_and_deliver E order_details order_id_user
        end
      end.

End Handler.

(* ===================================================================== *)
(** ** Specification-side definitions *)
(* ===================================================================== *)

Section Specification.
Context {host : Host}.

(** The order id an invocation goes on with, when it gets past the
    validation of lines 202-216. *)
Definition order_id_of (full_message : pystr) : option pystr :=
  let parts := split 1 full_message in
  if (length parts <? 2)%nat
     || negb (truthy (PStr (strip (nth 1 parts []))))
  then None
  else Some (strip (nth 1 parts [])).

(** The precedence as the specification words it:
    [error] > [code == -1] > [msg] > generic fallback. *)
Definition error_msg_error_first (d : pydict) (order_id_user : pystr) : pystr :=
  match lookup_key d (lit "error") with
  | Some e => api_error_text (str e)
  | None =>
    if eq_int (dict_get d (lit "code") PNone) (-1) then
      not_found_text order_id_user
    else
      match lookup_key d (lit "msg") with
      | Some m => str m
      | None => GENERIC
      end
  end.

(** The precedence of lines 236-242: a [msg] other than the generic text
    > [code == -1] > [error] > generic fallback. *)
Definition error_msg_msg_first (d : pydict) (order_id_user : pystr) : pystr :=
  let without_msg :=
    if eq_int (dict_get d (lit "code") PNone) (-1) then
      not_found_text order_id_user
    else
      match lookup_key d (lit "error") with
      | Some e => api_error_text (str e)
      | None => GENERIC
      end in
  match lookup_key d (lit "msg") with
  | Some m => if eq_str m GENERIC then without_msg else str m
  | None => without_msg
  end.

(** [s] with further events *)
Definition log (s : state) (evs : list event) : state :=
  {| last_image_path := last_image_path s; disk := disk s;
     events := events s ++ evs |}.

(** The state in which [generate_image] is called: the acknowledgement
    is out, the API has been asked, the previous image has been dealt
    with. *)
Definition at_render (E : env) (s : state) (order_id_user : pystr) : state :=
  snd (remove_previous E
         (log s [Yield (plain_result (searching_text order_id_user));
                 Fetch order_id_user])).

Definition to_underscore (c : N) : N :=
  if (c =? 47) || (c =? 92) || (c =? 32) then 95 else c.

Definition or_unknown_batch (t : pystr) : pystr :=
  match t with
  | [] => lit "UnknownBatch"
  | _ => if forallb is_space t then lit "UnknownBatch" else t
  end.

(** The sanitized batch as the specification words it: one leading [#]
    is stripped. *)
Definition sanitized_one_hash (batch : pystr) : pystr :=
  or_unknown_batch
    (List.map to_underscore
       (match batch with
        | c :: r => if c =? 35 then r else batch
        | [] => []
        end)).

Fixpoint drop_hashes (batch : pystr) : pystr :=
  match batch with
  | c :: r => if c =? 35 then drop_hashes r else batch
  | [] => []
  end.

(** The sanitized batch with every leading [#] stripped. *)
Definition sanitized_all_hashes (batch : pystr) : pystr :=
  or_unknown_batch (List.map to_underscore (drop_hashes batch)).

(** The batch part of the file name, as [generate_image] computes it. *)
Definition safe_batch_of (batch_number : pyval) : py pystr :=
  safe_batch ← sanitize batch_number; Ok (or_unknown safe_batch).

(** The six fields in drawing order, with their positions. *)
Definition field_layout : list (pystr * (Z * Z)) :=
  [ (lit "v0", (1490, 1030)); (lit "v1", (1450, 1300));
    (lit "v2", (1100, 1570)); (lit "v3", (1440, 1850));
    (lit "v4", (1000, 2110)); (lit "v5", (1440, 2380)) ]%Z.

(** The text of a field: the value's [str], [N/A] for a missing key. *)
Definition field_text (data : pydict) (key : pystr) : pystr :=
  match lookup_key data key with
  | Some v => str v
  | None => lit "N/A"
  end.

(** [img] is [img0] with more text on it, each piece satisfying [P]:
    the dimensions are those of [img0]. *)
Definition painted_over (P : drawn -> Prop) (img0 img : image) : Prop :=
  im_size img = im_size img0
  /\ exists new, im_text img = new ++ im_text img0 /\ Forall P new.

(** The font the draw calls use when nothing about fonts fails. *)
Definition font_in_use (fs : filesys) : font :=
  if path_exists fs (resource_path (lit "FZSTK.TTF"))
  then TrueType (resource_path (lit "FZSTK.TTF")) 80
  else DefaultFont.

(** The file name for a batch and a time stamp, below [temp_images]. *)
Definition image_path_for (safe_batch current_timestamp : pystr) : path :=
  path_div (path_div PLUGIN_DIR (lit "temp_images"))
           (lit "Heyao_" ++ safe_batch ++ lit "_" ++ current_timestamp
            ++ lit ".png").

(** Nothing fails but, possibly, the fonts and the drawing. *)
Definition files_and_clock_fine (E : env) : Prop :=
  mkdir_fails E = false
  /\ (forall p, save_fails E p = false)
  /\ (forall fmt t, libc_strftime fmt t <> None).

(** Fonts load and text can be drawn. *)
Definition drawing_fine (E : env) : Prop :=
  (forall p z, truetype_fails E p z = false)
  /\ load_default_fails E = false
  /\ (forall xy s f, draw_fails E xy s f = false).

(** Two environments in which the renderer meets the same faults and
    the same seconds on the clock; the microseconds may differ. *)
Definition same_but_microseconds (E1 E2 : env) : Prop :=
  mkdir_fails E1 = mkdir_fails E2
  /\ truetype_fails E1 = truetype_fails E2
  /\ load_default_fails E1 = load_default_fails E2
  /\ draw_fails E1 = draw_fails E2
  /\ save_fails E1 = save_fails E2
  /\ local_time (draw_clock E1) = local_time (draw_clock E2)
  /\ local_time (name_clock E1) = local_time (name_clock E2).

End Specification.

(* ===================================================================== *)
(** ** A host and fixtures for the closed examples *)
(* ===================================================================== *)

Module Fixture.

(** A Linux host.  The examples pass no float, list or dict to [str],
    so what [repr_other] prints is never looked at. *)
Definition linux : Host := {|
  PLUGIN_DIR := [lit "plugins"; lit "heyao_query"];
  repr_other := fun _ => lit "?";
  libc_strftime := fun fmt t => Some (glibc_strftime fmt t) |}.

Definition noon : struct_time := {|
  tm_year := 2024; tm_mon := 1; tm_mday := 2;
  tm_hour := 12; tm_min := 0; tm_sec := 5 |}.

Definition template : image :=
  {| im_mode := OtherMode; im_size := (2480, 3508)%Z; im_text := [] |}.

(** The install directory with the template and the font in place. *)
Definition installed : filesys :=
  <[ resource_path (host := linux) (lit "hymb.png") := ImageFile template ]>
    (<[ resource_path (host := linux) (lit "FZSTK.TTF") := OtherFile ]> ∅).

(** The install directory without the font file. *)
Definition no_font : filesys :=
  <[ resource_path (host := linux) (lit "hymb.png") := ImageFile template ]> ∅.

(** An invocation in which nothing fails: the API answers [answer], the
    clock reads [usec] microseconds past [noon]. *)
Definition calm (answer : py response) (usec : N) : env := {|
  http_post := fun _ => answer;
  mkdir_fails := false;
  truetype_fails := fun _ _ => false;
  load_default_fails := false;
  draw_fails := fun _ _ _ => false;
  save_fails := fun _ => false;
  unlink_fails := fun _ => false;
  packaging_fails := false;
  draw_clock := {| local_time := noon; microsecond := usec |};
  name_clock := {| local_time := noon; microsecond := usec |} |}.

(** The same, but [img.save] fails. *)
Definition disk_full (answer : py response) : env := {|
  http_post := fun _ => answer;
  mkdir_fails := false;
  truetype_fails := fun _ _ => false;
  load_default_fails := false;
  draw_fails := fun _ _ _ => false;
  save_fails := fun _ => true;
  unlink_fails := fun _ => false;
  packaging_fails := false;
  draw_clock := {| local_time := noon; microsecond := 0 |};
  name_clock := {| local_time := noon; microsecond := 0 |} |}.

(** The same as [calm], but packaging the image fails. *)
Definition no_handoff (answer : py response) : env := {|
  http_post := fun _ => answer;
  mkdir_fails := false;
  truetype_fails := fun _ _ => false;
  load_default_fails := false;
  draw_fails := fun _ _ _ => false;
  save_fails := fun _ => false;
  unlink_fails := fun _ => false;
  packaging_fails := true;
  draw_clock := {| local_time := noon; microsecond := 0 |};
  name_clock := {| local_time := noon; microsecond := 0 |} |}.

Definition http_200 (body : pyval) : py response :=
  Ok {| status_code := 200; json := Ok body |}.

(** [{"queryDataList": [{"content": content}]}] *)
Definition found_entries (content : pyval) : pydict :=
  [(lit "queryDataList", PList [PDict [(lit "content", content)]])].

Definition found (content : pyval) : pyval := PDict (found_entries content).

(** [{"v0": "#A/B C"}] *)
Definition batch_ABC : pydict := [(lit "v0", PStr (lit "#A/B C"))].

(** [{"v2": "123"}]: five of the six fields are missing. *)
Definition only_v2 : pydict := [(lit "v2", PStr (lit "123"))].

(** [{"msg": "x", "error": "y"}] *)
Definition msg_and_error : pydict :=
  [(lit "msg", PStr (lit "x")); (lit "error", PStr (lit "y"))].

(** [{"code": -1, "error": "y"}] *)
Definition code_and_error : pydict :=
  [(lit "code", PInt (-1)); (lit "error", PStr (lit "y"))].

(** [{"msg": "x", "code": -1}] *)
Definition msg_and_code : pydict :=
  [(lit "msg", PStr (lit "x")); (lit "code", PInt (-1))].

(** [{"v0": "##A"}] *)
Definition batch_two_hashes : pydict := [(lit "v0", PStr (lit "##A"))].

(** The message [heyao 123] and the order id in it. *)
Definition ask_123 : pystr := lit "heyao 123".
Definition id_123 : pystr := lit "123".

Definition fresh : state :=
  {| last_image_path := None; disk := installed; events := [] |}.

Definition temp_image (name : pystr) : path :=
  path_div (path_div (PLUGIN_DIR (Host := linux)) (lit "temp_images")) name.

(** The file two renders of [batch_ABC] within the second of [noon]
    are both written to. *)
Definition image_ABC : path := temp_image (lit "Heyao_A_B_C_20240102120005_%f.png").

(** The state after [heyao 123] was answered with [batch_ABC] and the
    image was delivered. *)
Definition delivered : state :=
  snd (handle_heyao_query (host := linux)
         (calm (http_200 (found (PDict batch_ABC))) 17) ask_123 fresh).

End Fixture.

(* ===================================================================== *)
(** ** The request, sessions and what stays on disk *)
(* ===================================================================== *)

(** One hexadecimal digit, lower case *)
Definition hex_digit (n : N) : N := if n <? 10 then 48 + n else 87 + n.

(** ['{0:04x}'.format(n)] for [n < 0x10000] *)
Definition hex4 (n : N) : pystr :=
  [ hex_digit (n / 4096 mod 16); hex_digit (n / 256 mod 16);
    hex_digit (n / 16 mod 16); hex_digit (n mod 16) ].

Definition u_escape (n : N) : pystr := [92; 117] ++ hex4 n.

(** What [json.dumps] (with [ensure_ascii], its default) writes for one
    character of a string: the short escapes, the printable ASCII range
    as it is, [\uXXXX] for the rest, as a surrogate pair above the
    basic plane. *)
Definition escape_char (c : N) : pystr :=
  if c =? 92 then [92; 92]
  else if c =? 34 then [92; 34]
  else if c =? 8 then [92; 98]
  else if c =? 12 then [92; 102]
  else if c =? 10 then [92; 110]
  else if c =? 13 then [92; 114]
  else if c =? 9 then [92; 116]
  else if (32 <=? c) && (c <=? 126) then [c]
  else if c <? 65536 then u_escape c
  else
    let n := c - 65536 in
    u_escape (N.lor 55296 (N.land (N.shiftr n 10) 1023))
    ++ u_escape (N.lor 56320 (N.land n 1023)).

(** [json.dumps(s)] for a [str] *)
Definition json_string (s : pystr) : pystr :=
  [34] ++ flat_map escape_char s ++ [34].

(** [json.dumps([{"key": "v2", "value": content}])] *)
Definition contentList (content : pystr) : pystr :=
  lit "[{" ++ json_string (lit "key") ++ lit ": " ++ json_string (lit "v2")
  ++ lit ", " ++ json_string (lit "value") ++ lit ": " ++ json_string content
  ++ lit "}]".

(** lines 32-37: the form fields of the request *)
Definition payload (content : pystr) : list (pystr * pystr) :=
  [ (lit "wxappAid", lit "3086825");
    (lit "wxappId", lit "101");
    (lit "itemId", lit "103");
    (lit "contentList", contentList content) ].

Definition printable_ascii (c : N) : bool := (32 <=? c) && (c <=? 126).

(** A character other than [/], [\] and space. *)
Definition safe_char (c : N) : bool :=
  negb ((c =? 47) || (c =? 92) || (c =? 32)).

(** [HeyaoQueryStar.__init__]: no image yet. *)
Definition init (fs : filesys) : state :=
  {| last_image_path := None; disk := fs; events := [] |}.

(** The events an invocation adds to those of [s]. *)
Definition new_events (s s' : state) : list event :=
  drop (length (events s)) (events s').



Section Sessions.
Context {host : Host}.

(** Invocations one after another on the same plugin instance, each
    with its message and with what the world does meanwhile. *)
Fixpoint session (calls : list (env * pystr)) (s : state) : state :=
  match calls with
  | [] => s
  | (E, full_message) :: rest =>
    session rest (snd (handle_heyao_query E full_message s))
  end.

Definition temp_image_dir : path := path_div PLUGIN_DIR (lit "temp_images").

(** A path directly inside the scratch directory. *)
Definition in_temp_images (p : path) : Prop :=
  exists name, p = path_div temp_image_dir name.

(** The pointer, when set, is a path inside the scratch directory. *)
Definition pointer_in_temp (s : state) : Prop :=
  forall p, last_image_path s = Some p -> in_temp_images p.


(** The seven draw calls of lines 114-155 in order, for the time stamp
    [timestamp] and the font [f]. *)
Definition draw_calls (data : pydict) (timestamp : pystr) (f : font)
    : list drawn :=
  List.map (fun '(key, xy) =>
              {| at_xy := xy; text := field_text data key; in_font := f |})
           field_layout
  ++ [{| at_xy := (1210, 2680)%Z; text := timestamp; in_font := f |}].

Definition draw_works (E : env) (d : drawn) : bool :=
  negb (draw_fails E (at_xy d) (text d) (in_font d)).

(** Fonts load; drawing may fail. *)
Definition fonts_fine (E : env) : Prop :=
  (forall p z, truetype_fails E p z = false)
  /\ load_default_fails E = false.

End Sessions.

(** A character that is no path separator. *)
Definition not_separator (c : N) : bool := negb ((c =? 47) || (c =? 92)).

(** A file name as [generate_image] makes them and as [pathlib] takes
    for one component: it begins with [Heyao_] and has no separator in
    it. *)
Definition generated_name (name : pystr) : Prop :=
  starts_with (lit "Heyao_") name = true
  /\ forallb not_separator name = true.

(** [p.exists()] with its failure: [pathlib] returns [False] when the
    path is not there and raises when [stat] fails for another reason
    (no permission on a directory above, say); [denied] says for which
    paths it does. *)
Definition exists_or_raise (denied : path -> bool) (fs : filesys) (p : path)
    : py bool :=
  if denied p then Raise OSError else Ok (path_exists fs p).

Section WithStatErrors.
Context {host : Host}.

(** A file of the scratch directory with a generated name. *)
Definition scratch_file (p : path) : Prop :=
  exists name, p = path_div temp_image_dir name /\ generated_name name.

Definition pointer_is_scratch_file (s : state) : Prop :=
  forall p, last_image_path s = Some p -> scratch_file p.

(** The C library puts no separator into the stamp of the file name. *)
Definition stamp_without_separator : Prop :=
  forall t ts,
    libc_strftime (lit "%Y%m%d%H%M%S_%f") t = Some ts ->
    forallb not_separator ts = true.

(** [generate_image] when [exists()] may raise.  Lines 90 and 94 are
    inside the [try]: a raising [exists()] ends in the [except] of line
    173 and gives [None], the scratch directory made or not; where
    neither raises the function goes as [generate_image] does. *)
Definition generate_image_stat (denied : path -> bool) (E : env)
    (fs : filesys) (data : pydict) : option path * filesys :=
  if mkdir_fails E then (None, fs)
  else if denied (resource_path (lit "hymb.png")) then (None, fs)
  else if negb (path_exists fs (resource_path (lit "hymb.png"))) then (None, fs)
  else if denied (resource_path (lit "FZSTK.TTF")) then (None, fs)
  else generate_image E fs data.

(** lines 265-274, with the [exists()] of line 265, which no [try]
    encloses *)
Definition remove_previous_stat (denied : path -> bool) (E : env) : H unit :=
  last ← read last_image_path;
  fs ← read disk;
  match last with
  | Some p =>
    there ← lift (exists_or_raise denied fs p);
    if there : bool then
      _ ← emit (Unlink p);
      if unlink_fails E p then mret tt else set_disk (delete p fs)
    else mret tt
  | None => mret tt
  end.

(** lines 279-310, with the [exists()] of line 282, which no [try]
    encloses *)
Definition render_and_deliver_stat (denied : path -> bool) (E : env)
    (order_details : pydict) (order_id_user : pystr) : H unit :=
  fs ← read disk;
  _ ← emit (Render order_details);
  let '(image_path, fs') := generate_image_stat denied E fs order_details in
  _ ← set_disk fs';
  match image_path with
  | Some p =>
    there ← lift (exists_or_raise denied fs' p);
    if there : bool then
      _ ← set_last_image_path p;
      _ ← emit (Package p);
      if packaging_fails E then
        yield (plain_result not_sent_text)
      else
        yield (chain_result [ImageComp p])
    else
      yield (plain_result (render_failed_text order_id_user))
  | None =>
    yield (plain_result (render_failed_text order_id_user))
  end.

(** [handle_heyao_query] when [exists()] may raise: the handler as
    above, with the two phases that call [exists()] replaced. *)
Definition handle_heyao_query_stat (denied : path -> bool) (E : env)
    (full_message : pystr) : H unit :=
  let parts := split 1 full_message in
  if (length parts <? 2)%nat
     || negb (truthy (PStr (strip (nth 1 parts [])))) then
    yield (plain_result usage_text)
  else
    let order_id_user := strip (nth 1 parts []) in
    if negb (truthy (PStr order_id_user)) then
      yield (plain_result empty_id_text)
    else
      _ ← yield (plain_result (searching_text order_id_user));
      _ ← emit (Fetch order_id_user);
      api_data ← lift (fetch_wechat_info (http_post E order_id_user));
      match api_data with
      | PNone =>
        yield (plain_result (fetch_failed_text order_id_user))
      | _ =>
        match parse_response api_data order_id_user with
        | Raise _ =>
          yield (plain_result (processing_error_text order_id_user))
        | Ok (Reply msg) => yield (plain_result msg)
        | Ok (Details order_details) =>
          _ ← remove_previous_stat denied E;
          render_and_deliver_stat denied E order_details order_id_user
        end
      end.

(** Invocations one after another on the same plugin instance, each
    with the paths [exists()] raises for, with what the world does
    meanwhile and with its message.  The instance outlives an
    invocation that raises. *)
Fixpoint session_stat (calls : list ((path -> bool) * env * pystr))
    (s : state) : state :=
  match calls with
  | [] => s
  | (denied, E, full_message) :: rest =>
    session_stat rest (snd (handle_heyao_query_stat denied E full_message s))
  end.

End WithStatErrors.

(** Further fixtures for closed examples. *)
Module Fixture2.
Import Fixture.

(** As [calm], but the draw call for the second field, at (1450, 1300),
    fails. *)
Definition smudged (answer : py response) : env := {|
  http_post := fun _ => answer;
  mkdir_fails := false;
  truetype_fails := fun _ _ => false;
  load_default_fails := false;
  draw_fails := fun xy _ _ => bool_decide (xy = (1450, 1300)%Z);
  save_fails := fun _ => false;
  unlink_fails := fun _ => false;
  packaging_fails := false;
  draw_clock := {| local_time := noon; microsecond := 0 |};
  name_clock := {| local_time := noon; microsecond := 0 |} |}.

(** A 404 whose body is no JSON. *)
Definition http_404 : py response :=
  Ok {| status_code := 404; json := Raise JSONDecodeError |}.

(** The file a render of [batch_two_hashes] within the second of [noon]
    is written to. *)
Definition image_A : path := temp_image (lit "Heyao_A_20240102120005_%f.png").


(** [exists()] raises for no path. *)
Definition never_denied : path -> bool := fun _ => false.

(** [exists()] raises for [image_ABC] and for no other path. *)
Definition image_ABC_denied : path -> bool :=
  fun p => bool_decide (p = image_ABC).

(** [two_calls], the [exists()] of the first raising for the image it
    has written. *)
Definition two_calls_stat : list ((path -> bool) * env * pystr) :=
  [ (image_ABC_denied, calm (http_200 (found (PDict batch_ABC))) 0, ask_123);
    (never_denied, calm (http_200 (found (PDict batch_two_hashes))) 0,
     ask_123) ].

(** The message [heyao  12 34 ], in parts. *)
Definition heyao : pystr := lit "heyao".
Definition spaced_id : pystr := lit " 12 34 ".

End Fixture2.

(* ===================================================================== *)
(** ** Properties of the API client *)
(* ===================================================================== *)

Lemma status_200_ok (r : response) :
  status_code r = 200%Z -> response_ok r = true.
Proof. unfold response_ok. intros ->. reflexivity. Qed.

Lemma fetch_wechat_info_closed_form (post : py response) :
  fetch_wechat_info post =
  Ok match post with
     | Ok r =>
       if (status_code r =? 200)%Z
       then match json r with Ok j => j | Raise _ => PNone end
       else PNone
     | Raise _ => PNone
     end.
Proof.
  unfold fetch_wechat_info, try_except.
  destruct post as [r|e]; cbn.
  - destruct (Z.eqb_spec (status_code r) 200) as [E200|N200].
    + unfold raise_for_status.
      rewrite (status_200_ok r E200). cbn.
      destruct (json r) as [j|e]; cbn; [reflexivity|].
      destruct e; reflexivity.
    + rewrite andb_false_r. destruct (response_ok r); reflexivity.
  - destruct e; reflexivity.
Qed.

(** C6: [fetch_wechat_info] never raises.  When [requests.post] raises
    (a timeout, any network failure), when the status is not 200 and
    when [response.json()] raises, it returns [None]; a status of 200
    with a body that decodes gives the decoded value, and nothing else
    gives a value other than [None]. *)
Theorem fetch_wechat_info_failure_sentinel :
  forall post : py response,
    (exists v, fetch_wechat_info post = Ok v)
    /\ (forall e, post = Raise e -> fetch_wechat_info post = Ok PNone)
    /\ (forall r, post = Ok r -> status_code r <> 200%Z ->
                  fetch_wechat_info post = Ok PNone)
    /\ (forall r e, post = Ok r -> json r = Raise e ->
                    fetch_wechat_info post = Ok PNone)
    /\ (forall r j, post = Ok r -> status_code r = 200%Z -> json r = Ok j ->
                    fetch_wechat_info post = Ok j)
    /\ (forall v, fetch_wechat_info post = Ok v -> v <> PNone ->
                  exists r, post = Ok r /\ status_code r = 200%Z
                            /\ json r = Ok v).
Proof.
  intros post. rewrite fetch_wechat_info_closed_form.
  split; [eauto|].
  split; [intros e ->; reflexivity|].
  split.
  { intros r -> Hne. apply Z.eqb_neq in Hne. rewrite Hne. reflexivity. }
  split.
  { intros r e -> Hj. rewrite Hj. destruct (status_code r =? 200)%Z; reflexivity. }
  split.
  { intros r j -> Hs Hj. rewrite Hs, Hj. reflexivity. }
  intros v Hv Hne. destruct post as [r|e].
  - destruct (Z.eqb_spec (status_code r) 200) as [E200|N200].
    + destruct (json r) as [j|e] eqn:Hj.
      * exists r. repeat split; [assumption|]. congruence.
      * congruence.
    + congruence.
  - congruence.
Qed.

(* ===================================================================== *)
(** ** The handler, phase by phase *)
(* ===================================================================== *)

Section HandlerFacts.
Context {host : Host}.

Lemma emit_log (e : event) (s : state) : emit e s = (Ok tt, log s [e]).
Proof. reflexivity. Qed.

Lemma log_log (s : state) (a b : list event) : log (log s a) b = log s (a ++ b).
Proof. unfold log; cbn. by rewrite <- app_assoc. Qed.

(** Validation fails: the usage text and nothing else. *)
Lemma handle_rejects (E : env) (msg : pystr) (s : state) :
  order_id_of msg = None ->
  handle_heyao_query E msg s = (Ok tt, log s [Yield (plain_result usage_text)]).
Proof.
  unfold order_id_of, handle_heyao_query. intros Hnone.
  destruct ((length (split 1 msg) <? 2)%nat
            || negb (truthy (PStr (strip (nth 1 (split 1 msg) []))))).
  - reflexivity.
  - discriminate.
Qed.

(** Validation passes: the second check of line 212 never fires, the
    acknowledgement goes out and the API is asked. *)
Lemma handle_accepts (E : env) (msg order : pystr) (s : state) :
  order_id_of msg = Some order ->
  handle_heyao_query E msg s =
  let s1 := log s [Yield (plain_result (searching_text order)); Fetch order] in
  match fetch_wechat_info (http_post E order) with
  | Raise e => (Raise e, s1)
  | Ok PNone =>
    (Ok tt, log s1 [Yield (plain_result (fetch_failed_text order))])
  | Ok api_data =>
    match parse_response api_data order with
    | Raise _ =>
      (Ok tt, log s1 [Yield (plain_result (processing_error_text order))])
    | Ok (Reply text) => (Ok tt, log s1 [Yield (plain_result text)])
    | Ok (Details order_details) =>
      (_ ← remove_previous E; render_and_deliver E order_details order) s1
    end
  end.
Proof.
  unfold order_id_of, handle_heyao_query. intros Hsome.
  destruct ((length (split 1 msg) <? 2)%nat
            || negb (truthy (PStr (strip (nth 1 (split 1 msg) []))))) eqn:Hguard.
  - discriminate.
  - injection Hsome as <-.
    apply orb_false_elim in Hguard as [_ Hstrip].
    rewrite Hstrip. cbn zeta.
    unfold mbind, H_bind, yield. rewrite emit_log, emit_log, log_log.
    unfold lift. cbn [app].
    destruct (fetch_wechat_info _) as [api|e]; [|reflexivity].
    destruct api; try reflexivity;
      (destruct (parse_response _ _) as [[text|details]|e]; reflexivity).
Qed.

End HandlerFacts.

Section DiskFacts.

Lemma path_exists_insert (fs : filesys) (p : path) (f : file) :
  path_exists (<[p := f]> fs) p = true.
Proof.
  unfold path_exists. apply bool_decide_eq_true.
  rewrite lookup_insert_eq. eauto.
Qed.

Lemma path_exists_delete (fs : filesys) (p : path) :
  path_exists (delete p fs) p = false.
Proof.
  unfold path_exists. apply bool_decide_eq_false.
  rewrite lookup_delete_eq. intros [x Hx]. discriminate.
Qed.

Lemma path_exists_lookup (fs : filesys) (p : path) (f : file) :
  fs !! p = Some f -> path_exists fs p = true.
Proof.
  intros Hf. unfold path_exists. apply bool_decide_eq_true. eauto.
Qed.

Lemma path_exists_none (fs : filesys) (p : path) :
  fs !! p = None -> path_exists fs p = false.
Proof.
  intros Hf. unfold path_exists. apply bool_decide_eq_false.
  rewrite Hf. intros [x Hx]. discriminate.
Qed.

End DiskFacts.

Section CleanupFacts.
Context {host : Host}.

(** What [remove_previous] leaves: without a pointer, or with a pointer
    to a file that is gone, nothing happens; otherwise the file is
    unlinked, unless [unlink] fails.  The pointer is not touched. *)
Lemma remove_previous_spec (E : env) (s : state) :
  remove_previous E s =
  (Ok tt,
   match last_image_path s with
   | Some p =>
     if path_exists (disk s) p then
       {| last_image_path := last_image_path s;
          disk := if unlink_fails E p then disk s else delete p (disk s);
          events := events s ++ [Unlink p] |}
     else s
   | None => s
   end).
Proof.
  unfold remove_previous, read, mbind, H_bind, mret, H_ret.
  destruct (last_image_path s) as [p|] eqn:Hlast; [|reflexivity].
  destruct (path_exists (disk s) p); [|reflexivity].
  rewrite emit_log.
  destruct (unlink_fails E p); unfold set_disk, log; cbn; rewrite Hlast.
  - reflexivity.
  - reflexivity.
Qed.

Lemma at_render_pointer (E : env) (s : state) (order : pystr) :
  last_image_path (at_render E s order) = last_image_path s.
Proof.
  unfold at_render. rewrite remove_previous_spec. unfold log. cbn.
  destruct (last_image_path s) as [p|] eqn:Hl; [|cbn; congruence].
  destruct (path_exists (disk s) p); cbn; congruence.
Qed.

(** The previous image at the moment rendering starts: it is there only
    if it was there before and could not be unlinked. *)
Lemma at_render_previous (E : env) (s : state) (order : pystr) (p1 : path) :
  last_image_path s = Some p1 ->
  path_exists (disk (at_render E s order)) p1
  = path_exists (disk s) p1 && unlink_fails E p1.
Proof.
  intros Hl. unfold at_render. rewrite remove_previous_spec. unfold log. cbn.
  rewrite Hl.
  destruct (path_exists (disk s) p1) eqn:Hex; cbn.
  - destruct (unlink_fails E p1); [assumption|].
    apply path_exists_delete.
  - assumption.
Qed.

(** [generate_image] either gives up and leaves the disk as it was, or
    writes one image file and returns its path. *)
Lemma generate_image_result (E : env) (fs : filesys) (data : pydict) :
  generate_image E fs data = (None, fs)
  \/ exists p img, generate_image E fs data = (Some p, <[p := ImageFile img]> fs).
Proof.
  unfold generate_image.
  destruct (mkdir_fails E); [by left|].
  destruct (path_exists fs (resource_path (lit "hymb.png")));
    cbn [negb]; [|by left].
  destruct (image_open_rgb fs _) as [img|e];
    cbn [mbind py_bind bind]; [|destruct e; by left].
  destruct (time_strftime _ (draw_clock E)) as [ts|e];
    cbn [mbind py_bind bind]; [|destruct e; by left].
  destruct (sanitize _) as [sb|e];
    cbn [mbind py_bind bind]; [|destruct e; by left].
  destruct (time_strftime _ (name_clock E)) as [ts2|e];
    cbn [mbind py_bind bind]; [|destruct e; by left].
  destruct (save_fails E _); [by left|].
  right. eexists _, _. reflexivity.
Qed.

(** From the call of [generate_image] on: the outcome of lines 279-310. *)
Lemma render_and_deliver_spec (E : env) (details : pydict) (order : pystr)
    (s : state) :
  render_and_deliver E details order s =
  match generate_image E (disk s) details with
  | (Some p, fs') =>
    (Ok tt,
     {| last_image_path := Some p; disk := fs';
        events := events s
                  ++ [Render details; SetLast p; Package p;
                      Yield (if packaging_fails E
                             then plain_result not_sent_text
                             else chain_result [ImageComp p])] |})
  | (None, fs') =>
    (Ok tt,
     {| last_image_path := last_image_path s; disk := fs';
        events := events s
                  ++ [Render details;
                      Yield (plain_result (render_failed_text order))] |})
  end.
Proof.
  unfold render_and_deliver, read, mbind, H_bind.
  rewrite emit_log. cbn [disk log].
  destruct (generate_image_result E (disk s) details) as [Hr|(p & img & Hr)];
    rewrite Hr.
  - unfold set_disk, yield, emit. cbn. by rewrite <- app_assoc.
  - unfold set_disk. cbn -[path_exists].
    rewrite path_exists_insert.
    unfold set_last_image_path. cbn.
    destruct (packaging_fails E); unfold yield, emit; cbn;
      by rewrite <- !app_assoc.
Qed.

End CleanupFacts.

Section HandlerClaims.
Context {host : Host}.

(** An invocation whose response parses goes on to render, in the state
    [at_render]. *)
Lemma handle_renders (E : env) (msg order : pystr) (api : pyval)
    (details : pydict) (s : state) :
  order_id_of msg = Some order ->
  fetch_wechat_info (http_post E order) = Ok api ->
  parse_response api order = Ok (Details details) ->
  handle_heyao_query E msg s
  = render_and_deliver E details order (at_render E s order).
Proof.
  intros Hid Hfetch Hparse.
  rewrite (handle_accepts E msg order s Hid). cbn zeta.
  rewrite Hfetch.
  assert (Hnn : api <> PNone) by (intros ->; discriminate Hparse).
  unfold at_render.
  destruct api; try contradiction; rewrite Hparse;
    unfold mbind, H_bind; rewrite remove_previous_spec; reflexivity.
Qed.

(** C5: a message without a second whitespace-separated token, or whose
    second token is empty once trimmed, gets the usage text and nothing
    else: the state is as before but for that one reply, and the API
    client is not called. *)
Theorem usage_error_without_network_call :
  forall (E : env) (full_message : pystr) (s : state),
    (length (split 1 full_message) < 2)%nat
    \/ strip (nth 1 (split 1 full_message) []) = [] ->
    exists s',
      handle_heyao_query E full_message s = (Ok tt, s')
      /\ events s' = events s ++ [Yield (plain_result usage_text)]
      /\ last_image_path s' = last_image_path s
      /\ disk s' = disk s
      /\ (forall content,
             ~ In (Fetch content) (drop (length (events s)) (events s'))).
Proof.
  intros E msg s Hbad.
  assert (Hnone : order_id_of msg = None).
  { unfold order_id_of.
    destruct Hbad as [Hlen|Hempty].
    - apply Nat.ltb_lt in Hlen. rewrite Hlen. reflexivity.
    - rewrite Hempty. cbn. rewrite orb_true_r. reflexivity. }
  exists (log s [Yield (plain_result usage_text)]).
  split; [apply handle_rejects; assumption|].
  cbn. repeat split.
  intros content. rewrite drop_app_length. cbn. intros [Habs|[]]. discriminate.
Qed.

(** C8: when rendering succeeds, the pointer is set to the new file
    before the image is packaged for delivery; if packaging fails the
    reply is the degraded text, and either way the new file is on disk
    and the pointer refers to it when the handler is done. *)
Theorem pointer_set_before_handoff :
  forall (E : env) (full_message order : pystr) (api : pyval)
         (details : pydict) (s : state) (p : path) (fs' : filesys),
    order_id_of full_message = Some order ->
    fetch_wechat_info (http_post E order) = Ok api ->
    parse_response api order = Ok (Details details) ->
    generate_image E (disk (at_render E s order)) details = (Some p, fs') ->
    exists s',
      handle_heyao_query E full_message s = (Ok tt, s')
      /\ events s'
         = events (at_render E s order)
           ++ [Render details; SetLast p; Package p;
               Yield (if packaging_fails E
                      then plain_result not_sent_text
                      else chain_result [ImageComp p])]
      /\ last_image_path s' = Some p
      /\ path_exists (disk s') p = true.
Proof.
  intros E msg order api details s p fs' Hid Hfetch Hparse Hgen.
  rewrite (handle_renders E msg order api details s Hid Hfetch Hparse).
  rewrite render_and_deliver_spec, Hgen.
  eexists. split; [reflexivity|]. cbn -[path_exists].
  repeat split.
  destruct (generate_image_result E (disk (at_render E s order)) details)
    as [Hr|(p' & img & Hr)]; rewrite Hr in Hgen.
  - discriminate.
  - injection Hgen as <- <-. apply path_exists_insert.
Qed.

(** C2, amended: when an invocation gets to rendering and rendering
    fails, the pointer is what it was: a failed generation neither
    clears nor replaces it.  The file it refers to has been unlinked
    before rendering began; it is still on disk only if it was there
    and the unlink failed. *)
Theorem failed_render_keeps_pointer :
  forall (E : env) (full_message order : pystr) (api : pyval)
         (details : pydict) (s : state) (p1 : path),
    last_image_path s = Some p1 ->
    order_id_of full_message = Some order ->
    fetch_wechat_info (http_post E order) = Ok api ->
    parse_response api order = Ok (Details details) ->
    fst (generate_image E (disk (at_render E s order)) details) = None ->
    exists s',
      handle_heyao_query E full_message s = (Ok tt, s')
      /\ last_image_path s' = Some p1
      /\ path_exists (disk s') p1
         = path_exists (disk s) p1 && unlink_fails E p1
      /\ events s'
         = events (at_render E s order)
           ++ [Render details; Yield (plain_result (render_failed_text order))].
Proof.
  intros E msg order api details s p1 Hl Hid Hfetch Hparse Hgen.
  rewrite (handle_renders E msg order api details s Hid Hfetch Hparse).
  rewrite render_and_deliver_spec.
  destruct (generate_image_result E (disk (at_render E s order)) details)
    as [Hr|(p' & img & Hr)]; rewrite Hr in Hgen |- *.
  - eexists. split; [reflexivity|]. cbn -[path_exists].
    rewrite at_render_pointer.
    split; [assumption|].
    split; [|reflexivity].
    apply at_render_previous. assumption.
  - discriminate.
Qed.

End HandlerClaims.

Section ExtractionClaims.
Context {host : Host}.

Lemma get_dict (d : pydict) (key : pystr) (default : pyval) :
  get (PDict d) key default = Ok (dict_get d key default).
Proof. reflexivity. Qed.

(** Lines 236-242 on a JSON object: the message text, in closed form. *)
Lemma build_error_msg_spec (d : pydict) (order : pystr) :
  build_error_msg (PDict d) order = Ok (error_msg_msg_first d order).
Proof.
  unfold build_error_msg, error_msg_msg_first.
  rewrite !get_dict. cbn [mbind py_bind bind].
  set (code := eq_int (dict_get d (lit "code") PNone) (-1)).
  assert (Hgg : eq_str (PStr GENERIC) GENERIC = true).
  { unfold eq_str, str_eqb. by rewrite bool_decide_eq_true_2. }
  unfold dict_get, contains, getitem.
  destruct (lookup_key d (lit "msg")) as [m|] eqn:Hmsg.
  - destruct (eq_str m GENERIC) eqn:Hgen; [|reflexivity].
    destruct code; [reflexivity|].
    destruct (lookup_key d (lit "error")); [reflexivity|].
    destruct m; try discriminate Hgen.
    unfold eq_str, str_eqb in Hgen. apply bool_decide_eq_true in Hgen.
    subst. reflexivity.
  - rewrite Hgg. destruct code; [reflexivity|].
    destruct (lookup_key d (lit "error")); reflexivity.
Qed.

(** Line 234 fires when [queryDataList] is absent, an empty list or not
    a list. *)
Lemma no_results_of_shape (d : pydict) :
  lookup_key d (lit "queryDataList") = None
  \/ lookup_key d (lit "queryDataList") = Some (PList [])
  \/ (exists v, lookup_key d (lit "queryDataList") = Some v
                /\ is_list v = false) ->
  no_results (dict_get d (lit "queryDataList") PNone) = true.
Proof.
  unfold dict_get. intros [->|[->|(v & -> & Hv)]]; [reflexivity..|].
  unfold no_results. rewrite Hv. destruct (truthy v); reflexivity.
Qed.

(** Line 234 does not fire on a non-empty list, and on nothing else. *)
Lemma no_results_false_iff (q : pyval) :
  no_results q = false <-> exists x l, q = PList (x :: l).
Proof.
  split.
  - unfold no_results. intros Hq.
    apply orb_false_elim in Hq as [Hq _].
    apply orb_false_elim in Hq as [Ht Hl].
    destruct q as [ | | | | | l | ]; try discriminate Hl.
    destruct l as [|x l]; [discriminate Ht|eauto].
  - intros (x & l & ->). reflexivity.
Qed.

(** C1, amended: for a JSON object whose [queryDataList] is absent,
    empty or not a list, the reply is the query-failed text built with
    the precedence: the [msg] value first, when there is one and it is
    not the generic text itself; otherwise [code == -1] as
    order-not-found; otherwise the [error] field; otherwise the generic
    fallback.  In particular, with both an [error] field and a [msg]
    other than the generic text, the reply is built from [msg] alone,
    whatever [error] holds. *)
Theorem error_message_precedence :
  forall (E : env) (full_message order : pystr) (d : pydict) (s : state),
    order_id_of full_message = Some order ->
    fetch_wechat_info (http_post E order) = Ok (PDict d) ->
    lookup_key d (lit "queryDataList") = None
    \/ lookup_key d (lit "queryDataList") = Some (PList [])
    \/ (exists v, lookup_key d (lit "queryDataList") = Some v
                  /\ is_list v = false) ->
    parse_response (PDict d) order
    = Ok (Reply (query_failed_text (error_msg_msg_first d order) order))
    /\ handle_heyao_query E full_message s
       = (Ok tt,
          log s [Yield (plain_result (searching_text order));
                 Fetch order;
                 Yield (plain_result
                          (query_failed_text (error_msg_msg_first d order)
                                             order))])
    /\ (forall m,
          lookup_key d (lit "msg") = Some m -> eq_str m GENERIC = false ->
          error_msg_msg_first d order = str m)
    /\ (lookup_key d (lit "msg") = None
        \/ (exists m, lookup_key d (lit "msg") = Some m
                      /\ eq_str m GENERIC = true) ->
        (eq_int (dict_get d (lit "code") PNone) (-1) = true ->
         error_msg_msg_first d order = not_found_text order)
        /\ (eq_int (dict_get d (lit "code") PNone) (-1) = false ->
            forall e, lookup_key d (lit "error") = Some e ->
                      error_msg_msg_first d order = api_error_text (str e))
        /\ (eq_int (dict_get d (lit "code") PNone) (-1) = false ->
            lookup_key d (lit "error") = None ->
            error_msg_msg_first d order = GENERIC)).
Proof.
  intros E msg order d s Hid Hfetch Hshape.
  pose proof (no_results_of_shape d Hshape) as Hno.
  assert (Hparse : parse_response (PDict d) order
            = Ok (Reply (query_failed_text (error_msg_msg_first d order) order))).
  { unfold parse_response. rewrite get_dict. cbn [mbind py_bind bind].
    rewrite Hno, build_error_msg_spec. reflexivity. }
  split; [exact Hparse|].
  split.
  { rewrite (handle_accepts E msg order s Hid). cbn zeta.
    rewrite Hfetch, Hparse, log_log. reflexivity. }
  split.
  { intros m Hm Hgen. unfold error_msg_msg_first. rewrite Hm, Hgen.
    reflexivity. }
  intros Hmsg.
  assert (Hrest : error_msg_msg_first d order
                  = if eq_int (dict_get d (lit "code") PNone) (-1)
                    then not_found_text order
                    else match lookup_key d (lit "error") with
                         | Some e => api_error_text (str e)
                         | None => GENERIC
                         end).
  { unfold error_msg_msg_first.
    destruct Hmsg as [->|(m & -> & ->)]; reflexivity. }
  rewrite Hrest.
  split; [intros ->; reflexivity|].
  split.
  - intros -> e ->. reflexivity.
  - intros -> ->. reflexivity.
Qed.

(** C7, amended: when [queryDataList] is a non-empty list and the
    [content] of its first element is a non-empty dictionary, the
    extraction gives exactly that dictionary, and it is the argument of
    [generate_image]. *)
Theorem content_passes_unchanged :
  forall (E : env) (full_message order : pystr) (d item content : pydict)
         (others : list pyval) (s : state),
    order_id_of full_message = Some order ->
    fetch_wechat_info (http_post E order) = Ok (PDict d) ->
    lookup_key d (lit "queryDataList") = Some (PList (PDict item :: others)) ->
    lookup_key item (lit "content") = Some (PDict content) ->
    content <> [] ->
    parse_response (PDict d) order = Ok (Details content)
    /\ handle_heyao_query E full_message s
       = render_and_deliver E content order (at_render E s order)
    /\ exists rest,
         drop (length (events (at_render E s order)))
              (events (snd (handle_heyao_query E full_message s)))
         = Render content :: rest.
Proof.
  intros E msg order d item content others s Hid Hfetch Hq Hc Hne.
  assert (Hparse : parse_response (PDict d) order = Ok (Details content)).
  { unfold parse_response. rewrite get_dict. unfold dict_get. rewrite Hq.
    cbn [mbind py_bind bind no_results truthy is_list negb orb length
         Nat.eqb first_item].
    rewrite get_dict. unfold dict_get. rewrite Hc.
    cbn [mbind py_bind bind].
    destruct content; [contradiction|reflexivity]. }
  split; [exact Hparse|].
  rewrite (handle_renders E msg order (PDict d) content s Hid Hfetch Hparse).
  split; [reflexivity|].
  rewrite render_and_deliver_spec.
  destruct (generate_image E (disk (at_render E s order)) content)
    as [[p|] fs']; cbn [snd events]; rewrite drop_app_length; eauto.
Qed.

End ExtractionClaims.

(* ===================================================================== *)
(** ** Properties of the renderer *)
(* ===================================================================== *)

Section DrawingFacts.
Context {host : Host}.

Lemma painted_over_refl (P : drawn -> Prop) (img : image) :
  painted_over P img img.
Proof. split; [reflexivity|]. exists []. split; [reflexivity|constructor]. Qed.

Lemma painted_over_trans (P : drawn -> Prop) (a b c : image) :
  painted_over P a b -> painted_over P b c -> painted_over P a c.
Proof.
  intros [Hs1 (n1 & Ht1 & Hp1)] [Hs2 (n2 & Ht2 & Hp2)].
  split; [congruence|].
  exists (n2 ++ n1). split.
  - rewrite Ht2, Ht1. by rewrite <- app_assoc.
  - apply Forall_app; split; assumption.
Qed.

Lemma draw_text_painted (P : drawn -> Prop) (E : env) (img img' : image)
    (xy : Z * Z) (s : pystr) (f : font) :
  P {| at_xy := xy; text := s; in_font := f |} ->
  draw_text E img xy s f = Ok img' ->
  painted_over P img img'.
Proof.
  unfold draw_text. intros HP Hd.
  destruct (draw_fails E xy s f); [discriminate|].
  injection Hd as <-. split; [reflexivity|].
  exists [{| at_xy := xy; text := s; in_font := f |}].
  split; [reflexivity|]. by constructor.
Qed.

(** Without a font file the only font there is to pick is the default
    one; whether it loads or not, nothing is raised. *)
Lemma pick_font_without_file (E : env) (size : Z) :
  pick_font E None size
  = if load_default_fails E then None else Some DefaultFont.
Proof.
  unfold pick_font, try_except, load_default.
  destruct (load_default_fails E); reflexivity.
Qed.

Lemma pick_font_fine (E : env) (font_path : option path) (size : Z) :
  drawing_fine E ->
  pick_font E font_path size
  = Some match font_path with
         | Some p => TrueType p size
         | None => DefaultFont
         end.
Proof.
  intros (Htt & Hld & _). unfold pick_font, try_except, truetype, load_default.
  destruct font_path as [p|]; [rewrite Htt|rewrite Hld]; reflexivity.
Qed.

(** A round of the drawing loop keeps the dimensions and adds at most
    one piece of text, in a font [pick_font] gave. *)
Lemma draw_field_painted (E : env) (font_path : option path) (img : image)
    (item : pyval * (Z * Z) * Z) :
  painted_over
    (fun d => exists size, pick_font E font_path size = Some (in_font d))
    img (draw_field E font_path img item).
Proof.
  destruct item as [[v xy] size]. unfold draw_field.
  destruct (pick_font E font_path size) as [f|] eqn:Hf;
    [|apply painted_over_refl].
  destruct (draw_text E img xy (str v) f) as [img'|e] eqn:Hd;
    [|apply painted_over_refl].
  eapply draw_text_painted; [|exact Hd]. cbn. eauto.
Qed.

Lemma draw_loop_painted (E : env) (font_path : option path)
    (items : list (pyval * (Z * Z) * Z)) (img : image) :
  painted_over
    (fun d => exists size, pick_font E font_path size = Some (in_font d))
    img (fold_left (draw_field E font_path) items img).
Proof.
  revert img. induction items as [|item items IH]; intros img; cbn [fold_left].
  - apply painted_over_refl.
  - eapply painted_over_trans; [apply draw_field_painted|apply IH].
Qed.

(** When fonts load and drawing works, a round adds its text. *)
Lemma draw_field_fine (E : env) (font_path : option path) (img : image)
    (v : pyval) (xy : Z * Z) (size : Z) :
  drawing_fine E ->
  draw_field E font_path img (v, xy, size)
  = {| im_mode := im_mode img; im_size := im_size img;
       im_text := {| at_xy := xy; text := str v;
                     in_font := match font_path with
                                | Some p => TrueType p size
                                | None => DefaultFont
                                end |} :: im_text img |}.
Proof.
  intros Hfine. unfold draw_field. rewrite (pick_font_fine E _ _ Hfine).
  destruct Hfine as (_ & _ & Hdraw). unfold draw_text. rewrite Hdraw.
  reflexivity.
Qed.

End DrawingFacts.

Section RendererClaims.
Context {host : Host}.

Lemma time_strftime_some (fmt ts : pystr) (now : instant) :
  libc_strftime fmt (local_time now) = Some ts ->
  time_strftime fmt now = Ok ts.
Proof. unfold time_strftime. intros ->. reflexivity. Qed.

(** The way to a written file: what has to go right, and what is then
    written where. *)
Lemma generate_image_success (E : env) (fs : filesys) (data : pydict)
    (tmpl : image) (ts1 sb ts2 : pystr) :
  mkdir_fails E = false ->
  fs !! resource_path (lit "hymb.png") = Some (ImageFile tmpl) ->
  libc_strftime (lit "%Y-%m-%d %H:%M:%S") (local_time (draw_clock E)) = Some ts1 ->
  sanitize (dict_get data (lit "v0") NA) = Ok sb ->
  libc_strftime (lit "%Y%m%d%H%M%S_%f") (local_time (name_clock E)) = Some ts2 ->
  save_fails E (image_path_for (or_unknown sb) ts2) = false ->
  let font_path :=
    if path_exists fs (resource_path (lit "FZSTK.TTF"))
    then Some (resource_path (lit "FZSTK.TTF")) else None in
  let img1 :=
    fold_left (draw_field E font_path) (content_map data)
      {| im_mode := RGB; im_size := im_size tmpl; im_text := im_text tmpl |} in
  let img2 :=
    match pick_font E font_path 80 with
    | Some f =>
      match draw_text E img1 (1210, 2680)%Z ts1 f with
      | Ok img' => img'
      | Raise _ => img1
      end
    | None => img1
    end in
  generate_image E fs data
  = (Some (image_path_for (or_unknown sb) ts2),
     <[image_path_for (or_unknown sb) ts2 := ImageFile img2]> fs).
Proof.
  intros Hmk Htmpl Hts1 Hsb Hts2 Hsave. cbn zeta.
  unfold generate_image.
  rewrite Hmk, (path_exists_lookup _ _ _ Htmpl). cbn [negb].
  unfold image_open_rgb. rewrite Htmpl. cbn [mbind py_bind bind].
  rewrite (time_strftime_some _ _ _ Hts1). cbn [mbind py_bind bind].
  rewrite Hsb. cbn [mbind py_bind bind].
  rewrite (time_strftime_some _ _ _ Hts2). cbn [mbind py_bind bind].
  unfold image_path_for in Hsave |- *. unfold img_filename. rewrite Hsave.
  destruct (path_exists fs (resource_path (lit "FZSTK.TTF"))); reflexivity.
Qed.

(** A written file says how its name was made. *)
Lemma generate_image_name (E : env) (fs fs' : filesys) (data : pydict)
    (p : path) :
  generate_image E fs data = (Some p, fs') ->
  exists sb ts2,
    sanitize (dict_get data (lit "v0") NA) = Ok sb
    /\ libc_strftime (lit "%Y%m%d%H%M%S_%f") (local_time (name_clock E)) = Some ts2
    /\ p = image_path_for (or_unknown sb) ts2.
Proof.
  unfold generate_image.
  destruct (mkdir_fails E); [discriminate|].
  destruct (path_exists fs (resource_path (lit "hymb.png")));
    cbn [negb]; [|discriminate].
  destruct (image_open_rgb fs _) as [img|e];
    cbn [mbind py_bind bind]; [|destruct e; discriminate].
  destruct (time_strftime _ (draw_clock E)) as [ts|e];
    cbn [mbind py_bind bind]; [|destruct e; discriminate].
  destruct (sanitize _) as [sb|e];
    cbn [mbind py_bind bind]; [|destruct e; discriminate].
  unfold time_strftime at 1.
  destruct (libc_strftime _ (local_time (name_clock E))) as [ts2|];
    cbn [mbind py_bind bind]; [|discriminate].
  destruct (save_fails E _); [discriminate|].
  intros [= <- <-]. exists sb, ts2. repeat split.
Qed.

Lemma lstrip_hash (s : pystr) : lstrip [35] s = drop_hashes s.
Proof.
  unfold lstrip. induction s as [|c r IH]; [reflexivity|].
  cbn. rewrite orb_false_r, IH. reflexivity.
Qed.

Lemma replace_thrice (s : pystr) :
  replace 32 95 (replace 92 95 (replace 47 95 s)) = List.map to_underscore s.
Proof.
  unfold replace. rewrite !List.map_map. apply List.map_ext. intros c.
  unfold to_underscore.
  destruct (N.eqb_spec c 47) as [->|H47]; [reflexivity|].
  destruct (N.eqb_spec c 92) as [->|H92]; [reflexivity|].
  destruct (N.eqb_spec c 32) as [->|H32]; reflexivity.
Qed.

Lemma or_unknown_spec (t : pystr) : or_unknown t = or_unknown_batch t.
Proof. destruct t; reflexivity. Qed.

(** Lines 159-161 on a [str], in closed form. *)
Lemma safe_batch_of_str (s : pystr) :
  safe_batch_of (PStr s) = Ok (sanitized_all_hashes s).
Proof.
  unfold safe_batch_of, sanitize, sanitized_all_hashes.
  cbn [mbind py_bind bind].
  rewrite lstrip_hash, replace_thrice, or_unknown_spec. reflexivity.
Qed.

(** C4, amended: the batch in the file name
    [Heyao_<batch>_<timestamp>.png] is the [v0] string with every
    leading [#] stripped, each [/], [\] and space replaced by [_], and
    [UnknownBatch] in its place when that leaves nothing or only
    whitespace; [#A/B C] becomes [A_B_C]. *)
Theorem batch_sanitized_in_filename :
  forall (E : env) (fs fs' : filesys) (data : pydict) (batch : pystr)
         (p : path),
    lookup_key data (lit "v0") = Some (PStr batch) ->
    generate_image E fs data = (Some p, fs') ->
    safe_batch_of (PStr batch) = Ok (sanitized_all_hashes batch)
    /\ (exists current_timestamp,
          libc_strftime (lit "%Y%m%d%H%M%S_%f") (local_time (name_clock E))
          = Some current_timestamp
          /\ p = image_path_for (sanitized_all_hashes batch) current_timestamp)
    /\ sanitized_all_hashes (lit "#A/B C") = lit "A_B_C".
Proof.
  intros E fs fs' data batch p Hv0 Hgen.
  split; [apply safe_batch_of_str|].
  split; [|vm_compute; reflexivity].
  destruct (generate_image_name E fs fs' data p Hgen) as (sb & ts2 & Hsb & Hts & ->).
  exists ts2. split; [assumption|].
  unfold dict_get in Hsb. rewrite Hv0 in Hsb.
  pose proof (safe_batch_of_str batch) as Hsafe.
  unfold safe_batch_of in Hsafe. rewrite Hsb in Hsafe.
  cbn [mbind py_bind bind] in Hsafe. injection Hsafe as ->. reflexivity.
Qed.

Lemma sanitize_absent_or_str (data : pydict) :
  (forall v, lookup_key data (lit "v0") = Some v -> exists s, v = PStr s) ->
  exists sb, sanitize (dict_get data (lit "v0") NA) = Ok sb.
Proof.
  intros Hv0. unfold dict_get.
  destruct (lookup_key data (lit "v0")) as [v|].
  - destruct (Hv0 v eq_refl) as [s ->]. cbn. eauto.
  - cbn. eauto.
Qed.

Lemma strftime_accepts (fmt : pystr) (t : struct_time) :
  (forall fmt t, libc_strftime fmt t <> None) ->
  exists ts, libc_strftime fmt t = Some ts.
Proof.
  intros Hacc. destruct (libc_strftime fmt t) as [ts|] eqn:Hts; [eauto|].
  by apply Hacc in Hts.
Qed.

(** C10: no key of [v0]..[v5] is needed for rendering.  When nothing
    fails, [generate_image] writes the image for any dictionary whose
    [v0], if there is one, is a string; the six fields are drawn at
    their positions, each with the [str] of its value, and each key
    that is missing with the text [N/A]. *)
Theorem missing_fields_drawn_as_NA :
  forall (E : env) (fs : filesys) (data : pydict) (tmpl : image),
    fs !! resource_path (lit "hymb.png") = Some (ImageFile tmpl) ->
    files_and_clock_fine E ->
    drawing_fine E ->
    (forall v, lookup_key data (lit "v0") = Some v -> exists s, v = PStr s) ->
    exists p img timestamp,
      generate_image E fs data = (Some p, <[p := ImageFile img]> fs)
      /\ im_text img
         = {| at_xy := (1210, 2680)%Z; text := timestamp;
              in_font := font_in_use fs |}
           :: rev (List.map
                     (fun '(key, xy) =>
                        {| at_xy := xy; text := field_text data key;
                           in_font := font_in_use fs |})
                     field_layout)
           ++ im_text tmpl
      /\ (forall key xy,
             In (key, xy) field_layout ->
             lookup_key data key = None ->
             In {| at_xy := xy; text := lit "N/A";
                   in_font := font_in_use fs |} (im_text img)).
Proof.
  intros E fs data tmpl Htmpl (Hmk & Hsave & Hacc) Hfine Hv0.
  destruct (sanitize_absent_or_str data Hv0) as [sb Hsb].
  destruct (strftime_accepts (lit "%Y-%m-%d %H:%M:%S")
              (local_time (draw_clock E)) Hacc) as [ts1 Hts1].
  destruct (strftime_accepts (lit "%Y%m%d%H%M%S_%f")
              (local_time (name_clock E)) Hacc) as [ts2 Hts2].
  rewrite (generate_image_success E fs data tmpl ts1 sb ts2
             Hmk Htmpl Hts1 Hsb Hts2 (Hsave _)).
  rewrite (pick_font_fine E _ _ Hfine).
  unfold content_map. cbn [fold_left].
  rewrite !(draw_field_fine E _ _ _ _ _ Hfine).
  unfold draw_text. rewrite (proj2 (proj2 Hfine)).
  eexists _, _, ts1. split; [reflexivity|]. cbn [im_text].
  match goal with |- ?A = ?B /\ _ => assert (Htext : A = B) end.
  { unfold font_in_use, field_layout, field_text, dict_get, NA.
    cbn [List.map rev app].
    destruct (path_exists fs (resource_path (lit "FZSTK.TTF")));
      destruct (lookup_key data (lit "v0")), (lookup_key data (lit "v1")),
               (lookup_key data (lit "v2")), (lookup_key data (lit "v3")),
               (lookup_key data (lit "v4")), (lookup_key data (lit "v5"));
      reflexivity. }
  split; [exact Htext|].
  intros key xy Hin Hnone. rewrite Htext.
  right. apply in_or_app. left. apply -> in_rev.
  apply in_map_iff. exists (key, xy). split; [|assumption].
  unfold field_text. rewrite Hnone. reflexivity.
Qed.

End RendererClaims.

(* ===================================================================== *)
(** ** The file name does not see the microseconds *)
(* ===================================================================== *)

Section ClockFacts.
Context {host : Host}.

Lemma pick_font_env (E1 E2 : env) (font_path : option path) (size : Z) :
  truetype_fails E1 = truetype_fails E2 ->
  load_default_fails E1 = load_default_fails E2 ->
  pick_font E1 font_path size = pick_font E2 font_path size.
Proof.
  intros Htt Hld. unfold pick_font, truetype, load_default.
  rewrite Htt, Hld. reflexivity.
Qed.

Lemma draw_text_env (E1 E2 : env) (img : image) (xy : Z * Z) (s : pystr)
    (f : font) :
  draw_fails E1 = draw_fails E2 ->
  draw_text E1 img xy s f = draw_text E2 img xy s f.
Proof. intros Hdr. unfold draw_text. rewrite Hdr. reflexivity. Qed.

Lemma draw_loop_env (E1 E2 : env) (font_path : option path)
    (items : list (pyval * (Z * Z) * Z)) (img : image) :
  truetype_fails E1 = truetype_fails E2 ->
  load_default_fails E1 = load_default_fails E2 ->
  draw_fails E1 = draw_fails E2 ->
  fold_left (draw_field E1 font_path) items img
  = fold_left (draw_field E2 font_path) items img.
Proof.
  intros Htt Hld Hdr. revert img.
  induction items as [|[[v xy] size] items IH]; intros img; [reflexivity|].
  cbn [fold_left]. rewrite IH. f_equal.
  unfold draw_field.
  rewrite (pick_font_env E1 E2 _ _ Htt Hld).
  destruct (pick_font E2 font_path size); [|reflexivity].
  rewrite (draw_text_env E1 E2 _ _ _ _ Hdr). reflexivity.
Qed.

(** [time.strftime] formats a [struct_time]: two renders whose clock
    readings fall in the same second get the same time stamps, and all
    else being equal write the same file, with any C library. *)
Lemma generate_image_ignores_microseconds (E1 E2 : env) (fs : filesys)
    (data : pydict) :
  same_but_microseconds E1 E2 ->
  generate_image E1 fs data = generate_image E2 fs data.
Proof.
  intros (Hmk & Htt & Hld & Hdr & Hsv & Hdraw & Hname).
  unfold generate_image, time_strftime.
  rewrite Hmk, Hdraw, Hname, Hsv.
  destruct (mkdir_fails E2); [reflexivity|].
  destruct (path_exists fs (resource_path (lit "hymb.png")));
    cbn [negb]; [|reflexivity].
  destruct (image_open_rgb fs _) as [img|e];
    cbn [mbind py_bind bind]; [|reflexivity].
  destruct (libc_strftime _ (local_time (draw_clock E2))) as [ts|];
    cbn [mbind py_bind bind]; [|reflexivity].
  destruct (sanitize _) as [sb|e];
    cbn [mbind py_bind bind]; [|reflexivity].
  destruct (libc_strftime _ (local_time (name_clock E2))) as [ts2|];
    cbn [mbind py_bind bind]; [|reflexivity].
  rewrite (draw_loop_env E1 E2 _ _ _ Htt Hld Hdr).
  rewrite (pick_font_env E1 E2 _ _ Htt Hld).
  destruct (pick_font E2 _ 80); [|reflexivity].
  rewrite (draw_text_env E1 E2 _ _ _ _ Hdr). reflexivity.
Qed.

End ClockFacts.

(* ===================================================================== *)
(** ** Closed examples on the Linux host *)
(* ===================================================================== *)

Lemma pair_of_fst {A B : Type} (x : A * B) (a : A) :
  fst x = a -> x = (a, snd x).
Proof. destruct x. cbn. by intros ->. Qed.

Module Examples.
Import Fixture.

(** C3: two renders of [{"v0": "#A/B C"}] within the same second, 17
    and 900000 microseconds into it, are written to one and the same
    file, [Heyao_A_B_C_20240102120005_%f.png]: [time.strftime] has no
    microseconds to print and glibc leaves [%f] as it is. *)
Theorem same_second_same_filename :
  microsecond (name_clock (calm (http_200 (found (PDict batch_ABC))) 17))
  <> microsecond (name_clock (calm (http_200 (found (PDict batch_ABC))) 900000))
  /\ fst (generate_image (host := linux)
            (calm (http_200 (found (PDict batch_ABC))) 17) installed batch_ABC)
     = Some image_ABC
  /\ fst (generate_image (host := linux)
            (calm (http_200 (found (PDict batch_ABC))) 900000) installed batch_ABC)
     = Some image_ABC.
Proof.
  split; [vm_compute; discriminate|].
  split; vm_compute; reflexivity.
Qed.

(** C1, as stated, fails: for [{"msg": "x", "error": "y"}] the reply is
    built from [msg]; it is not the text the error-first precedence
    gives and the [error] field is nowhere in it.  Nor do the other two
    places of the stated order hold: for [{"code": -1, "error": "y"}]
    the reply is the order-not-found text, not the one built from
    [error], and for [{"msg": "x", "code": -1}] it is built from [msg],
    not the order-not-found text. *)
Lemma msg_shadows_error :
  lookup_key msg_and_error (lit "queryDataList") = None
  /\ parse_response (host := linux) (PDict msg_and_error) id_123
     = Ok (Reply (lit "查询失败：x (订单号: 123)"))
  /\ error_msg_error_first (host := linux) msg_and_error id_123
     = lit "API错误: y"
  /\ parse_response (host := linux) (PDict msg_and_error) id_123
     <> Ok (Reply (query_failed_text
                     (error_msg_error_first (host := linux) msg_and_error id_123)
                     id_123))
  /\ has_sub (lit "y") (lit "查询失败：x (订单号: 123)") = false
  /\ lookup_key code_and_error (lit "queryDataList") = None
  /\ parse_response (host := linux) (PDict code_and_error) id_123
     = Ok (Reply (query_failed_text (not_found_text id_123) id_123))
  /\ error_msg_error_first (host := linux) code_and_error id_123
     = lit "API错误: y"
  /\ parse_response (host := linux) (PDict code_and_error) id_123
     <> Ok (Reply (query_failed_text
                     (error_msg_error_first (host := linux) code_and_error
                                            id_123)
                     id_123))
  /\ lookup_key msg_and_code (lit "queryDataList") = None
  /\ parse_response (host := linux) (PDict msg_and_code) id_123
     = Ok (Reply (lit "查询失败：x (订单号: 123)"))
  /\ error_msg_error_first (host := linux) msg_and_code id_123
     = not_found_text id_123
  /\ parse_response (host := linux) (PDict msg_and_code) id_123
     <> Ok (Reply (query_failed_text
                     (error_msg_error_first (host := linux) msg_and_code
                                            id_123)
                     id_123)).
Proof.
  split; [vm_compute; reflexivity|].
  split; [vm_compute; reflexivity|].
  split; [vm_compute; reflexivity|].
  split; [vm_compute; discriminate|].
  split; [vm_compute; reflexivity|].
  split; [vm_compute; reflexivity|].
  split; [vm_compute; reflexivity|].
  split; [vm_compute; reflexivity|].
  split; [vm_compute; discriminate|].
  split; [vm_compute; reflexivity|].
  split; [vm_compute; reflexivity|].
  split; [vm_compute; reflexivity|].
  vm_compute; discriminate.
Qed.

(** C7, as stated, fails: an empty dictionary as [content] is not
    returned; the reply is the malformed-content text and nothing is
    rendered. *)
Lemma empty_content_is_rejected :
  parse_response (host := linux) (found (PDict [])) id_123
  = Ok (Reply (malformed_text id_123))
  /\ parse_response (host := linux) (found (PDict [])) id_123
     <> Ok (Details [])
  /\ events (snd (handle_heyao_query (host := linux)
                    (calm (http_200 (found (PDict []))) 0) ask_123 fresh))
     = [Yield (plain_result (searching_text id_123)); Fetch id_123;
        Yield (plain_result (malformed_text id_123))].
Proof.
  split; [vm_compute; reflexivity|].
  split; [vm_compute; discriminate|].
  vm_compute; reflexivity.
Qed.

(** C2, as stated, fails: after a delivered image, an invocation whose
    [img.save] fails leaves the pointer on the first file, but that
    file has been unlinked and is no longer on disk. *)
Lemma first_image_is_gone :
  last_image_path delivered = Some image_ABC
  /\ path_exists (disk delivered) image_ABC = true
  /\ (let s2 := snd (handle_heyao_query (host := linux)
                       (disk_full (http_200 (found (PDict batch_ABC))))
                       ask_123 delivered) in
      drop (length (events delivered)) (events s2)
      = [Yield (plain_result (searching_text id_123)); Fetch id_123;
         Unlink image_ABC; Render batch_ABC;
         Yield (plain_result (render_failed_text id_123))]
      /\ last_image_path s2 = Some image_ABC
      /\ path_exists (disk s2) image_ABC = false).
Proof.
  split; [vm_compute; reflexivity|].
  split; [vm_compute; reflexivity|].
  cbv zeta.
  split; [vm_compute; reflexivity|].
  split; vm_compute; reflexivity.
Qed.

(** C4, as stated, fails: of the batch [##A] both leading [#] are
    stripped, not one. *)
Lemma both_hashes_stripped :
  safe_batch_of (PStr (lit "##A")) = Ok (lit "A")
  /\ sanitized_one_hash (lit "##A") = lit "#A"
  /\ safe_batch_of (PStr (lit "##A")) <> Ok (sanitized_one_hash (lit "##A"))
  /\ fst (generate_image (host := linux)
            (calm (http_200 (found (PDict batch_two_hashes))) 0)
            installed batch_two_hashes)
     = Some (temp_image (lit "Heyao_A_20240102120005_%f.png")).
Proof.
  split; [vm_compute; reflexivity|].
  split; [vm_compute; reflexivity|].
  split; [vm_compute; discriminate|].
  vm_compute; reflexivity.
Qed.

(** The usage text for the message [heyao], which has one token. *)
Lemma usage_error_witness :
  ((length (split 1 (lit "heyao")) < 2)%nat
   \/ strip (nth 1 (split 1 (lit "heyao")) []) = [])
  /\ exists s',
      handle_heyao_query (host := linux) (calm (Raise Timeout) 0)
        (lit "heyao") fresh = (Ok tt, s')
      /\ events s' = events fresh ++ [Yield (plain_result usage_text)]
      /\ last_image_path s' = last_image_path fresh
      /\ disk s' = disk fresh
      /\ (forall content,
             ~ In (Fetch content) (drop (length (events fresh)) (events s'))).
Proof.
  assert (Hbad : (length (split 1 (lit "heyao")) < 2)%nat
                 \/ strip (nth 1 (split 1 (lit "heyao")) []) = []).
  { left. vm_compute. lia. }
  split; [exact Hbad|].
  exact (usage_error_without_network_call (host := linux)
           (calm (Raise Timeout) 0) (lit "heyao") fresh Hbad).
Defined.

(** [heyao 123] answered with [{"msg": "x", "error": "y"}]. *)
Lemma error_message_witness :
  order_id_of ask_123 = Some id_123
  /\ fetch_wechat_info
       (http_post (calm (http_200 (PDict msg_and_error)) 0) id_123)
     = Ok (PDict msg_and_error)
  /\ (lookup_key msg_and_error (lit "queryDataList") = None
      \/ lookup_key msg_and_error (lit "queryDataList") = Some (PList [])
      \/ (exists v, lookup_key msg_and_error (lit "queryDataList") = Some v
                    /\ is_list v = false))
  /\ parse_response (host := linux) (PDict msg_and_error) id_123
     = Ok (Reply (query_failed_text
                    (error_msg_msg_first (host := linux) msg_and_error id_123)
                    id_123))
  /\ handle_heyao_query (host := linux)
       (calm (http_200 (PDict msg_and_error)) 0) ask_123 fresh
     = (Ok tt,
        log fresh
          [Yield (plain_result (searching_text id_123));
           Fetch id_123;
           Yield (plain_result
                    (query_failed_text
                       (error_msg_msg_first (host := linux) msg_and_error id_123)
                       id_123))])
  /\ (forall m,
        lookup_key msg_and_error (lit "msg") = Some m ->
        eq_str m GENERIC = false ->
        error_msg_msg_first (host := linux) msg_and_error id_123
        = str (host := linux) m)
  /\ (lookup_key msg_and_error (lit "msg") = None
      \/ (exists m, lookup_key msg_and_error (lit "msg") = Some m
                    /\ eq_str m GENERIC = true) ->
      (eq_int (dict_get msg_and_error (lit "code") PNone) (-1) = true ->
       error_msg_msg_first (host := linux) msg_and_error id_123
       = not_found_text id_123)
      /\ (eq_int (dict_get msg_and_error (lit "code") PNone) (-1) = false ->
          forall e, lookup_key msg_and_error (lit "error") = Some e ->
                    error_msg_msg_first (host := linux) msg_and_error id_123
                    = api_error_text (str (host := linux) e))
      /\ (eq_int (dict_get msg_and_error (lit "code") PNone) (-1) = false ->
          lookup_key msg_and_error (lit "error") = None ->
          error_msg_msg_first (host := linux) msg_and_error id_123 = GENERIC)).
Proof.
  assert (Hid : order_id_of ask_123 = Some id_123) by (vm_compute; reflexivity).
  assert (Hfetch : fetch_wechat_info
                     (http_post (calm (http_200 (PDict msg_and_error)) 0) id_123)
                   = Ok (PDict msg_and_error)) by reflexivity.
  assert (Hno : lookup_key msg_and_error (lit "queryDataList") = None
                \/ lookup_key msg_and_error (lit "queryDataList")
                   = Some (PList [])
                \/ (exists v, lookup_key msg_and_error (lit "queryDataList")
                              = Some v /\ is_list v = false))
    by (left; vm_compute; reflexivity).
  split; [exact Hid|]. split; [exact Hfetch|]. split; [exact Hno|].
  exact (error_message_precedence (host := linux)
           (calm (http_200 (PDict msg_and_error)) 0) ask_123 id_123
           msg_and_error fresh Hid Hfetch Hno).
Defined.

(** [heyao 123] answered with the content [{"v0": "#A/B C"}]. *)
Lemma content_passes_witness :
  order_id_of ask_123 = Some id_123
  /\ fetch_wechat_info
       (http_post (calm (http_200 (found (PDict batch_ABC))) 0) id_123)
     = Ok (PDict (found_entries (PDict batch_ABC)))
  /\ lookup_key (found_entries (PDict batch_ABC)) (lit "queryDataList")
     = Some (PList [PDict [(lit "content", PDict batch_ABC)]])
  /\ lookup_key [(lit "content", PDict batch_ABC)] (lit "content")
     = Some (PDict batch_ABC)
  /\ batch_ABC <> []
  /\ parse_response (host := linux) (PDict (found_entries (PDict batch_ABC)))
       id_123
     = Ok (Details batch_ABC)
  /\ handle_heyao_query (host := linux)
       (calm (http_200 (found (PDict batch_ABC))) 0) ask_123 fresh
     = render_and_deliver (host := linux)
         (calm (http_200 (found (PDict batch_ABC))) 0) batch_ABC id_123
         (at_render (calm (http_200 (found (PDict batch_ABC))) 0) fresh id_123)
  /\ exists rest,
       drop (length (events
                       (at_render (calm (http_200 (found (PDict batch_ABC))) 0)
                                  fresh id_123)))
            (events (snd (handle_heyao_query (host := linux)
                            (calm (http_200 (found (PDict batch_ABC))) 0)
                            ask_123 fresh)))
       = Render batch_ABC :: rest.
Proof.
  assert (Hid : order_id_of ask_123 = Some id_123) by (vm_compute; reflexivity).
  assert (Hfetch : fetch_wechat_info
                     (http_post (calm (http_200 (found (PDict batch_ABC))) 0)
                                id_123)
                   = Ok (PDict (found_entries (PDict batch_ABC))))
    by reflexivity.
  assert (Hq : lookup_key (found_entries (PDict batch_ABC)) (lit "queryDataList")
               = Some (PList [PDict [(lit "content", PDict batch_ABC)]]))
    by (vm_compute; reflexivity).
  assert (Hc : lookup_key [(lit "content", PDict batch_ABC)] (lit "content")
               = Some (PDict batch_ABC)) by (vm_compute; reflexivity).
  assert (Hne : batch_ABC <> []) by discriminate.
  split; [exact Hid|]. split; [exact Hfetch|]. split; [exact Hq|].
  split; [exact Hc|]. split; [exact Hne|].
  exact (content_passes_unchanged (host := linux)
           (calm (http_200 (found (PDict batch_ABC))) 0) ask_123 id_123
           (found_entries (PDict batch_ABC)) [(lit "content", PDict batch_ABC)]
           batch_ABC [] fresh Hid Hfetch Hq Hc Hne).
Defined.

(** A second [heyao 123] after a delivered image, with a save that
    fails. *)
Lemma failed_render_witness :
  last_image_path delivered = Some image_ABC
  /\ order_id_of ask_123 = Some id_123
  /\ fetch_wechat_info
       (http_post (disk_full (http_200 (found (PDict batch_ABC)))) id_123)
     = Ok (found (PDict batch_ABC))
  /\ parse_response (host := linux) (found (PDict batch_ABC)) id_123
     = Ok (Details batch_ABC)
  /\ fst (generate_image (host := linux)
            (disk_full (http_200 (found (PDict batch_ABC))))
            (disk (at_render (disk_full (http_200 (found (PDict batch_ABC))))
                             delivered id_123))
            batch_ABC)
     = None
  /\ exists s',
      handle_heyao_query (host := linux)
        (disk_full (http_200 (found (PDict batch_ABC)))) ask_123 delivered
      = (Ok tt, s')
      /\ last_image_path s' = Some image_ABC
      /\ path_exists (disk s') image_ABC
         = path_exists (disk delivered) image_ABC
           && unlink_fails (disk_full (http_200 (found (PDict batch_ABC))))
                           image_ABC
      /\ events s'
         = events (at_render (disk_full (http_200 (found (PDict batch_ABC))))
                             delivered id_123)
           ++ [Render batch_ABC;
               Yield (plain_result (render_failed_text id_123))].
Proof.
  assert (Hl : last_image_path delivered = Some image_ABC)
    by (vm_compute; reflexivity).
  assert (Hid : order_id_of ask_123 = Some id_123) by (vm_compute; reflexivity).
  assert (Hfetch : fetch_wechat_info
                     (http_post (disk_full (http_200 (found (PDict batch_ABC))))
                                id_123)
                   = Ok (found (PDict batch_ABC))) by reflexivity.
  assert (Hparse : parse_response (host := linux) (found (PDict batch_ABC)) id_123
                   = Ok (Details batch_ABC)) by (vm_compute; reflexivity).
  assert (Hgen : fst (generate_image (host := linux)
                        (disk_full (http_200 (found (PDict batch_ABC))))
                        (disk (at_render
                                 (disk_full (http_200 (found (PDict batch_ABC))))
                                 delivered id_123))
                        batch_ABC)
                 = None) by (vm_compute; reflexivity).
  split; [exact Hl|]. split; [exact Hid|]. split; [exact Hfetch|].
  split; [exact Hparse|]. split; [exact Hgen|].
  exact (failed_render_keeps_pointer (host := linux)
           (disk_full (http_200 (found (PDict batch_ABC)))) ask_123 id_123
           (found (PDict batch_ABC)) batch_ABC delivered image_ABC
           Hl Hid Hfetch Hparse Hgen).
Defined.

(** [heyao 123] rendered, with a packaging that fails. *)
Lemma pointer_set_witness :
  order_id_of ask_123 = Some id_123
  /\ fetch_wechat_info
       (http_post (no_handoff (http_200 (found (PDict batch_ABC)))) id_123)
     = Ok (found (PDict batch_ABC))
  /\ parse_response (host := linux) (found (PDict batch_ABC)) id_123
     = Ok (Details batch_ABC)
  /\ generate_image (host := linux)
       (no_handoff (http_200 (found (PDict batch_ABC))))
       (disk (at_render (no_handoff (http_200 (found (PDict batch_ABC))))
                        fresh id_123))
       batch_ABC
     = (Some image_ABC,
        snd (generate_image (host := linux)
               (no_handoff (http_200 (found (PDict batch_ABC))))
               installed batch_ABC))
  /\ exists s',
      handle_heyao_query (host := linux)
        (no_handoff (http_200 (found (PDict batch_ABC)))) ask_123 fresh
      = (Ok tt, s')
      /\ events s'
         = events (at_render (no_handoff (http_200 (found (PDict batch_ABC))))
                             fresh id_123)
           ++ [Render batch_ABC; SetLast image_ABC; Package image_ABC;
               Yield (if packaging_fails
                           (no_handoff (http_200 (found (PDict batch_ABC))))
                      then plain_result not_sent_text
                      else chain_result [ImageComp image_ABC])]
      /\ last_image_path s' = Some image_ABC
      /\ path_exists (disk s') image_ABC = true.
Proof.
  assert (Hid : order_id_of ask_123 = Some id_123) by (vm_compute; reflexivity).
  assert (Hfetch : fetch_wechat_info
                     (http_post (no_handoff (http_200 (found (PDict batch_ABC))))
                                id_123)
                   = Ok (found (PDict batch_ABC))) by reflexivity.
  assert (Hparse : parse_response (host := linux) (found (PDict batch_ABC)) id_123
                   = Ok (Details batch_ABC)) by (vm_compute; reflexivity).
  assert (Hgen : generate_image (host := linux)
                   (no_handoff (http_200 (found (PDict batch_ABC))))
                   (disk (at_render
                            (no_handoff (http_200 (found (PDict batch_ABC))))
                            fresh id_123))
                   batch_ABC
                 = (Some image_ABC,
                    snd (generate_image (host := linux)
                           (no_handoff (http_200 (found (PDict batch_ABC))))
                           installed batch_ABC)))
    by (apply pair_of_fst; vm_compute; reflexivity).
  split; [exact Hid|]. split; [exact Hfetch|]. split; [exact Hparse|].
  split; [exact Hgen|].
  exact (pointer_set_before_handoff (host := linux)
           (no_handoff (http_200 (found (PDict batch_ABC)))) ask_123 id_123
           (found (PDict batch_ABC)) batch_ABC fresh image_ABC _
           Hid Hfetch Hparse Hgen).
Defined.

(** The file name for [{"v0": "#A/B C"}]. *)
Lemma batch_sanitized_witness :
  lookup_key batch_ABC (lit "v0") = Some (PStr (lit "#A/B C"))
  /\ generate_image (host := linux)
       (calm (http_200 (found (PDict batch_ABC))) 0) installed batch_ABC
     = (Some image_ABC,
        snd (generate_image (host := linux)
               (calm (http_200 (found (PDict batch_ABC))) 0)
               installed batch_ABC))
  /\ safe_batch_of (PStr (lit "#A/B C"))
     = Ok (sanitized_all_hashes (lit "#A/B C"))
  /\ (exists current_timestamp,
        libc_strftime (Host := linux) (lit "%Y%m%d%H%M%S_%f")
          (local_time (name_clock (calm (http_200 (found (PDict batch_ABC))) 0)))
        = Some current_timestamp
        /\ image_ABC
           = image_path_for (host := linux)
               (sanitized_all_hashes (lit "#A/B C")) current_timestamp)
  /\ sanitized_all_hashes (lit "#A/B C") = lit "A_B_C".
Proof.
  assert (Hv0 : lookup_key batch_ABC (lit "v0") = Some (PStr (lit "#A/B C")))
    by (vm_compute; reflexivity).
  assert (Hgen : generate_image (host := linux)
                   (calm (http_200 (found (PDict batch_ABC))) 0)
                   installed batch_ABC
                 = (Some image_ABC,
                    snd (generate_image (host := linux)
                           (calm (http_200 (found (PDict batch_ABC))) 0)
                           installed batch_ABC)))
    by (apply pair_of_fst; vm_compute; reflexivity).
  split; [exact Hv0|]. split; [exact Hgen|].
  exact (batch_sanitized_in_filename (host := linux)
           (calm (http_200 (found (PDict batch_ABC))) 0) installed _
           batch_ABC (lit "#A/B C") image_ABC Hv0 Hgen).
Defined.

Lemma calm_files_and_clock_fine (answer : py response) (usec : N) :
  files_and_clock_fine (host := linux) (calm answer usec).
Proof.
  split; [reflexivity|]. split; [intros p; reflexivity|].
  intros fmt t. discriminate.
Qed.

Lemma calm_drawing_fine (answer : py response) (usec : N) :
  drawing_fine (calm answer usec).
Proof.
  split; [intros p z; reflexivity|]. split; [reflexivity|].
  intros xy s f; reflexivity.
Qed.

Lemma v0_of_batch_ABC_is_str (v : pyval) :
  lookup_key batch_ABC (lit "v0") = Some v -> exists s, v = PStr s.
Proof. vm_compute. intros [= <-]. eauto. Qed.

Lemma v0_of_only_v2_is_absent (v : pyval) :
  lookup_key only_v2 (lit "v0") = Some v -> exists s, v = PStr s.
Proof. vm_compute. discriminate. Qed.

(** A render of [{"v2": "123"}], which lacks five of the six keys. *)
Lemma missing_fields_witness :
  installed !! resource_path (host := linux) (lit "hymb.png")
  = Some (ImageFile template)
  /\ files_and_clock_fine (host := linux)
       (calm (http_200 (found (PDict only_v2))) 0)
  /\ drawing_fine (calm (http_200 (found (PDict only_v2))) 0)
  /\ (forall v, lookup_key only_v2 (lit "v0") = Some v -> exists s, v = PStr s)
  /\ exists p img timestamp,
      generate_image (host := linux)
        (calm (http_200 (found (PDict only_v2))) 0) installed only_v2
      = (Some p, <[p := ImageFile img]> installed)
      /\ im_text img
         = {| at_xy := (1210, 2680)%Z; text := timestamp;
              in_font := font_in_use (host := linux) installed |}
           :: rev (List.map
                     (fun '(key, xy) =>
                        {| at_xy := xy;
                           text := field_text (host := linux) only_v2 key;
                           in_font := font_in_use (host := linux) installed |})
                     field_layout)
           ++ im_text template
      /\ (forall key xy,
             In (key, xy) field_layout ->
             lookup_key only_v2 key = None ->
             In {| at_xy := xy; text := lit "N/A";
                   in_font := font_in_use (host := linux) installed |}
                (im_text img)).
Proof.
  assert (Htmpl : installed !! resource_path (host := linux) (lit "hymb.png")
                  = Some (ImageFile template)) by (vm_compute; reflexivity).
  split; [exact Htmpl|].
  split; [apply calm_files_and_clock_fine|].
  split; [apply calm_drawing_fine|].
  split; [exact v0_of_only_v2_is_absent|].
  exact (missing_fields_drawn_as_NA (host := linux)
           (calm (http_200 (found (PDict only_v2))) 0) installed only_v2
           template Htmpl
           (calm_files_and_clock_fine _ _) (calm_drawing_fine _ _)
           v0_of_only_v2_is_absent).
Defined.

End Examples.

(* ===================================================================== *)
(** ** Validation of the message *)
(* ===================================================================== *)

Section StringFacts.

Lemma skip_head (p : N -> bool) (s : pystr) (c : N) (r : pystr) :
  skip p s = c :: r -> p c = false.
Proof.
  induction s as [|a s IH]; cbn; [discriminate|].
  destruct (p a) eqn:Hpa; [exact IH|].
  intros [= <- <-]. exact Hpa.
Qed.

Lemma skip_stops (p : N -> bool) (c : N) (r : pystr) :
  p c = false -> skip p (c :: r) = c :: r.
Proof. intros Hc. cbn. rewrite Hc. reflexivity. Qed.

Lemma skip_idem (p : N -> bool) (s : pystr) :
  skip p (skip p s) = skip p s.
Proof.
  destruct (skip p s) as [|c r] eqn:Hs; [reflexivity|].
  apply skip_stops. exact (skip_head p s c r Hs).
Qed.

Lemma skip_snoc (p : N -> bool) (l : pystr) (c : N) :
  p c = false -> skip p (l ++ [c]) = skip p l ++ [c].
Proof.
  intros Hc. induction l as [|a l IH]; cbn.
  - rewrite Hc. reflexivity.
  - destruct (p a); [exact IH|reflexivity].
Qed.

(** What [strip] leaves of a string that starts with a character other
    than whitespace: that character stays in front. *)
Lemma strip_cons (c : N) (r : pystr) :
  is_space c = false ->
  strip (c :: r) = c :: rev (skip is_space (rev r)).
Proof.
  intros Hc. unfold strip. rewrite (skip_stops _ _ _ Hc).
  cbn [rev]. rewrite (skip_snoc _ _ _ Hc), rev_app_distr. reflexivity.
Qed.

Lemma strip_strip_cons (c : N) (r : pystr) :
  is_space c = false ->
  strip (strip (c :: r)) = strip (c :: r).
Proof.
  intros Hc. rewrite (strip_cons c r Hc), (strip_cons _ _ Hc).
  rewrite rev_involutive, skip_idem. reflexivity.
Qed.

(** [split(maxsplit=1)], case by case: nothing for a blank string, else
    the first token and, if anything but whitespace follows it, the
    rest from its first character on. *)
Lemma split_1_cases (s : pystr) :
  split 1 s =
  match skip is_space s with
  | [] => []
  | c :: r =>
    prefix_of (fun c => negb (is_space c)) (c :: r)
    :: match skip is_space (skip (fun c => negb (is_space c)) (c :: r)) with
       | [] => []
       | c' :: r' => [c' :: r']
       end
  end.
Proof.
  cbn [split]. destruct (skip is_space s) as [|c r]; [reflexivity|].
  destruct (skip is_space (skip _ (c :: r))); reflexivity.
Qed.

(** The second part, when there is one, starts with a character that is
    not whitespace. *)
Lemma split_1_second (s : pystr) :
  (2 <= length (split 1 s))%nat ->
  exists c r, nth 1 (split 1 s) [] = c :: r /\ is_space c = false.
Proof.
  rewrite split_1_cases.
  destruct (skip is_space s) as [|c r]; cbn [length]; [lia|].
  destruct (skip is_space (skip _ (c :: r))) as [|c' r'] eqn:Hrest;
    cbn [length nth]; [lia|].
  intros _. exists c', r'. split; [reflexivity|].
  exact (skip_head _ _ _ _ Hrest).
Qed.

End StringFacts.

Section ValidationFacts.
Context {host : Host}.

Lemma second_part_not_blank (msg : pystr) :
  (2 <= length (split 1 msg))%nat ->
  strip (nth 1 (split 1 msg) []) <> [].
Proof.
  intros Hlen. destruct (split_1_second msg Hlen) as (c & r & -> & Hc).
  rewrite (strip_cons c r Hc). discriminate.
Qed.

Lemma order_id_none_iff (msg : pystr) :
  order_id_of msg = None <-> (length (split 1 msg) < 2)%nat.
Proof.
  unfold order_id_of. split.
  - destruct (Nat.ltb_spec (length (split 1 msg)) 2) as [Hlt|Hge];
      [intros _; exact Hlt|].
    cbn [orb]. pose proof (second_part_not_blank msg Hge) as Hsecond.
    destruct (strip (nth 1 (split 1 msg) [])); [contradiction|discriminate].
  - intros Hlt. apply Nat.ltb_lt in Hlt. rewrite Hlt. reflexivity.
Qed.

(** X1: the message is turned down exactly when [split(maxsplit=1)]
    gives fewer than two parts.  A second part never strips to the
    empty string, so the second half of the test at line 204 and the
    branch of lines 212-216 never decide anything. *)
Theorem rejected_iff_one_part :
  forall full_message : pystr,
    (order_id_of full_message = None
     <-> (length (split 1 full_message) < 2)%nat)
    /\ ((2 <= length (split 1 full_message))%nat ->
        strip (nth 1 (split 1 full_message) []) <> []).
Proof.
  intros msg. split; [apply order_id_none_iff|apply second_part_not_blank].
Qed.

(** X2: the order id the handler goes on with is not empty and has no
    whitespace at either end: stripping it again changes nothing. *)
Theorem order_id_is_trimmed :
  forall full_message order : pystr,
    order_id_of full_message = Some order ->
    order <> []
    /\ strip order = order
    /\ exists c r, order = c :: r /\ is_space c = false.
Proof.
  intros msg order. unfold order_id_of.
  destruct (Nat.ltb_spec (length (split 1 msg)) 2) as [Hlt|Hge];
    [discriminate|].
  cbn [orb].
  destruct (split_1_second msg Hge) as (c & r & -> & Hc).
  destruct (negb _); [discriminate|]. intros [= <-].
  split; [rewrite (strip_cons c r Hc); discriminate|].
  split; [apply strip_strip_cons; exact Hc|].
  rewrite (strip_cons c r Hc). eauto.
Qed.

End ValidationFacts.

(* ===================================================================== *)
(** ** Every way through the handler *)
(* ===================================================================== *)

Section HandlerPaths.
Context {host : Host}.



(** X4: when no usable answer comes back (the request raises, the
    status is not 200, the body does not decode, or it decodes to
    [null]) the reply is the fetch-failed text; nothing is deleted,
    nothing is rendered and the pointer stays. *)
Theorem no_answer_is_reported :
  forall (E : env) (full_message order : pystr) (s : state),
    order_id_of full_message = Some order ->
    match http_post E order with
    | Raise _ => True
    | Ok r => status_code r <> 200%Z
              \/ (exists e, json r = Raise e)
              \/ json r = Ok PNone
    end ->
    handle_heyao_query E full_message s
    = (Ok tt,
       log s [Yield (plain_result (searching_text order)); Fetch order;
              Yield (plain_result (fetch_failed_text order))]).
Proof.
  intros E msg order s Hid Hpost.
  rewrite (handle_accepts E msg order s Hid). cbn zeta.
  rewrite fetch_wechat_info_closed_form.
  assert (Hnone : match http_post E order with
                  | Ok r =>
                    if (status_code r =? 200)%Z
                    then match json r with Ok j => j | Raise _ => PNone end
                    else PNone
                  | Raise _ => PNone
                  end = PNone).
  { destruct (http_post E order) as [r|e]; [|reflexivity].
    destruct (Z.eqb_spec (status_code r) 200) as [H200|Hne]; [|reflexivity].
    destruct Hpost as [Hs|[[e He]|Hj]].
    - contradiction.
    - rewrite He. reflexivity.
    - rewrite Hj. reflexivity. }
  rewrite Hnone, log_log. reflexivity.
Qed.

(** [parse_response] raises exactly when the answer is not a JSON object
    or the first element of a non-empty [queryDataList] is not one. *)
Lemma parse_response_raises_iff (api : pyval) (order : pystr) :
  (exists e, parse_response api order = Raise e)
  <-> is_dict api = false
      \/ exists d x l,
           api = PDict d
           /\ lookup_key d (lit "queryDataList") = Some (PList (x :: l))
           /\ is_dict x = false.
Proof.
  split.
  - intros [e He].
    destruct api as [ | | | | | |d]; try (left; reflexivity).
    right. unfold parse_response in He. rewrite get_dict in He.
    cbn [mbind py_bind bind] in He.
    destruct (no_results (dict_get d (lit "queryDataList") PNone)) eqn:Hno.
    + rewrite build_error_msg_spec in He. discriminate.
    + apply no_results_false_iff in Hno as (x & l & Hq).
      rewrite Hq in He. cbn [first_item mbind py_bind bind] in He.
      exists d, x, l. split; [reflexivity|].
      unfold dict_get in Hq.
      destruct (lookup_key d (lit "queryDataList")) as [q|];
        [|discriminate]. subst q. split; [reflexivity|].
      destruct x as [ | | | | | |item]; try reflexivity.
      rewrite get_dict in He. cbn [mbind py_bind bind] in He.
      destruct (dict_get item (lit "content") PNone) as [ | | | | | |c];
        try discriminate He.
      destruct (negb _); discriminate.
  - intros [Hnd|(d & x & l & -> & Hq & Hx)].
    + destruct api; try discriminate Hnd; eexists; reflexivity.
    + unfold parse_response. rewrite get_dict. unfold dict_get. rewrite Hq.
      cbn [mbind py_bind bind no_results truthy is_list negb orb length
           Nat.eqb first_item].
      destruct x; try discriminate Hx; eexists; reflexivity.
Qed.

(** X5: an answer that is not a JSON object (a list, a string, a
    number), or whose first [queryDataList] element is not one, makes
    the extraction raise; the handler catches it and replies with the
    processing-error text, touching neither the disk nor the pointer.
    Nothing else makes the extraction raise. *)
Theorem odd_answer_is_caught :
  forall (E : env) (full_message order : pystr) (api : pyval) (s : state),
    order_id_of full_message = Some order ->
    fetch_wechat_info (http_post E order) = Ok api ->
    api <> PNone ->
    ((exists e, parse_response api order = Raise e)
     <-> is_dict api = false
         \/ exists d x l,
              api = PDict d
              /\ lookup_key d (lit "queryDataList") = Some (PList (x :: l))
              /\ is_dict x = false)
    /\ ((exists e, parse_response api order = Raise e) ->
        handle_heyao_query E full_message s
        = (Ok tt,
           log s [Yield (plain_result (searching_text order)); Fetch order;
                  Yield (plain_result (processing_error_text order))])).
Proof.
  intros E msg order api s Hid Hfetch Hnn.
  split; [apply parse_response_raises_iff|].
  intros [e He].
  rewrite (handle_accepts E msg order s Hid). cbn zeta.
  rewrite Hfetch.
  destruct api; try contradiction; rewrite He, log_log; reflexivity.
Qed.

(** X6: when the first element of [queryDataList] is an object whose
    [content] is missing, is not a dictionary or is the empty
    dictionary, the reply is the malformed-content text; the previous
    image is not deleted and nothing is rendered. *)
Theorem unusable_content_is_reported :
  forall (E : env) (full_message order : pystr) (d item : pydict)
         (others : list pyval) (s : state),
    order_id_of full_message = Some order ->
    fetch_wechat_info (http_post E order) = Ok (PDict d) ->
    lookup_key d (lit "queryDataList") = Some (PList (PDict item :: others)) ->
    lookup_key item (lit "content") = None
    \/ lookup_key item (lit "content") = Some (PDict [])
    \/ (exists v, lookup_key item (lit "content") = Some v
                  /\ is_dict v = false) ->
    handle_heyao_query E full_message s
    = (Ok tt,
       log s [Yield (plain_result (searching_text order)); Fetch order;
              Yield (plain_result (malformed_text order))]).
Proof.
  intros E msg order d item others s Hid Hfetch Hq Hc.
  assert (Hparse : parse_response (PDict d) order
                   = Ok (Reply (malformed_text order))).
  { unfold parse_response. rewrite get_dict. unfold dict_get. rewrite Hq.
    cbn [mbind py_bind bind no_results truthy is_list negb orb length
         Nat.eqb first_item].
    rewrite get_dict. unfold dict_get.
    destruct Hc as [->|[->|(v & -> & Hv)]]; cbn [mbind py_bind bind];
      [reflexivity..|].
    destruct v; try discriminate Hv; reflexivity. }
  rewrite (handle_accepts E msg order s Hid). cbn zeta.
  rewrite Hfetch, Hparse, log_log. reflexivity.
Qed.

End HandlerPaths.

(* ===================================================================== *)
(** ** The batch in the file name *)
(* ===================================================================== *)

Section BatchFacts.

Lemma to_underscore_safe (c : N) : safe_char (to_underscore c) = true.
Proof.
  unfold to_underscore, safe_char.
  destruct (N.eqb_spec c 47) as [->|H47]; [reflexivity|].
  destruct (N.eqb_spec c 92) as [->|H92]; [reflexivity|].
  destruct (N.eqb_spec c 32) as [->|H32]; [reflexivity|].
  cbn. apply N.eqb_neq in H47, H92, H32. rewrite H47, H92, H32. reflexivity.
Qed.

Lemma to_underscore_fixes_safe (c : N) :
  safe_char c = true -> to_underscore c = c.
Proof.
  unfold to_underscore, safe_char. destruct (_ || _); [discriminate|reflexivity].
Qed.

Lemma to_underscore_keeps_hash (c : N) :
  to_underscore c = 35 -> c = 35.
Proof.
  unfold to_underscore. destruct (_ || _); [discriminate|exact id].
Qed.

Lemma drop_hashes_head (s : pystr) (r : pystr) : drop_hashes s <> 35 :: r.
Proof.
  induction s as [|c s IH]; cbn; [discriminate|].
  destruct (N.eqb_spec c 35) as [->|Hc]; [exact IH|].
  intros [= Hc' _]. contradiction.
Qed.

Lemma or_unknown_batch_cases (t : pystr) :
  (or_unknown_batch t = lit "UnknownBatch")
  \/ (or_unknown_batch t = t /\ t <> [] /\ forallb is_space t = false).
Proof.
  destruct t as [|c r]; [left; reflexivity|].
  unfold or_unknown_batch.
  destruct (forallb is_space (c :: r)) eqn:Hsp; [left; reflexivity|].
  right. split; [reflexivity|]. split; [discriminate|reflexivity].
Qed.

Lemma unknown_batch_is_fine :
  forallb safe_char (lit "UnknownBatch") = true
  /\ drop_hashes (lit "UnknownBatch") = lit "UnknownBatch"
  /\ forallb is_space (lit "UnknownBatch") = false
  /\ lit "UnknownBatch" <> [].
Proof.
  split; [vm_compute; reflexivity|].
  split; [vm_compute; reflexivity|].
  split; [vm_compute; reflexivity|].
  vm_compute. discriminate.
Qed.

(** What comes out of lines 159-161 for any string. *)
Lemma sanitized_facts (batch : pystr) :
  let sb := sanitized_all_hashes batch in
  sb <> []
  /\ forallb safe_char sb = true
  /\ drop_hashes sb = sb
  /\ forallb is_space sb = false.
Proof.
  cbn zeta. unfold sanitized_all_hashes.
  destruct unknown_batch_is_fine as (Hu1 & Hu2 & Hu3 & Hu4).
  destruct (or_unknown_batch_cases (List.map to_underscore (drop_hashes batch)))
    as [->|(-> & Hne & Hsp)]; [repeat split; assumption|].
  split; [exact Hne|]. split; [|split; [|exact Hsp]].
  - apply forallb_forall. intros c Hin. apply in_map_iff in Hin as (c0 & <- & _).
    apply to_underscore_safe.
  - destruct (drop_hashes batch) as [|c r] eqn:Hd; [reflexivity|].
    cbn [List.map drop_hashes].
    destruct (N.eqb_spec (to_underscore c) 35) as [Heq|Hneq]; [|reflexivity].
    apply to_underscore_keeps_hash in Heq. subst c.
    exfalso. exact (drop_hashes_head batch r Hd).
Qed.

(** X7: whatever string the batch number is, the batch part of the file
    name is not empty, holds no [/], no [\] and no space, and does not
    begin with [#]. *)
Theorem sanitized_batch_is_safe :
  forall batch : pystr,
    exists sb,
      safe_batch_of (PStr batch) = Ok sb
      /\ sb <> []
      /\ (forall c, In c sb -> c <> 47 /\ c <> 92 /\ c <> 32)
      /\ (forall r, sb <> 35 :: r).
Proof.
  intros batch. exists (sanitized_all_hashes batch).
  split; [apply safe_batch_of_str|].
  destruct (sanitized_facts batch) as (Hne & Hsafe & Hdrop & _).
  split; [exact Hne|]. split.
  - intros c Hin. rewrite forallb_forall in Hsafe. specialize (Hsafe c Hin).
    unfold safe_char in Hsafe. apply negb_true_iff in Hsafe.
    apply orb_false_elim in Hsafe as [Hsafe H32].
    apply orb_false_elim in Hsafe as [H47 H92].
    apply N.eqb_neq in H47, H92, H32. auto.
  - intros r Heq. rewrite <- Hdrop in Heq.
    exact (drop_hashes_head _ r Heq).
Qed.

(** X8: sanitizing is idempotent: a batch that went through lines
    159-161 comes out of them unchanged. *)
Theorem sanitizing_twice_changes_nothing :
  forall batch sb : pystr,
    safe_batch_of (PStr batch) = Ok sb ->
    safe_batch_of (PStr sb) = Ok sb.
Proof.
  intros batch sb. rewrite safe_batch_of_str. intros [= <-].
  rewrite safe_batch_of_str. f_equal.
  destruct (sanitized_facts batch) as (Hne & Hsafe & Hdrop & Hsp).
  unfold sanitized_all_hashes at 1. rewrite Hdrop.
  replace (List.map to_underscore (sanitized_all_hashes batch))
    with (sanitized_all_hashes batch).
  - unfold or_unknown_batch.
    destruct (sanitized_all_hashes batch); [contradiction|].
    rewrite Hsp. reflexivity.
  - rewrite <- (List.map_id (sanitized_all_hashes batch)) at 1.
    apply List.map_ext_in. intros c Hin. symmetry.
    apply to_underscore_fixes_safe.
    rewrite forallb_forall in Hsafe. exact (Hsafe c Hin).
Qed.

End BatchFacts.

(* ===================================================================== *)
(** ** What the renderer writes, and when it gives up *)
(* ===================================================================== *)

Section RendererFacts.
Context {host : Host}.

Lemma resource_not_in_temp (name : pystr) :
  ~ in_temp_images (resource_path name).
Proof.
  intros [n Hn]. apply (f_equal (@length _)) in Hn.
  unfold resource_path, temp_image_dir, path_div in Hn.
  rewrite !length_app in Hn. cbn in Hn. lia.
Qed.

Lemma generated_in_temp (E : env) (fs fs' : filesys) (data : pydict)
    (p : path) :
  generate_image E fs data = (Some p, fs') -> in_temp_images p.
Proof.
  intros Hgen.
  destruct (generate_image_name E fs fs' data p Hgen) as (sb & ts & _ & _ & ->).
  eexists. reflexivity.
Qed.

(** The disk after [generate_image]: the disk before, with the file
    written if one was. *)
Lemma generate_image_disk (E : env) (fs fs' : filesys) (data : pydict)
    (r : option path) :
  generate_image E fs data = (r, fs') ->
  match r with
  | Some p => exists img, fs' = <[p := ImageFile img]> fs
  | None => fs' = fs
  end.
Proof.
  intros Hgen.
  destruct (generate_image_result E fs data) as [Hr|(p & img & Hr)];
    rewrite Hr in Hgen; injection Hgen as <- <-; eauto.
Qed.



Lemma pick_font_loads (E : env) (font_path : option path) (size : Z) :
  fonts_fine E ->
  pick_font E font_path size
  = Some match font_path with
         | Some p => TrueType p size
         | None => DefaultFont
         end.
Proof.
  intros (Htt & Hld). unfold pick_font, try_except, truetype, load_default.
  destruct font_path as [p|]; [rewrite Htt|rewrite Hld]; reflexivity.
Qed.

(** The drawing loop, when fonts load: the text on the image grows by
    the draw calls that work, the others leave no trace and stop
    nothing. *)
Lemma draw_loop_texts (E : env) (font_path : option path)
    (items : list (pyval * (Z * Z) * Z)) (img : image) :
  fonts_fine E ->
  im_text (fold_left (draw_field E font_path) items img)
  = rev (List.filter (draw_works E)
           (List.map
              (fun '(v, xy, size) =>
                 {| at_xy := xy; text := str v;
                    in_font := match font_path with
                               | Some p => TrueType p size
                               | None => DefaultFont
                               end |})
              items))
    ++ im_text img.
Proof.
  intros Hfonts. revert img.
  induction items as [|[[v xy] size] items IH]; intros img; [reflexivity|].
  cbn [fold_left List.map List.filter]. rewrite IH.
  unfold draw_field. rewrite (pick_font_loads E _ _ Hfonts).
  unfold draw_text.
  match goal with
  | |- context [draw_works E ?d] =>
    change (draw_works E d)
      with (negb (draw_fails E (at_xy d) (text d) (in_font d)))
  end.
  cbn [at_xy text in_font].
  destruct (draw_fails E xy (str v) _); cbn [negb im_text]; [reflexivity|].
  cbn [rev]. rewrite <- app_assoc. reflexivity.
Qed.

Lemma content_map_calls (data : pydict) (font_path : option path) :
  List.map
    (fun '(v, xy, size) =>
       {| at_xy := xy; text := str v;
          in_font := match font_path with
                     | Some p => TrueType p size
                     | None => DefaultFont
                     end |})
    (content_map data)
  = List.map
      (fun '(key, xy) =>
         {| at_xy := xy; text := field_text data key;
            in_font := match font_path with
                       | Some p => TrueType p 80
                       | None => DefaultFont
                       end |})
      field_layout.
Proof.
  unfold content_map, field_layout, field_text, dict_get, NA.
  cbn [List.map].
  destruct (lookup_key data (lit "v0")), (lookup_key data (lit "v1")),
           (lookup_key data (lit "v2")), (lookup_key data (lit "v3")),
           (lookup_key data (lit "v4")), (lookup_key data (lit "v5"));
    reflexivity.
Qed.

(** The image [generate_image] writes when fonts load, the files and
    the clock are fine and [v0] is a string or absent. *)
Lemma generate_image_texts (E : env) (fs : filesys) (data : pydict)
    (tmpl : image) :
  fs !! resource_path (lit "hymb.png") = Some (ImageFile tmpl) ->
  files_and_clock_fine E ->
  fonts_fine E ->
  (forall v, lookup_key data (lit "v0") = Some v -> exists s, v = PStr s) ->
  exists p img timestamp,
    generate_image E fs data = (Some p, <[p := ImageFile img]> fs)
    /\ libc_strftime (lit "%Y-%m-%d %H:%M:%S") (local_time (draw_clock E))
       = Some timestamp
    /\ im_size img = im_size tmpl
    /\ im_text img
       = rev (List.filter (draw_works E)
                (draw_calls data timestamp (font_in_use fs)))
         ++ im_text tmpl.
Proof.
  intros Htmpl (Hmk & Hsave & Hacc) Hfonts Hv0.
  destruct (sanitize_absent_or_str data Hv0) as [sb Hsb].
  destruct (strftime_accepts (lit "%Y-%m-%d %H:%M:%S")
              (local_time (draw_clock E)) Hacc) as [ts1 Hts1].
  destruct (strftime_accepts (lit "%Y%m%d%H%M%S_%f")
              (local_time (name_clock E)) Hacc) as [ts2 Hts2].
  rewrite (generate_image_success E fs data tmpl ts1 sb ts2
             Hmk Htmpl Hts1 Hsb Hts2 (Hsave _)).
  rewrite (pick_font_loads E _ _ Hfonts).
  eexists _, _, ts1. split; [reflexivity|]. split; [exact Hts1|].
  set (font_path := if path_exists fs (resource_path (lit "FZSTK.TTF"))
                    then Some (resource_path (lit "FZSTK.TTF")) else None).
  set (rgb := {| im_mode := RGB; im_size := im_size tmpl;
                 im_text := im_text tmpl |}).
  assert (Hfont : match font_path with
                  | Some p => TrueType p 80
                  | None => DefaultFont
                  end = font_in_use fs).
  { unfold font_path, font_in_use.
    destruct (path_exists fs (resource_path (lit "FZSTK.TTF"))); reflexivity. }
  pose proof (draw_loop_painted E font_path (content_map data) rgb) as [Hsize _].
  pose proof (draw_loop_texts E font_path (content_map data) rgb Hfonts) as Htext.
  rewrite content_map_calls, Hfont in Htext.
  unfold draw_calls. rewrite List.filter_app, rev_app_distr.
  cbn [List.filter]. unfold draw_works at 1. cbn [at_xy text in_font].
  unfold draw_text. rewrite Hfont.
  destruct (draw_fails E (1210, 2680)%Z ts1 (font_in_use fs));
    cbn [negb rev app im_text im_size]; (split; [exact Hsize|]);
    rewrite Htext; reflexivity.
Qed.

(** X11: the seven draw calls are guarded one by one.  When fonts load,
    the image that is written carries exactly the texts of the draw
    calls that worked, in the order of the calls, whichever of the
    others failed; a draw call that fails does not make rendering
    fail. *)
Theorem failed_draws_are_skipped :
  forall (E : env) (fs : filesys) (data : pydict) (tmpl : image),
    fs !! resource_path (lit "hymb.png") = Some (ImageFile tmpl) ->
    files_and_clock_fine E ->
    fonts_fine E ->
    (forall v, lookup_key data (lit "v0") = Some v -> exists s, v = PStr s) ->
    exists p img timestamp,
      generate_image E fs data = (Some p, <[p := ImageFile img]> fs)
      /\ im_text img
         = rev (List.filter (draw_works E)
                  (draw_calls data timestamp (font_in_use fs)))
           ++ im_text tmpl.
Proof.
  intros E fs data tmpl Htmpl Hfiles Hfonts Hv0.
  destruct (generate_image_texts E fs data tmpl Htmpl Hfiles Hfonts Hv0)
    as (p & img & ts & Hgen & _ & _ & Htext).
  exists p, img, ts. split; assumption.
Qed.

End RendererFacts.

(* ===================================================================== *)
(** ** Rendering without the font file *)
(* ===================================================================== *)

Section MissingFont.
Context {host : Host}.

(** The drawing loop without a font file: with the default font when it
    loads, not at all when it does not. *)
Lemma draw_loop_without_font_file (E : env)
    (items : list (pyval * (Z * Z) * Z)) (img : image) :
  let img' := fold_left (draw_field E None) items img in
  im_mode img' = im_mode img
  /\ im_size img' = im_size img
  /\ im_text img'
     = (if load_default_fails E then []
        else rev (List.filter (draw_works E)
                    (List.map
                       (fun '(v, xy, size) =>
                          {| at_xy := xy; text := str v;
                             in_font := DefaultFont |})
                       items)))
       ++ im_text img.
Proof.
  cbn zeta. revert img.
  induction items as [|[[v xy] size] items IH]; intros img.
  - cbn [fold_left List.map List.filter rev].
    destruct (load_default_fails E); repeat split.
  - cbn [fold_left List.map List.filter].
    destruct (IH (draw_field E None img (v, xy, size))) as (Hm & Hs & Ht).
    rewrite Hm, Hs, Ht. clear IH Hm Hs Ht.
    unfold draw_field. rewrite pick_font_without_file.
    destruct (load_default_fails E) eqn:Hld; [repeat split|].
    unfold draw_text.
    match goal with
    | |- context [draw_works E ?d] =>
      change (draw_works E d)
        with (negb (draw_fails E (at_xy d) (text d) (in_font d)))
    end.
    cbn [at_xy text in_font].
    destruct (draw_fails E xy (str v) DefaultFont);
      cbn [negb im_mode im_size im_text]; [repeat split|].
    cbn [rev]. rewrite <- app_assoc. repeat split.
Qed.

(** C9: a missing font file is no reason for rendering to fail.  With
    the template in place, the scratch directory and the save working,
    the time formats accepted and the batch number a string (or
    absent), [generate_image] writes the image file and returns its
    path, whatever the default font and the draw calls do.  The image
    is the template in RGB, of the template's dimensions, with the text
    of every draw call that worked on it, each in the built-in default
    font; when the default font does not load either, it is the
    template with nothing drawn. *)
Theorem missing_font_is_not_an_error :
  forall (E : env) (fs : filesys) (data : pydict) (tmpl : image),
    fs !! resource_path (lit "FZSTK.TTF") = None ->
    fs !! resource_path (lit "hymb.png") = Some (ImageFile tmpl) ->
    files_and_clock_fine E ->
    (forall v, lookup_key data (lit "v0") = Some v -> exists s, v = PStr s) ->
    exists safe_batch timestamp current_timestamp img,
      sanitize (dict_get data (lit "v0") NA) = Ok safe_batch
      /\ libc_strftime (lit "%Y-%m-%d %H:%M:%S") (local_time (draw_clock E))
         = Some timestamp
      /\ libc_strftime (lit "%Y%m%d%H%M%S_%f") (local_time (name_clock E))
         = Some current_timestamp
      /\ generate_image E fs data
         = (Some (image_path_for (or_unknown safe_batch) current_timestamp),
            <[image_path_for (or_unknown safe_batch) current_timestamp
              := ImageFile img]> fs)
      /\ im_mode img = RGB
      /\ im_size img = im_size tmpl
      /\ im_text img
         = (if load_default_fails E then []
            else rev (List.filter (draw_works E)
                        (draw_calls data timestamp DefaultFont)))
           ++ im_text tmpl.
Proof.
  intros E fs data tmpl Hfont Htmpl (Hmk & Hsave & Hacc) Hv0.
  destruct (sanitize_absent_or_str data Hv0) as [sb Hsb].
  destruct (strftime_accepts (lit "%Y-%m-%d %H:%M:%S")
              (local_time (draw_clock E)) Hacc) as [ts1 Hts1].
  destruct (strftime_accepts (lit "%Y%m%d%H%M%S_%f")
              (local_time (name_clock E)) Hacc) as [ts2 Hts2].
  exists sb, ts1, ts2.
  rewrite (generate_image_success E fs data tmpl ts1 sb ts2
             Hmk Htmpl Hts1 Hsb Hts2 (Hsave _)).
  rewrite (path_exists_none _ _ Hfont).
  eexists. split; [exact Hsb|]. split; [exact Hts1|]. split; [exact Hts2|].
  split; [reflexivity|].
  set (rgb := {| im_mode := RGB; im_size := im_size tmpl;
                 im_text := im_text tmpl |}).
  destruct (draw_loop_without_font_file E (content_map data) rgb)
    as (Hmode & Hsize & Htext).
  rewrite (content_map_calls data None) in Htext.
  rewrite pick_font_without_file. unfold draw_calls.
  destruct (load_default_fails E) eqn:Hld.
  - split; [exact Hmode|]. split; [exact Hsize|]. exact Htext.
  - rewrite List.filter_app, rev_app_distr. cbn [List.filter].
    unfold draw_works at 1. cbn [at_xy text in_font]. unfold draw_text.
    destruct (draw_fails E (1210, 2680)%Z ts1 DefaultFont);
      cbn [negb rev app im_mode im_size im_text];
      (split; [exact Hmode|]); (split; [exact Hsize|]);
      rewrite Htext; reflexivity.
Qed.

End MissingFont.

(* ===================================================================== *)
(** ** The disk and the pointer over many invocations *)
(* ===================================================================== *)

Section SessionFacts.
Context {host : Host}.

(** What an invocation leaves: either the pointer and the disk as they
    were, or what [generate_image] made of the disk after the cleanup,
    with the pointer moved if a file was written. *)
Lemma handle_leaves (E : env) (msg : pystr) (s : state) :
  (last_image_path (snd (handle_heyao_query E msg s)) = last_image_path s
   /\ disk (snd (handle_heyao_query E msg s)) = disk s)
  \/ exists order details r,
       generate_image E (disk (at_render E s order)) details
       = (r, disk (snd (handle_heyao_query E msg s)))
       /\ last_image_path (snd (handle_heyao_query E msg s))
          = match r with
            | Some p => Some p
            | None => last_image_path s
            end.
Proof.
  destruct (order_id_of msg) as [order|] eqn:Hid.
  2:{ left. rewrite (handle_rejects E msg s Hid). split; reflexivity. }
  destruct (fetch_wechat_info (http_post E order)) as [api|e] eqn:Hfetch.
  2:{ rewrite fetch_wechat_info_closed_form in Hfetch. discriminate. }
  destruct (parse_response api order) as [[text|details]|e] eqn:Hparse.
  - left. rewrite (handle_accepts E msg order s Hid). cbn zeta.
    rewrite Hfetch. destruct api; try rewrite Hparse; split; reflexivity.
  - right. exists order, details.
    rewrite (handle_renders E msg order api details s Hid Hfetch Hparse).
    rewrite render_and_deliver_spec.
    destruct (generate_image E (disk (at_render E s order)) details)
      as [[p|] fs'] eqn:Hgen.
    + exists (Some p). split; reflexivity.
    + exists None. split; [reflexivity|]. cbn. apply at_render_pointer.
  - left. rewrite (handle_accepts E msg order s Hid). cbn zeta.
    rewrite Hfetch. destruct api; try rewrite Hparse; split; reflexivity.
Qed.

(** The cleanup touches no file but the one the pointer refers to. *)
Lemma at_render_disk_other (E : env) (s : state) (order : pystr) (q : path) :
  last_image_path s <> Some q ->
  disk (at_render E s order) !! q = disk s !! q.
Proof.
  intros Hq. unfold at_render. rewrite remove_previous_spec. unfold log. cbn.
  destruct (last_image_path s) as [p1|]; [|reflexivity].
  destruct (path_exists (disk s) p1); [|reflexivity]. cbn.
  destruct (unlink_fails E p1); [reflexivity|].
  apply lookup_delete_ne. congruence.
Qed.


(** X12: a render that succeeds after an earlier one moves the pointer
    to the new file, which is on disk.  The earlier file, if it has
    another name, is gone unless its unlink failed. *)
Theorem new_image_replaces_previous :
  forall (E : env) (full_message order : pystr) (api : pyval)
         (details : pydict) (s : state) (p1 p : path) (fs' : filesys),
    last_image_path s = Some p1 ->
    order_id_of full_message = Some order ->
    fetch_wechat_info (http_post E order) = Ok api ->
    parse_response api order = Ok (Details details) ->
    generate_image E (disk (at_render E s order)) details = (Some p, fs') ->
    let s' := snd (handle_heyao_query E full_message s) in
    last_image_path s' = Some p
    /\ path_exists (disk s') p = true
    /\ (p1 <> p ->
        path_exists (disk s') p1
        = path_exists (disk s) p1 && unlink_fails E p1).
Proof.
  intros E msg order api details s p1 p fs' Hl Hid Hfetch Hparse Hgen.
  cbn zeta.
  rewrite (handle_renders E msg order api details s Hid Hfetch Hparse).
  rewrite render_and_deliver_spec, Hgen. cbn [snd last_image_path disk].
  destruct (generate_image_disk E _ fs' details (Some p) Hgen) as [img ->].
  split; [reflexivity|]. split; [apply path_exists_insert|].
  intros Hne. rewrite <- (at_render_previous E s order p1 Hl).
  unfold path_exists. rewrite lookup_insert_ne by congruence. reflexivity.
Qed.

Lemma handle_disk_other (E : env) (msg : pystr) (s : state) (q : path) :
  last_image_path s <> Some q ->
  last_image_path (snd (handle_heyao_query E msg s)) <> Some q ->
  disk (snd (handle_heyao_query E msg s)) !! q = disk s !! q.
Proof.
  intros Hbefore Hafter.
  destruct (handle_leaves E msg s)
    as [[_ ->]|(order & details & r & Hgen & Hptr)]; [reflexivity|].
  rewrite Hptr in Hafter.
  pose proof (generate_image_disk E _ _ details r Hgen) as Hdisk.
  destruct r as [p|].
  - destruct Hdisk as [img ->].
    rewrite lookup_insert_ne by congruence.
    apply at_render_disk_other. exact Hbefore.
  - rewrite Hdisk. apply at_render_disk_other. exact Hbefore.
Qed.

Lemma handle_keeps_pointer_in_temp (E : env) (msg : pystr) (s : state) :
  pointer_in_temp s ->
  pointer_in_temp (snd (handle_heyao_query E msg s)).
Proof.
  intros Hinv.
  destruct (handle_leaves E msg s)
    as [[Hptr _]|(order & details & r & Hgen & Hptr)];
    unfold pointer_in_temp; rewrite Hptr; [exact Hinv|].
  destruct r as [p|]; [|exact Hinv].
  intros p' [= <-]. exact (generated_in_temp E _ _ details p Hgen).
Qed.


Lemma handle_keeps_resource (E : env) (msg : pystr) (s : state)
    (name : pystr) :
  pointer_in_temp s ->
  disk (snd (handle_heyao_query E msg s)) !! resource_path name
  = disk s !! resource_path name.
Proof.
  intros Hinv. apply handle_disk_other.
  - intros Hl. exact (resource_not_in_temp name (Hinv _ Hl)).
  - intros Hl.
    exact (resource_not_in_temp name
             (handle_keeps_pointer_in_temp E msg s Hinv _ Hl)).
Qed.

Lemma session_keeps_pointer_in_temp (calls : list (env * pystr)) (s : state) :
  pointer_in_temp s -> pointer_in_temp (session calls s).
Proof.
  revert s. induction calls as [|[E msg] calls IH]; intros s Hinv; [exact Hinv|].
  cbn [session]. apply IH, handle_keeps_pointer_in_temp, Hinv.
Qed.

Lemma session_keeps_resource (calls : list (env * pystr)) (s : state)
    (name : pystr) :
  pointer_in_temp s ->
  disk (session calls s) !! resource_path name = disk s !! resource_path name.
Proof.
  revert s. induction calls as [|[E msg] calls IH]; intros s Hinv; [reflexivity|].
  cbn [session].
  rewrite (IH _ (handle_keeps_pointer_in_temp E msg s Hinv)).
  apply handle_keeps_resource, Hinv.
Qed.


Lemma init_pointer_in_temp (fs : filesys) : pointer_in_temp (init fs).
Proof. intros p. discriminate. Qed.


End SessionFacts.

(* ===================================================================== *)
(** ** When [exists()] raises *)
(* ===================================================================== *)

Section StatFacts.
Context {host : Host}.




Lemma generate_image_stat_result (denied : path -> bool) (E : env)
    (fs : filesys) (data : pydict) :
  generate_image_stat denied E fs data = (None, fs)
  \/ exists p img,
       generate_image_stat denied E fs data = (Some p, <[p := ImageFile img]> fs).
Proof.
  unfold generate_image_stat.
  destruct (mkdir_fails E); [by left|].
  destruct (denied (resource_path (lit "hymb.png"))); [by left|].
  destruct (negb _); [by left|].
  destruct (denied (resource_path (lit "FZSTK.TTF"))); [by left|].
  apply generate_image_result.
Qed.

Lemma remove_previous_stat_spec (denied : path -> bool) (E : env)
    (s : state) :
  remove_previous_stat denied E s =
  match last_image_path s with
  | Some p => if denied p then (Raise OSError, s) else remove_previous E s
  | None => remove_previous E s
  end.
Proof.
  unfold remove_previous_stat, remove_previous, read, mbind, H_bind, lift,
         exists_or_raise.
  destruct (last_image_path s) as [p|]; [|reflexivity].
  destruct (denied p); reflexivity.
Qed.

Lemma render_and_deliver_stat_spec (denied : path -> bool) (E : env)
    (details : pydict) (order : pystr) (s : state) :
  render_and_deliver_stat denied E details order s =
  match generate_image_stat denied E (disk s) details with
  | (Some p, fs') =>
    if denied p then
      (Raise OSError,
       {| last_image_path := last_image_path s; disk := fs';
          events := events s ++ [Render details] |})
    else
      (Ok tt,
       {| last_image_path := Some p; disk := fs';
          events := events s
                    ++ [Render details; SetLast p; Package p;
                        Yield (if packaging_fails E
                               then plain_result not_sent_text
                               else chain_result [ImageComp p])] |})
  | (None, fs') =>
    (Ok tt,
     {| last_image_path := last_image_path s; disk := fs';
        events := events s
                  ++ [Render details;
                      Yield (plain_result (render_failed_text order))] |})
  end.
Proof.
  unfold render_and_deliver_stat, read, mbind, H_bind.
  rewrite emit_log. cbn [disk log].
  destruct (generate_image_stat_result denied E (disk s) details)
    as [Hr|(p & img & Hr)]; rewrite Hr.
  - unfold set_disk, yield, emit. cbn. by rewrite <- app_assoc.
  - unfold set_disk, lift, exists_or_raise. cbn -[path_exists].
    destruct (denied p); [reflexivity|].
    rewrite path_exists_insert.
    unfold set_last_image_path. cbn.
    destruct (packaging_fails E); unfold yield, emit; cbn;
      by rewrite <- !app_assoc.
Qed.

Lemma handle_stat_rejects (denied : path -> bool) (E : env) (msg : pystr)
    (s : state) :
  order_id_of msg = None ->
  handle_heyao_query_stat denied E msg s
  = (Ok tt, log s [Yield (plain_result usage_text)]).
Proof.
  unfold order_id_of, handle_heyao_query_stat. intros Hnone.
  destruct ((length (split 1 msg) <? 2)%nat
            || negb (truthy (PStr (strip (nth 1 (split 1 msg) []))))).
  - reflexivity.
  - discriminate.
Qed.

Lemma handle_stat_accepts (denied : path -> bool) (E : env)
    (msg order : pystr) (s : state) :
  order_id_of msg = Some order ->
  handle_heyao_query_stat denied E msg s =
  let s1 := log s [Yield (plain_result (searching_text order)); Fetch order] in
  match fetch_wechat_info (http_post E order) with
  | Raise e => (Raise e, s1)
  | Ok PNone =>
    (Ok tt, log s1 [Yield (plain_result (fetch_failed_text order))])
  | Ok api_data =>
    match parse_response api_data order with
    | Raise _ =>
      (Ok tt, log s1 [Yield (plain_result (processing_error_text order))])
    | Ok (Reply text) => (Ok tt, log s1 [Yield (plain_result text)])
    | Ok (Details order_details) =>
      (_ ← remove_previous_stat denied E;
       render_and_deliver_stat denied E order_details order) s1
    end
  end.
Proof.
  unfold order_id_of, handle_heyao_query_stat. intros Hsome.
  destruct ((length (split 1 msg) <? 2)%nat
            || negb (truthy (PStr (strip (nth 1 (split 1 msg) []))))) eqn:Hguard.
  - discriminate.
  - injection Hsome as <-.
    apply orb_false_elim in Hguard as [_ Hstrip].
    rewrite Hstrip. cbn zeta.
    unfold mbind, H_bind, yield. rewrite emit_log, emit_log, log_log.
    unfold lift. cbn [app].
    destruct (fetch_wechat_info _) as [api|e]; [|reflexivity].
    destruct api; try reflexivity;
      (destruct (parse_response _ _) as [[text|details]|e]; reflexivity).
Qed.



(** *** Generated names *)

Lemma safe_is_not_separator (c : N) :
  safe_char c = true -> not_separator c = true.
Proof.
  unfold safe_char, not_separator. intros Hsafe.
  apply negb_true_iff in Hsafe. apply orb_false_elim in Hsafe as [Hsafe _].
  rewrite Hsafe. reflexivity.
Qed.

Lemma starts_with_app (p r : pystr) : starts_with p (p ++ r) = true.
Proof.
  induction p as [|c p IH]; [reflexivity|].
  cbn. rewrite N.eqb_refl. exact IH.
Qed.

(** Line 159 leaves no separator in the batch, and [UnknownBatch] has
    none. *)
Lemma sanitized_no_separator (v : pyval) (sb : pystr) :
  sanitize v = Ok sb -> forallb not_separator (or_unknown sb) = true.
Proof.
  intros Hsb.
  destruct v as [| | | |s| |]; try discriminate Hsb.
  pose proof (safe_batch_of_str s) as Hsafe.
  unfold safe_batch_of in Hsafe. rewrite Hsb in Hsafe.
  cbn [mbind py_bind bind] in Hsafe. injection Hsafe as ->.
  destruct (sanitized_facts s) as (_ & Hchars & _).
  apply forallb_forall. intros c Hin. apply safe_is_not_separator.
  rewrite forallb_forall in Hchars. exact (Hchars c Hin).
Qed.

(** The name of a written file begins with [Heyao_] and is one path
    component: the batch has lost its separators at line 159 and the C
    library puts none into the stamp. *)
Lemma generated_scratch_file (E : env) (fs fs' : filesys) (data : pydict)
    (p : path) :
  stamp_without_separator ->
  generate_image E fs data = (Some p, fs') ->
  scratch_file p.
Proof.
  intros Hstamp Hgen.
  destruct (generate_image_name E fs fs' data p Hgen)
    as (sb & ts2 & Hsb & Hts & ->).
  exists (lit "Heyao_" ++ or_unknown sb ++ lit "_" ++ ts2 ++ lit ".png").
  split; [reflexivity|]. split; [apply starts_with_app|].
  assert (H1 : forallb not_separator (lit "Heyao_") = true)
    by (vm_compute; reflexivity).
  assert (H2 : forallb not_separator (lit "_") = true)
    by (vm_compute; reflexivity).
  assert (H3 : forallb not_separator (lit ".png") = true)
    by (vm_compute; reflexivity).
  rewrite !forallb_app, H1, H2, H3, (Hstamp _ _ Hts),
    (sanitized_no_separator _ _ Hsb).
  reflexivity.
Qed.

Lemma generated_stat_scratch_file (denied : path -> bool) (E : env)
    (fs fs' : filesys) (data : pydict) (p : path) :
  stamp_without_separator ->
  generate_image_stat denied E fs data = (Some p, fs') ->
  scratch_file p.
Proof.
  intros Hstamp. unfold generate_image_stat.
  destruct (mkdir_fails E); [discriminate|].
  destruct (denied (resource_path (lit "hymb.png"))); [discriminate|].
  destruct (negb _); [discriminate|].
  destruct (denied (resource_path (lit "FZSTK.TTF"))); [discriminate|].
  apply generated_scratch_file. exact Hstamp.
Qed.

Lemma scratch_in_temp (p : path) : scratch_file p -> in_temp_images p.
Proof. intros (name & -> & _). exists name. reflexivity. Qed.

Lemma scratch_not_dir (p : path) : scratch_file p -> p <> temp_image_dir.
Proof.
  intros (name & -> & _) Heq. apply (f_equal (@length _)) in Heq.
  unfold path_div in Heq. rewrite length_app in Heq. cbn in Heq. lia.
Qed.

Lemma scratch_not_resource (p : path) (name : pystr) :
  scratch_file p -> p <> resource_path name.
Proof.
  intros Hp ->. exact (resource_not_in_temp name (scratch_in_temp _ Hp)).
Qed.

Lemma generate_image_stat_disk (denied : path -> bool) (E : env)
    (fs fs' : filesys) (data : pydict) (r : option path) :
  generate_image_stat denied E fs data = (r, fs') ->
  match r with
  | Some p => exists img, fs' = <[p := ImageFile img]> fs
  | None => fs' = fs
  end.
Proof.
  intros Hgen.
  destruct (generate_image_stat_result denied E fs data)
    as [Hr|(p & img & Hr)];
    rewrite Hr in Hgen; injection Hgen as <- <-; eauto.
Qed.

(** X9: [generate_image] changes the files on disk at one place at
    most: the path it returns, where a PNG image then is, and which is
    [temp_images/<name>] for a name that begins with [Heyao_] and is a
    single path component, the separators of the batch having been
    replaced at line 159 and the C library putting none into the stamp.
    Every other path is as before, the template and the font among
    them; the directory [temp_images] itself, which line 88 makes
    whether an image is written or not, is left out of the count.  This
    holds also where the [exists()] of lines 90 and 94 raises, which
    gives [None]. *)
Theorem renderer_writes_one_scratch_file :
  forall (denied : path -> bool) (E : env) (fs fs' : filesys)
         (data : pydict) (r : option path),
    stamp_without_separator ->
    generate_image_stat denied E fs data = (r, fs') ->
    (forall q, q <> temp_image_dir -> r <> Some q -> fs' !! q = fs !! q)
    /\ (forall p, r = Some p ->
          scratch_file p /\ exists img, fs' !! p = Some (ImageFile img))
    /\ fs' !! resource_path (lit "hymb.png") = fs !! resource_path (lit "hymb.png")
    /\ fs' !! resource_path (lit "FZSTK.TTF") = fs !! resource_path (lit "FZSTK.TTF").
Proof.
  intros denied E fs fs' data r Hstamp Hgen.
  pose proof (generate_image_stat_disk denied E fs fs' data r Hgen) as Hdisk.
  destruct r as [p|].
  - destruct Hdisk as [img ->].
    pose proof (generated_stat_scratch_file denied E fs _ data p Hstamp Hgen)
      as Hscratch.
    split; [intros q _ Hne; apply lookup_insert_ne; congruence|].
    split.
    + intros p' [= <-]. split; [exact Hscratch|].
      exists img. apply lookup_insert_eq.
    + split; apply lookup_insert_ne; apply scratch_not_resource;
        exact Hscratch.
  - subst fs'. split; [reflexivity|]. split; [discriminate|].
    split; reflexivity.
Qed.

(** *** What an invocation leaves on disk *)

(** Either the pointer and the disk are as they were, or
    [generate_image] was called after the cleanup: then the disk is
    what it made of it, and the pointer has moved to the file written
    unless the [exists()] of line 282 raised. *)
Lemma handle_stat_leaves (denied : path -> bool) (E : env) (msg : pystr)
    (s : state) :
  (last_image_path (snd (handle_heyao_query_stat denied E msg s))
   = last_image_path s
   /\ disk (snd (handle_heyao_query_stat denied E msg s)) = disk s)
  \/ exists order details r,
       generate_image_stat denied E (disk (at_render E s order)) details
       = (r, disk (snd (handle_heyao_query_stat denied E msg s)))
       /\ ((fst (handle_heyao_query_stat denied E msg s) = Ok tt
            /\ last_image_path (snd (handle_heyao_query_stat denied E msg s))
               = match r with
                 | Some p => Some p
                 | None => last_image_path s
                 end)
           \/ (fst (handle_heyao_query_stat denied E msg s) = Raise OSError
               /\ last_image_path (snd (handle_heyao_query_stat denied E msg s))
                  = last_image_path s
               /\ exists p, r = Some p /\ denied p = true)).
Proof.
  destruct (order_id_of msg) as [order|] eqn:Hid.
  2:{ left. rewrite (handle_stat_rejects denied E msg s Hid).
      split; reflexivity. }
  rewrite (handle_stat_accepts denied E msg order s Hid). cbn zeta.
  destruct (fetch_wechat_info (http_post E order)) as [api|e] eqn:Hfetch.
  2:{ rewrite fetch_wechat_info_closed_form in Hfetch. discriminate. }
  assert (Hdetails : forall details,
    let run := (_ ← remove_previous_stat denied E;
                render_and_deliver_stat denied E details order)
                 (log s [Yield (plain_result (searching_text order));
                         Fetch order]) in
    (last_image_path (snd run) = last_image_path s /\ disk (snd run) = disk s)
    \/ exists order0 details0 r,
         generate_image_stat denied E (disk (at_render E s order0)) details0
         = (r, disk (snd run))
         /\ ((fst run = Ok tt
              /\ last_image_path (snd run)
                 = match r with
                   | Some p => Some p
                   | None => last_image_path s
                   end)
             \/ (fst run = Raise OSError
                 /\ last_image_path (snd run) = last_image_path s
                 /\ exists p, r = Some p /\ denied p = true))).
  { intros details. cbn zeta.
    unfold mbind, H_bind. rewrite remove_previous_stat_spec.
    assert (Hrm : remove_previous E
                    (log s [Yield (plain_result (searching_text order));
                            Fetch order])
                  = (Ok tt, at_render E s order)).
    { unfold at_render. rewrite remove_previous_spec. reflexivity. }
    assert (Hrender :
      (last_image_path
         (snd (render_and_deliver_stat denied E details order
                 (at_render E s order))) = last_image_path s
       /\ disk (snd (render_and_deliver_stat denied E details order
                       (at_render E s order))) = disk s)
      \/ exists order0 details0 r,
           generate_image_stat denied E (disk (at_render E s order0)) details0
           = (r, disk (snd (render_and_deliver_stat denied E details order
                              (at_render E s order))))
           /\ ((fst (render_and_deliver_stat denied E details order
                       (at_render E s order)) = Ok tt
                /\ last_image_path
                     (snd (render_and_deliver_stat denied E details order
                             (at_render E s order)))
                   = match r with
                     | Some p => Some p
                     | None => last_image_path s
                     end)
               \/ (fst (render_and_deliver_stat denied E details order
                          (at_render E s order)) = Raise OSError
                   /\ last_image_path
                        (snd (render_and_deliver_stat denied E details order
                                (at_render E s order)))
                      = last_image_path s
                   /\ exists p, r = Some p /\ denied p = true))).
    { right. exists order, details.
      rewrite render_and_deliver_stat_spec.
      pose proof (at_render_pointer E s order) as Hptr.
      destruct (generate_image_stat denied E (disk (at_render E s order))
                  details) as [[p|] fs'] eqn:Hgen.
      - destruct (denied p) eqn:Hden.
        + exists (Some p). split; [reflexivity|]. right.
          split; [reflexivity|]. split; [exact Hptr|]. eauto.
        + exists (Some p). split; [reflexivity|]. left.
          split; reflexivity.
      - exists None. split; [reflexivity|]. left.
        split; [reflexivity|exact Hptr]. }
    destruct (last_image_path
                (log s [Yield (plain_result (searching_text order));
                        Fetch order])) as [p1|];
      [destruct (denied p1); [left; split; reflexivity|]|];
      rewrite Hrm; exact Hrender. }
  destruct (parse_response api order) as [[text|details]|e] eqn:Hparse.
  - left. destruct api; try rewrite Hparse; split; reflexivity.
  - assert (Hnn : api <> PNone) by (intros ->; discriminate Hparse).
    destruct api; try contradiction; apply Hdetails.
  - left. destruct api; try rewrite Hparse; split; reflexivity.
Qed.

(** X13: an invocation that returns changes the files on disk at two
    places at most: the file the pointer referred to before and the
    file it refers to after.  An invocation that raises, which it does
    only where [exists()] raises, may besides leave the image it has
    just written, for whose path the [exists()] of line 282 raised and
    to which the pointer does not refer.  The directory [temp_images]
    itself, which line 88 makes, is left out of the count. *)
Theorem handler_changes_pointer_files_only :
  forall (denied : path -> bool) (E : env) (full_message : pystr)
         (s s' : state) (r : py unit) (q : path),
    handle_heyao_query_stat denied E full_message s = (r, s') ->
    q <> temp_image_dir ->
    last_image_path s <> Some q ->
    last_image_path s' <> Some q ->
    (r = Ok tt -> disk s' !! q = disk s !! q)
    /\ (disk s' !! q = disk s !! q
        \/ (r = Raise OSError
            /\ denied q = true
            /\ exists img, disk s' !! q = Some (ImageFile img))).
Proof.
  intros denied E msg s s' r q Hrun _ Hbefore Hafter.
  pose proof (handle_stat_leaves denied E msg s) as Hleaves.
  rewrite Hrun in Hleaves. cbn [fst snd] in Hleaves.
  destruct Hleaves as [[_ ->]|(order & details & r0 & Hgen & Hcases)];
    [split; [reflexivity|left; reflexivity]|].
  pose proof (generate_image_stat_disk denied E _ _ details r0 Hgen) as Hdisk.
  pose proof (at_render_disk_other E s order q Hbefore) as Hclean.
  destruct Hcases as [(Hr & Hptr)|(Hr & Hptr & p & -> & Hden)].
  - assert (Hsame : disk s' !! q = disk s !! q).
    { rewrite Hptr in Hafter. destruct r0 as [p|].
      - destruct Hdisk as [img ->].
        rewrite lookup_insert_ne by congruence. exact Hclean.
      - rewrite Hdisk. exact Hclean. }
    split; [intros _; exact Hsame|left; exact Hsame].
  - destruct Hdisk as [img Hdisk]. split; [rewrite Hr; discriminate|].
    destruct (decide (p = q)) as [->|Hne].
    + right. split; [exact Hr|]. split; [exact Hden|].
      exists img. rewrite Hdisk. apply lookup_insert_eq.
    + left. rewrite Hdisk, lookup_insert_ne by exact Hne. exact Hclean.
Qed.

(** *** Sessions *)

Lemma handle_stat_keeps_pointer (denied : path -> bool) (E : env)
    (msg : pystr) (s : state) :
  stamp_without_separator ->
  pointer_is_scratch_file s ->
  pointer_is_scratch_file (snd (handle_heyao_query_stat denied E msg s)).
Proof.
  intros Hstamp Hinv.
  destruct (handle_stat_leaves denied E msg s)
    as [[Hptr _]|(order & details & r & Hgen & Hcases)];
    unfold pointer_is_scratch_file.
  - rewrite Hptr. exact Hinv.
  - destruct Hcases as [(_ & Hptr)|(_ & Hptr & _)]; rewrite Hptr;
      [|exact Hinv].
    destruct r as [p|]; [|exact Hinv].
    intros p' [= <-].
    exact (generated_stat_scratch_file denied E _ _ details p Hstamp Hgen).
Qed.

Lemma handle_stat_keeps_resource (denied : path -> bool) (E : env)
    (msg : pystr) (s : state) (name : pystr) :
  stamp_without_separator ->
  pointer_is_scratch_file s ->
  disk (snd (handle_heyao_query_stat denied E msg s)) !! resource_path name
  = disk s !! resource_path name.
Proof.
  intros Hstamp Hinv.
  destruct (handle_stat_leaves denied E msg s)
    as [[_ ->]|(order & details & r & Hgen & _)]; [reflexivity|].
  assert (Hclean : disk (at_render E s order) !! resource_path name
                   = disk s !! resource_path name).
  { apply at_render_disk_other. intros Hl.
    exact (scratch_not_resource _ name (Hinv _ Hl) eq_refl). }
  pose proof (generate_image_stat_disk denied E _ _ details r Hgen) as Hdisk.
  destruct r as [p|].
  - destruct Hdisk as [img ->].
    rewrite lookup_insert_ne; [exact Hclean|].
    apply scratch_not_resource.
    exact (generated_stat_scratch_file denied E _ _ details p Hstamp Hgen).
  - rewrite Hdisk. exact Hclean.
Qed.

Lemma session_stat_keeps (calls : list ((path -> bool) * env * pystr))
    (s : state) (name : pystr) :
  stamp_without_separator ->
  pointer_is_scratch_file s ->
  pointer_is_scratch_file (session_stat calls s)
  /\ disk (session_stat calls s) !! resource_path name
     = disk s !! resource_path name.
Proof.
  intros Hstamp. revert s.
  induction calls as [|[[denied E] msg] calls IH]; intros s Hinv;
    [split; [exact Hinv|reflexivity]|].
  cbn [session_stat].
  destruct (IH _ (handle_stat_keeps_pointer denied E msg s Hstamp Hinv))
    as [Hptr Hres].
  split; [exact Hptr|]. rewrite Hres.
  apply handle_stat_keeps_resource; assumption.
Qed.

(** X15: the handler never deletes or overwrites its own assets.  From
    a fresh plugin instance on, whatever the invocations, whatever
    fails in them and wherever [exists()] raises, the template and the
    font are on disk as they were, and the pointer, when set, is
    [temp_images/<name>] for a name that begins with [Heyao_] and is a
    single path component, since line 159 has replaced the separators
    of the batch and the C library puts none into the stamp. *)
Theorem assets_survive_every_session :
  forall (calls : list ((path -> bool) * env * pystr)) (fs : filesys),
    stamp_without_separator ->
    let s' := session_stat calls (init fs) in
    disk s' !! resource_path (lit "hymb.png")
    = fs !! resource_path (lit "hymb.png")
    /\ disk s' !! resource_path (lit "FZSTK.TTF")
       = fs !! resource_path (lit "FZSTK.TTF")
    /\ (forall p, last_image_path s' = Some p -> scratch_file p).
Proof.
  intros calls fs Hstamp. cbn zeta.
  assert (Hinit : pointer_is_scratch_file (init fs))
    by (intros p; discriminate).
  split; [exact (proj2 (session_stat_keeps calls (init fs) _ Hstamp Hinit))|].
  split; [exact (proj2 (session_stat_keeps calls (init fs) _ Hstamp Hinit))|].
  exact (proj1 (session_stat_keeps calls (init fs) [] Hstamp Hinit)).
Qed.

End StatFacts.

(* ===================================================================== *)
(** ** The stamp glibc prints *)
(* ===================================================================== *)

Lemma uint_digits_no_separator (d : Decimal.uint) :
  forallb not_separator (uint_digits d) = true.
Proof. induction d; cbn [uint_digits forallb]; try rewrite IHd; reflexivity. Qed.

Lemma decimal_pad_no_separator (width : nat) (n : N) :
  forallb not_separator (decimal_pad width n) = true.
Proof.
  unfold decimal_pad, decimal. cbn zeta.
  rewrite forallb_app, uint_digits_no_separator, andb_true_r.
  induction (width - length (uint_digits (N.to_uint n)))%nat as [|k IH];
    [reflexivity|].
  cbn [repeat forallb]. rewrite IH. reflexivity.
Qed.

Lemma glibc_conversion_no_separator (d : N) (t : struct_time) :
  not_separator d = true ->
  forallb not_separator (glibc_conversion d t) = true.
Proof.
  intros Hd. unfold glibc_conversion.
  repeat match goal with
         | |- context [if ?c =? ?k then _ else _] => destruct (c =? k)
         end;
    try apply decimal_pad_no_separator;
    try apply uint_digits_no_separator.
  cbn [forallb]. rewrite Hd. reflexivity.
Qed.

(** glibc's [strftime] puts a separator only where the format has
    one. *)
Lemma glibc_strftime_no_separator (t : struct_time) :
  forall (n : nat) (fmt : pystr),
    (length fmt <= n)%nat ->
    forallb not_separator fmt = true ->
    forallb not_separator (glibc_strftime fmt t) = true.
Proof.
  induction n as [|n IH]; intros fmt Hlen Hfmt.
  - destruct fmt; [reflexivity|cbn in Hlen; lia].
  - destruct fmt as [|c r]; [reflexivity|].
    cbn [forallb] in Hfmt. apply andb_prop in Hfmt as [Hc Hr].
    cbn [glibc_strftime].
    destruct (c =? 37).
    + destruct r as [|d r']; [cbn [forallb]; rewrite Hc; reflexivity|].
      cbn [forallb] in Hr. apply andb_prop in Hr as [Hd Hr'].
      rewrite forallb_app, (glibc_conversion_no_separator d t Hd).
      apply IH; [cbn in Hlen; lia|exact Hr'].
    + cbn [forallb]. rewrite Hc. apply IH; [cbn in Hlen; lia|exact Hr].
Qed.


(* ===================================================================== *)
(** ** The request *)
(* ===================================================================== *)

Section RequestFacts.

Lemma hex_digit_printable (n : N) :
  n < 16 -> printable_ascii (hex_digit n) = true.
Proof.
  intros Hn. unfold hex_digit, printable_ascii.
  destruct (N.ltb_spec n 10); apply andb_true_intro; split;
    apply N.leb_le; lia.
Qed.

Lemma u_escape_printable (n : N) : forallb printable_ascii (u_escape n) = true.
Proof.
  unfold u_escape, hex4. cbn [app forallb].
  rewrite !hex_digit_printable by (apply N.mod_lt; discriminate).
  reflexivity.
Qed.

Lemma escape_char_printable (c : N) :
  forallb printable_ascii (escape_char c) = true.
Proof.
  unfold escape_char.
  repeat (match goal with
          | |- context [if ?b then _ else _] => destruct b eqn:?
          end; try reflexivity).
  - cbn. rewrite andb_true_r. assumption.
  - apply u_escape_printable.
  - rewrite forallb_app, !u_escape_printable. reflexivity.
Qed.

Lemma json_string_printable (s : pystr) :
  forallb printable_ascii (json_string s) = true.
Proof.
  unfold json_string. rewrite !forallb_app. cbn [forallb].
  replace (printable_ascii 34) with true by reflexivity.
  rewrite andb_true_r. cbn [andb].
  induction s as [|c s IH]; [reflexivity|].
  cbn [flat_map]. rewrite forallb_app, escape_char_printable. exact IH.
Qed.

(** X16: whatever the order id, every field of the request form is
    made of printable ASCII characters only; in [contentList] whatever
    else is in the id is sent as an escape. *)
Theorem payload_is_ascii :
  forall content : pystr,
    Forall (fun field =>
              forallb printable_ascii (fst field) = true
              /\ forallb printable_ascii (snd field) = true)
           (payload content)
    /\ List.map fst (payload content)
       = [lit "wxappAid"; lit "wxappId"; lit "itemId"; lit "contentList"].
Proof.
  intros content. split; [|reflexivity].
  unfold payload.
  constructor; [split; vm_compute; reflexivity|].
  constructor; [split; vm_compute; reflexivity|].
  constructor; [split; vm_compute; reflexivity|].
  constructor; [|constructor]. cbn [fst snd].
  split; [vm_compute; reflexivity|].
  unfold contentList. rewrite !forallb_app, !json_string_printable.
  cbn [andb]. rewrite !andb_true_r.
  repeat (apply andb_true_intro; split); vm_compute; reflexivity.
Qed.

Lemma escape_plain (s : pystr) :
  forallb (fun c => printable_ascii c && negb (c =? 34) && negb (c =? 92)) s
  = true ->
  flat_map escape_char s = s.
Proof.
  induction s as [|c s IH]; [reflexivity|].
  cbn [forallb flat_map]. intros Hall.
  apply andb_prop in Hall as [Hc Hs]. rewrite (IH Hs).
  apply andb_prop in Hc as [Hc H92]. apply andb_prop in Hc as [Hp H34].
  apply negb_true_iff in H92, H34.
  unfold printable_ascii in Hp. pose proof Hp as Hrange.
  apply andb_prop in Hrange as [Hlo Hhi]. apply N.leb_le in Hlo.
  unfold escape_char. rewrite H92, H34.
  replace (c =? 8) with false by (symmetry; apply N.eqb_neq; lia).
  replace (c =? 12) with false by (symmetry; apply N.eqb_neq; lia).
  replace (c =? 10) with false by (symmetry; apply N.eqb_neq; lia).
  replace (c =? 13) with false by (symmetry; apply N.eqb_neq; lia).
  replace (c =? 9) with false by (symmetry; apply N.eqb_neq; lia).
  rewrite Hp. reflexivity.
Qed.

(** X17: an order id of printable ASCII characters without quote and
    backslash goes into the request as it is, between quotes, as the
    [value] of the one object of [contentList]. *)
Theorem plain_order_id_sent_verbatim :
  forall content : pystr,
    forallb (fun c => printable_ascii c && negb (c =? 34) && negb (c =? 92))
            content = true ->
    contentList content
    = lit "[{" ++ [34] ++ lit "key" ++ [34] ++ lit ": "
      ++ [34] ++ lit "v2" ++ [34] ++ lit ", "
      ++ [34] ++ lit "value" ++ [34] ++ lit ": "
      ++ [34] ++ content ++ [34] ++ lit "}]".
Proof.
  intros content Hplain. unfold contentList, json_string.
  rewrite (escape_plain content Hplain).
  rewrite !(escape_plain (lit _)) by (vm_compute; reflexivity).
  rewrite <- !app_assoc. reflexivity.
Qed.

End RequestFacts.

(* ===================================================================== *)
(** ** From the message to the image *)
(* ===================================================================== *)

Section EndToEnd.
Context {host : Host}.

Lemma skip_all (p : N -> bool) (lead rest : pystr) :
  forallb p lead = true -> skip p (lead ++ rest) = skip p rest.
Proof.
  induction lead as [|c lead IH]; [reflexivity|].
  cbn [forallb app skip]. intros Hall. apply andb_prop in Hall as [-> Hl].
  exact (IH Hl).
Qed.

Lemma prefix_of_token (p : N -> bool) (tok : pystr) (w : N) (rest : pystr) :
  forallb p tok = true -> p w = false ->
  prefix_of p (tok ++ w :: rest) = tok
  /\ skip p (tok ++ w :: rest) = w :: rest.
Proof.
  intros Htok Hw. induction tok as [|c tok IH]; cbn [app prefix_of skip].
  - rewrite Hw. split; reflexivity.
  - cbn [forallb] in Htok. apply andb_prop in Htok as [-> Ht].
    destruct (IH Ht) as [-> ->]. split; reflexivity.
Qed.

Lemma strip_skip (s : pystr) : strip (skip is_space s) = strip s.
Proof. unfold strip. rewrite skip_idem. reflexivity. Qed.

(** X18: the order id is what follows the first token of the message,
    trimmed; whitespace inside it is kept.  For a message made of
    leading whitespace, a token, a whitespace character and a rest that
    is not blank, the handler goes on with the rest, stripped. *)
Theorem order_id_is_the_trimmed_rest :
  forall (lead tok rest : pystr) (w : N),
    forallb is_space lead = true ->
    tok <> [] ->
    forallb (fun c => negb (is_space c)) tok = true ->
    is_space w = true ->
    strip rest <> [] ->
    order_id_of (lead ++ tok ++ w :: rest) = Some (strip rest).
Proof.
  intros lead tok rest w Hlead Htok Hns Hw Hrest.
  assert (Hwn : negb (is_space w) = false) by (rewrite Hw; reflexivity).
  destruct (prefix_of_token _ tok w rest Hns Hwn) as [Hpre Hskip].
  assert (Hparts : split 1 (lead ++ tok ++ w :: rest)
                   = [tok; skip is_space rest]).
  { rewrite split_1_cases, (skip_all _ _ _ Hlead).
    destruct tok as [|c tok]; [contradiction|].
    cbn [forallb] in Hns. pose proof Hns as Hc.
    apply andb_prop in Hc as [Hc _]. apply negb_true_iff in Hc.
    change ((c :: tok) ++ w :: rest) with (c :: (tok ++ w :: rest)).
    rewrite (skip_stops _ _ _ Hc).
    change (c :: (tok ++ w :: rest)) with ((c :: tok) ++ w :: rest).
    rewrite Hpre, Hskip. cbn [skip]. rewrite Hw.
    destruct (skip is_space rest) as [|c' r'] eqn:Hr; [|reflexivity].
    exfalso. apply Hrest. rewrite <- strip_skip, Hr. reflexivity. }
  unfold order_id_of. rewrite Hparts. cbn [length nth Nat.ltb Nat.leb orb].
  rewrite strip_skip.
  destruct (strip rest); [contradiction|reflexivity].
Qed.

Lemma parse_response_details (d item content : pydict) (others : list pyval)
    (order : pystr) :
  lookup_key d (lit "queryDataList") = Some (PList (PDict item :: others)) ->
  lookup_key item (lit "content") = Some (PDict content) ->
  content <> [] ->
  parse_response (PDict d) order = Ok (Details content).
Proof.
  intros Hq Hc Hne.
  unfold parse_response. rewrite get_dict. unfold dict_get. rewrite Hq.
  cbn [mbind py_bind bind no_results truthy is_list negb orb length
       Nat.eqb first_item].
  rewrite get_dict. unfold dict_get. rewrite Hc.
  cbn [mbind py_bind bind].
  destruct content; [contradiction|reflexivity].
Qed.

Lemma all_draws_work (E : env) (calls : list drawn) :
  (forall xy s f, draw_fails E xy s f = false) ->
  List.filter (draw_works E) calls = calls.
Proof.
  intros Hdraw. induction calls as [|d calls IH]; [reflexivity|].
  cbn [List.filter]. unfold draw_works at 1. rewrite Hdraw, IH. reflexivity.
Qed.

(** X19: the whole way.  A message with an order id, answered with
    status 200 and an object whose first [queryDataList] element has a
    non-empty [content] (its [v0] a string or absent), with the
    template in place and nothing failing, ends with the image handed
    over: the last reply is the image component for the new file, the
    pointer refers to it, and the file holds the template with the six
    fields of [content] and the time stamp drawn on it. *)
Theorem query_to_image :
  forall (E : env) (full_message order : pystr) (r : response)
         (d item content : pydict) (others : list pyval) (s : state)
         (tmpl : image),
    order_id_of full_message = Some order ->
    http_post E order = Ok r ->
    status_code r = 200%Z ->
    json r = Ok (PDict d) ->
    lookup_key d (lit "queryDataList") = Some (PList (PDict item :: others)) ->
    lookup_key item (lit "content") = Some (PDict content) ->
    content <> [] ->
    (forall v, lookup_key content (lit "v0") = Some v -> exists t, v = PStr t) ->
    disk s !! resource_path (lit "hymb.png") = Some (ImageFile tmpl) ->
    pointer_in_temp s ->
    files_and_clock_fine E ->
    drawing_fine E ->
    packaging_fails E = false ->
    exists s' p img timestamp,
      handle_heyao_query E full_message s = (Ok tt, s')
      /\ last (events s') = Some (Yield (chain_result [ImageComp p]))
      /\ last_image_path s' = Some p
      /\ disk s' !! p = Some (ImageFile img)
      /\ im_size img = im_size tmpl
      /\ im_text img
         = rev (draw_calls content timestamp (font_in_use (disk s)))
           ++ im_text tmpl.
Proof.
  intros E msg order r d item content others s tmpl
         Hid Hpost H200 Hjson Hq Hc Hne Hv0 Htmpl Hptr Hfiles Hdraw Hpack.
  assert (Hfetch : fetch_wechat_info (http_post E order) = Ok (PDict d)).
  { rewrite fetch_wechat_info_closed_form, Hpost, H200, Hjson. reflexivity. }
  pose proof (parse_response_details d item content others order Hq Hc Hne)
    as Hparse.
  rewrite (handle_renders E msg order (PDict d) content s Hid Hfetch Hparse).
  rewrite render_and_deliver_spec.
  assert (Hkept : forall name,
            disk (at_render E s order) !! resource_path name
            = disk s !! resource_path name).
  { intros name. apply at_render_disk_other. intros Hl.
    exact (resource_not_in_temp name (Hptr _ Hl)). }
  assert (Hfonts : fonts_fine E).
  { destruct Hdraw as (Htt & Hld & _). split; assumption. }
  rewrite <- (Hkept (lit "hymb.png")) in Htmpl.
  destruct (generate_image_texts E (disk (at_render E s order)) content tmpl
              Htmpl Hfiles Hfonts Hv0)
    as (p & img & ts & Hgen & _ & Hsize & Htext).
  rewrite Hgen, Hpack.
  eexists _, p, img, ts. split; [reflexivity|]. cbn [events last_image_path disk].
  split; [|split; [reflexivity|split; [apply lookup_insert_eq|]]].
  - rewrite last_app. reflexivity.
  - split; [exact Hsize|]. rewrite Htext.
    rewrite (all_draws_work E _ (proj2 (proj2 Hdraw))).
    replace (font_in_use (disk (at_render E s order)))
      with (font_in_use (disk s)); [reflexivity|].
    unfold font_in_use, path_exists. rewrite (Hkept (lit "FZSTK.TTF")).
    reflexivity.
Qed.

End EndToEnd.

(* ===================================================================== *)
(** ** Which messages are turned down *)
(* ===================================================================== *)

Section BlankFacts.

Lemma skip_nil_iff (p : N -> bool) (l : pystr) :
  skip p l = [] <-> forallb p l = true.
Proof.
  induction l as [|c l IH]; cbn [skip forallb]; [tauto|].
  destruct (p c); cbn [andb]; [exact IH|]. split; discriminate.
Qed.

Lemma prefix_skip_app (p : N -> bool) (l : pystr) :
  l = prefix_of p l ++ skip p l /\ forallb p (prefix_of p l) = true.
Proof.
  induction l as [|c l [IH1 IH2]]; cbn [prefix_of skip]; [split; reflexivity|].
  destruct (p c) eqn:Hc; [|split; reflexivity].
  cbn [app forallb]. rewrite Hc, IH2. rewrite <- IH1. split; reflexivity.
Qed.

Lemma forallb_skip (p q : N -> bool) (l : pystr) :
  forallb q l = true -> forallb q (skip p l) = true.
Proof.
  induction l as [|c l IH]; cbn [skip forallb]; [reflexivity|].
  intros Hall. destruct (p c); [|exact Hall].
  apply andb_prop in Hall as [_ Hl]. exact (IH Hl).
Qed.

Lemma forallb_rev (q : N -> bool) (l : pystr) :
  forallb q (rev l) = forallb q l.
Proof.
  induction l as [|c l IH]; [reflexivity|].
  cbn [rev forallb]. rewrite forallb_app, IH. cbn [forallb].
  rewrite andb_true_r. apply andb_comm.
Qed.

Lemma skip_app_stops (p : N -> bool) (l m : pystr) :
  skip p l <> [] -> skip p (l ++ m) = skip p l ++ m.
Proof.
  induction l as [|c l IH]; cbn [skip app]; [contradiction|].
  destruct (p c); [exact IH|reflexivity].
Qed.

(** [s.rstrip()], the second half of [strip] *)
Lemma rstrip_app_blank (x y : pystr) :
  forallb is_space y = true ->
  rev (skip is_space (rev (x ++ y))) = rev (skip is_space (rev x)).
Proof.
  intros Hy. rewrite rev_app_distr, skip_all; [reflexivity|].
  rewrite forallb_rev. exact Hy.
Qed.

Lemma rstrip_app_kept (x y : pystr) :
  skip is_space (rev y) <> [] ->
  rev (skip is_space (rev (x ++ y))) = x ++ rev (skip is_space (rev y)).
Proof.
  intros Hy. rewrite rev_app_distr, (skip_app_stops _ _ _ Hy).
  rewrite rev_app_distr, rev_involutive. reflexivity.
Qed.

Lemma rstrip_keeps_last (c : N) (r : pystr) :
  is_space c = false -> skip is_space (rev (c :: r)) <> [].
Proof.
  intros Hc. cbn [rev]. rewrite (skip_snoc _ _ _ Hc).
  destruct (skip is_space (rev r)); discriminate.
Qed.

(** X20: a message is turned down with the usage text exactly when,
    once trimmed, it has no whitespace in it: it is blank or a single
    token. *)
Theorem rejected_iff_single_token :
  forall full_message : pystr,
    order_id_of full_message = None
    <-> forallb (fun c => negb (is_space c)) (strip full_message) = true.
Proof.
  intros msg. rewrite order_id_none_iff, split_1_cases. unfold strip.
  destruct (skip is_space msg) as [|c r] eqn:Ha.
  { cbn. split; [reflexivity|lia]. }
  pose proof (skip_head _ _ _ _ Ha) as Hc.
  set (nonsp := fun c => negb (is_space c)).
  destruct (prefix_skip_app nonsp (c :: r)) as [Hsplit Htok].
  set (tok := prefix_of nonsp (c :: r)) in *.
  remember (skip nonsp (c :: r)) as rest eqn:Hrdef.
  rewrite Hsplit.
  destruct (skip is_space rest) as [|w' r'] eqn:Hrest.
  - cbn [length]. split; [intros _|lia].
    apply skip_nil_iff in Hrest.
    rewrite (rstrip_app_blank tok rest Hrest), forallb_rev.
    apply forallb_skip. rewrite forallb_rev. exact Htok.
  - cbn [length]. split; [lia|]. intros Hall. exfalso.
    pose proof (skip_head _ _ _ _ Hrest) as Hw'.
    destruct (prefix_skip_app is_space rest) as [Hrsplit Hpre].
    rewrite Hrest in Hrsplit.
    set (pre := prefix_of is_space rest) in *.
    assert (Hw : exists w pre0, pre = w :: pre0 /\ is_space w = true).
    { destruct rest as [|w rest0] eqn:Hr; [discriminate Hrest|].
      assert (Hwn : nonsp w = false)
        by exact (skip_head nonsp (c :: r) w rest0 (eq_sym Hrdef)).
      unfold nonsp in Hwn. apply negb_false_iff in Hwn.
      exists w, (prefix_of is_space rest0). split; [|exact Hwn].
      unfold pre. cbn [prefix_of]. rewrite Hwn. reflexivity. }
    destruct Hw as (w & pre0 & Hpre0 & Hw).
    pose proof (rstrip_keeps_last w' r' Hw') as Hlast.
    assert (Hkept : skip is_space (rev (pre ++ w' :: r')) <> []).
    { rewrite rev_app_distr, (skip_app_stops _ _ _ Hlast).
      intros Habs. apply app_eq_nil in Habs as [Habs _]. exact (Hlast Habs). }
    rewrite Hrsplit in Hall.
    rewrite (rstrip_app_kept tok _ Hkept) in Hall.
    rewrite forallb_app in Hall. apply andb_prop in Hall as [_ Hall].
    rewrite (rstrip_app_kept pre _ Hlast) in Hall.
    rewrite forallb_app in Hall. apply andb_prop in Hall as [Hall _].
    rewrite Hpre0 in Hall. cbn [forallb] in Hall.
    apply andb_prop in Hall as [Hall _]. unfold nonsp in Hall.
    rewrite Hw in Hall. discriminate.
Qed.

End BlankFacts.

(* ===================================================================== *)
(** ** Further closed examples on the Linux host *)
(* ===================================================================== *)

Module Examples2.
Import Fixture Fixture2.

Lemma pair_with_fst {A B : Type} (x : A * B) (a : A) :
  fst x = a -> x = (a, snd x).
Proof. destruct x. cbn. by intros ->. Qed.

Lemma calm_is_fine (answer : py response) (usec : N) :
  files_and_clock_fine (host := linux) (calm answer usec)
  /\ drawing_fine (calm answer usec)
  /\ fonts_fine (calm answer usec).
Proof.
  split; [|split].
  - split; [reflexivity|]. split; [intros p; reflexivity|].
    intros fmt t. discriminate.
  - split; [intros p z; reflexivity|]. split; [reflexivity|].
    intros xy s f; reflexivity.
  - split; [intros p z; reflexivity|reflexivity].
Qed.

Lemma smudged_is_fine (answer : py response) :
  files_and_clock_fine (host := linux) (smudged answer)
  /\ fonts_fine (smudged answer).
Proof.
  split.
  - split; [reflexivity|]. split; [intros p; reflexivity|].
    intros fmt t. discriminate.
  - split; [intros p z; reflexivity|reflexivity].
Qed.

Lemma batch_ABC_v0_is_str (v : pyval) :
  lookup_key batch_ABC (lit "v0") = Some v -> exists s, v = PStr s.
Proof. vm_compute. intros [= <-]. eauto. Qed.


(** The order id of [heyao 123]. *)
Lemma order_id_is_trimmed_witness :
  order_id_of ask_123 = Some id_123
  /\ id_123 <> []
  /\ strip id_123 = id_123
  /\ exists c r, id_123 = c :: r /\ is_space c = false.
Proof.
  assert (Hid : order_id_of ask_123 = Some id_123) by (vm_compute; reflexivity).
  split; [exact Hid|].
  exact (order_id_is_trimmed ask_123 id_123 Hid).
Defined.

(** [heyao 123] answered with a 404. *)
Lemma no_answer_witness :
  order_id_of ask_123 = Some id_123
  /\ match http_post (calm http_404 0) id_123 with
     | Raise _ => True
     | Ok r => status_code r <> 200%Z
               \/ (exists e, json r = Raise e)
               \/ json r = Ok PNone
     end
  /\ handle_heyao_query (host := linux) (calm http_404 0) ask_123 fresh
     = (Ok tt,
        log fresh [Yield (plain_result (searching_text id_123)); Fetch id_123;
                   Yield (plain_result (fetch_failed_text id_123))]).
Proof.
  assert (Hid : order_id_of ask_123 = Some id_123) by (vm_compute; reflexivity).
  assert (Hpost : match http_post (calm http_404 0) id_123 with
                  | Raise _ => True
                  | Ok r => status_code r <> 200%Z
                            \/ (exists e, json r = Raise e)
                            \/ json r = Ok PNone
                  end) by (cbn; left; lia).
  split; [exact Hid|]. split; [exact Hpost|].
  exact (no_answer_is_reported (host := linux) (calm http_404 0)
           ask_123 id_123 fresh Hid Hpost).
Defined.

(** [heyao 123] answered with the JSON list [[]]. *)
Lemma odd_answer_witness :
  order_id_of ask_123 = Some id_123
  /\ fetch_wechat_info (http_post (calm (http_200 (PList [])) 0) id_123)
     = Ok (PList [])
  /\ PList [] <> PNone
  /\ ((exists e, parse_response (host := linux) (PList []) id_123 = Raise e)
      <-> is_dict (PList []) = false
          \/ exists d x l,
               PList [] = PDict d
               /\ lookup_key d (lit "queryDataList") = Some (PList (x :: l))
               /\ is_dict x = false)
  /\ ((exists e, parse_response (host := linux) (PList []) id_123 = Raise e) ->
      handle_heyao_query (host := linux) (calm (http_200 (PList [])) 0)
        ask_123 fresh
      = (Ok tt,
         log fresh [Yield (plain_result (searching_text id_123)); Fetch id_123;
                    Yield (plain_result (processing_error_text id_123))])).
Proof.
  assert (Hid : order_id_of ask_123 = Some id_123) by (vm_compute; reflexivity).
  assert (Hfetch : fetch_wechat_info
                     (http_post (calm (http_200 (PList [])) 0) id_123)
                   = Ok (PList [])) by reflexivity.
  assert (Hnn : PList [] <> PNone) by discriminate.
  split; [exact Hid|]. split; [exact Hfetch|]. split; [exact Hnn|].
  exact (odd_answer_is_caught (host := linux) (calm (http_200 (PList [])) 0)
           ask_123 id_123 (PList []) fresh Hid Hfetch Hnn).
Defined.

(** [heyao 123] answered with an empty [content]. *)
Lemma unusable_content_witness :
  order_id_of ask_123 = Some id_123
  /\ fetch_wechat_info
       (http_post (calm (http_200 (found (PDict []))) 0) id_123)
     = Ok (PDict (found_entries (PDict [])))
  /\ lookup_key (found_entries (PDict [])) (lit "queryDataList")
     = Some (PList [PDict [(lit "content", PDict [])]])
  /\ (lookup_key [(lit "content", PDict [])] (lit "content") = None
      \/ lookup_key [(lit "content", PDict [])] (lit "content")
         = Some (PDict [])
      \/ (exists v, lookup_key [(lit "content", PDict [])] (lit "content")
                    = Some v /\ is_dict v = false))
  /\ handle_heyao_query (host := linux)
       (calm (http_200 (found (PDict []))) 0) ask_123 fresh
     = (Ok tt,
        log fresh [Yield (plain_result (searching_text id_123)); Fetch id_123;
                   Yield (plain_result (malformed_text id_123))]).
Proof.
  assert (Hid : order_id_of ask_123 = Some id_123) by (vm_compute; reflexivity).
  assert (Hfetch : fetch_wechat_info
                     (http_post (calm (http_200 (found (PDict []))) 0) id_123)
                   = Ok (PDict (found_entries (PDict [])))) by reflexivity.
  assert (Hq : lookup_key (found_entries (PDict [])) (lit "queryDataList")
               = Some (PList [PDict [(lit "content", PDict [])]]))
    by (vm_compute; reflexivity).
  assert (Hc : lookup_key [(lit "content", PDict [])] (lit "content") = None
               \/ lookup_key [(lit "content", PDict [])] (lit "content")
                  = Some (PDict [])
               \/ (exists v, lookup_key [(lit "content", PDict [])]
                                        (lit "content")
                             = Some v /\ is_dict v = false))
    by (right; left; vm_compute; reflexivity).
  split; [exact Hid|]. split; [exact Hfetch|]. split; [exact Hq|].
  split; [exact Hc|].
  exact (unusable_content_is_reported (host := linux)
           (calm (http_200 (found (PDict []))) 0) ask_123 id_123
           (found_entries (PDict [])) [(lit "content", PDict [])] [] fresh
           Hid Hfetch Hq Hc).
Defined.

(** [#A/B C] sanitized, and sanitized again. *)
Lemma sanitizing_twice_witness :
  safe_batch_of (PStr (lit "#A/B C")) = Ok (lit "A_B_C")
  /\ safe_batch_of (PStr (lit "A_B_C")) = Ok (lit "A_B_C").
Proof.
  assert (Hsb : safe_batch_of (PStr (lit "#A/B C")) = Ok (lit "A_B_C"))
    by (vm_compute; reflexivity).
  split; [exact Hsb|].
  exact (sanitizing_twice_changes_nothing (lit "#A/B C") (lit "A_B_C") Hsb).
Defined.

(** glibc prints the stamp without a separator. *)
Lemma linux_stamp_without_separator :
  stamp_without_separator (host := linux).
Proof.
  intros t ts [= <-].
  apply (glibc_strftime_no_separator t _ _ (Nat.le_refl _)).
  vm_compute. reflexivity.
Qed.

(** A render of [{"v0": "#A/B C"}] on the install. *)
Lemma renderer_writes_witness :
  stamp_without_separator (host := linux)
  /\ generate_image_stat (host := linux) never_denied
       (calm (http_200 (found (PDict batch_ABC))) 0) installed batch_ABC
     = (Some image_ABC,
        snd (generate_image_stat (host := linux) never_denied
               (calm (http_200 (found (PDict batch_ABC))) 0)
               installed batch_ABC))
  /\ (forall q, q <> temp_image_dir (host := linux) ->
        Some image_ABC <> Some q ->
        snd (generate_image_stat (host := linux) never_denied
               (calm (http_200 (found (PDict batch_ABC))) 0)
               installed batch_ABC) !! q
        = installed !! q)
  /\ (forall p, Some image_ABC = Some p ->
        scratch_file (host := linux) p
        /\ exists img,
             snd (generate_image_stat (host := linux) never_denied
                    (calm (http_200 (found (PDict batch_ABC))) 0)
                    installed batch_ABC) !! p
             = Some (ImageFile img))
  /\ snd (generate_image_stat (host := linux) never_denied
            (calm (http_200 (found (PDict batch_ABC))) 0) installed batch_ABC)
     !! resource_path (host := linux) (lit "hymb.png")
     = installed !! resource_path (host := linux) (lit "hymb.png")
  /\ snd (generate_image_stat (host := linux) never_denied
            (calm (http_200 (found (PDict batch_ABC))) 0) installed batch_ABC)
     !! resource_path (host := linux) (lit "FZSTK.TTF")
     = installed !! resource_path (host := linux) (lit "FZSTK.TTF").
Proof.
  assert (Hgen : generate_image_stat (host := linux) never_denied
                   (calm (http_200 (found (PDict batch_ABC))) 0)
                   installed batch_ABC
                 = (Some image_ABC,
                    snd (generate_image_stat (host := linux) never_denied
                           (calm (http_200 (found (PDict batch_ABC))) 0)
                           installed batch_ABC)))
    by (apply pair_with_fst; vm_compute; reflexivity).
  split; [exact linux_stamp_without_separator|]. split; [exact Hgen|].
  exact (renderer_writes_one_scratch_file (host := linux) never_denied
           (calm (http_200 (found (PDict batch_ABC))) 0) installed _
           batch_ABC (Some image_ABC) linux_stamp_without_separator Hgen).
Defined.

(** A render of [{"v0": "#A/B C"}] in which the second draw call
    fails. *)
Lemma failed_draws_witness :
  installed !! resource_path (host := linux) (lit "hymb.png")
  = Some (ImageFile template)
  /\ files_and_clock_fine (host := linux)
       (smudged (http_200 (found (PDict batch_ABC))))
  /\ fonts_fine (smudged (http_200 (found (PDict batch_ABC))))
  /\ (forall v, lookup_key batch_ABC (lit "v0") = Some v -> exists s, v = PStr s)
  /\ exists p img timestamp,
      generate_image (host := linux)
        (smudged (http_200 (found (PDict batch_ABC)))) installed batch_ABC
      = (Some p, <[p := ImageFile img]> installed)
      /\ im_text img
         = rev (List.filter
                  (draw_works (smudged (http_200 (found (PDict batch_ABC)))))
                  (draw_calls (host := linux) batch_ABC timestamp
                     (font_in_use (host := linux) installed)))
           ++ im_text template.
Proof.
  assert (Htmpl : installed !! resource_path (host := linux) (lit "hymb.png")
                  = Some (ImageFile template)) by (vm_compute; reflexivity).
  destruct (smudged_is_fine (http_200 (found (PDict batch_ABC))))
    as [Hfiles Hfonts].
  split; [exact Htmpl|]. split; [exact Hfiles|]. split; [exact Hfonts|].
  split; [exact batch_ABC_v0_is_str|].
  exact (failed_draws_are_skipped (host := linux)
           (smudged (http_200 (found (PDict batch_ABC)))) installed batch_ABC
           template Htmpl Hfiles Hfonts batch_ABC_v0_is_str).
Defined.

(** After the image for [batch_ABC] was delivered, [heyao 123] is
    answered with [batch_two_hashes] and rendered. *)
Lemma new_image_witness :
  last_image_path delivered = Some image_ABC
  /\ order_id_of ask_123 = Some id_123
  /\ fetch_wechat_info
       (http_post (calm (http_200 (found (PDict batch_two_hashes))) 0) id_123)
     = Ok (found (PDict batch_two_hashes))
  /\ parse_response (host := linux) (found (PDict batch_two_hashes)) id_123
     = Ok (Details batch_two_hashes)
  /\ generate_image (host := linux)
       (calm (http_200 (found (PDict batch_two_hashes))) 0)
       (disk (at_render (calm (http_200 (found (PDict batch_two_hashes))) 0)
                        delivered id_123))
       batch_two_hashes
     = (Some image_A,
        snd (generate_image (host := linux)
               (calm (http_200 (found (PDict batch_two_hashes))) 0)
               (disk (at_render
                        (calm (http_200 (found (PDict batch_two_hashes))) 0)
                        delivered id_123))
               batch_two_hashes))
  /\ (let s' := snd (handle_heyao_query (host := linux)
                       (calm (http_200 (found (PDict batch_two_hashes))) 0)
                       ask_123 delivered) in
      last_image_path s' = Some image_A
      /\ path_exists (disk s') image_A = true
      /\ (image_ABC <> image_A ->
          path_exists (disk s') image_ABC
          = path_exists (disk delivered) image_ABC
            && unlink_fails
                 (calm (http_200 (found (PDict batch_two_hashes))) 0)
                 image_ABC)).
Proof.
  assert (Hl : last_image_path delivered = Some image_ABC)
    by (vm_compute; reflexivity).
  assert (Hid : order_id_of ask_123 = Some id_123) by (vm_compute; reflexivity).
  assert (Hfetch : fetch_wechat_info
                     (http_post
                        (calm (http_200 (found (PDict batch_two_hashes))) 0)
                        id_123)
                   = Ok (found (PDict batch_two_hashes))) by reflexivity.
  assert (Hparse : parse_response (host := linux)
                     (found (PDict batch_two_hashes)) id_123
                   = Ok (Details batch_two_hashes)) by (vm_compute; reflexivity).
  assert (Hgen : generate_image (host := linux)
                   (calm (http_200 (found (PDict batch_two_hashes))) 0)
                   (disk (at_render
                            (calm (http_200 (found (PDict batch_two_hashes))) 0)
                            delivered id_123))
                   batch_two_hashes
                 = (Some image_A,
                    snd (generate_image (host := linux)
                           (calm (http_200 (found (PDict batch_two_hashes))) 0)
                           (disk (at_render
                                    (calm (http_200
                                             (found (PDict batch_two_hashes))) 0)
                                    delivered id_123))
                           batch_two_hashes)))
    by (apply pair_with_fst; vm_compute; reflexivity).
  split; [exact Hl|]. split; [exact Hid|]. split; [exact Hfetch|].
  split; [exact Hparse|]. split; [exact Hgen|].
  exact (new_image_replaces_previous (host := linux)
           (calm (http_200 (found (PDict batch_two_hashes))) 0) ask_123 id_123
           (found (PDict batch_two_hashes)) batch_two_hashes delivered
           image_ABC image_A _ Hl Hid Hfetch Hparse Hgen).
Defined.

(** The template during a first [heyao 123]. *)
Lemma pointer_files_only_witness :
  handle_heyao_query_stat (host := linux) never_denied
    (calm (http_200 (found (PDict batch_ABC))) 0) ask_123 fresh
  = (Ok tt,
     snd (handle_heyao_query_stat (host := linux) never_denied
            (calm (http_200 (found (PDict batch_ABC))) 0) ask_123 fresh))
  /\ resource_path (host := linux) (lit "hymb.png")
     <> temp_image_dir (host := linux)
  /\ last_image_path fresh
     <> Some (resource_path (host := linux) (lit "hymb.png"))
  /\ last_image_path
       (snd (handle_heyao_query_stat (host := linux) never_denied
               (calm (http_200 (found (PDict batch_ABC))) 0) ask_123 fresh))
     <> Some (resource_path (host := linux) (lit "hymb.png"))
  /\ (Ok tt = Ok tt ->
      disk (snd (handle_heyao_query_stat (host := linux) never_denied
                   (calm (http_200 (found (PDict batch_ABC))) 0) ask_123 fresh))
      !! resource_path (host := linux) (lit "hymb.png")
      = disk fresh !! resource_path (host := linux) (lit "hymb.png"))
  /\ (disk (snd (handle_heyao_query_stat (host := linux) never_denied
                   (calm (http_200 (found (PDict batch_ABC))) 0) ask_123 fresh))
      !! resource_path (host := linux) (lit "hymb.png")
      = disk fresh !! resource_path (host := linux) (lit "hymb.png")
      \/ (Ok tt = Raise OSError
          /\ never_denied (resource_path (host := linux) (lit "hymb.png"))
             = true
          /\ exists img,
               disk (snd (handle_heyao_query_stat (host := linux) never_denied
                            (calm (http_200 (found (PDict batch_ABC))) 0)
                            ask_123 fresh))
               !! resource_path (host := linux) (lit "hymb.png")
               = Some (ImageFile img))).
Proof.
  assert (Hrun : handle_heyao_query_stat (host := linux) never_denied
                   (calm (http_200 (found (PDict batch_ABC))) 0) ask_123 fresh
                 = (Ok tt,
                    snd (handle_heyao_query_stat (host := linux) never_denied
                           (calm (http_200 (found (PDict batch_ABC))) 0)
                           ask_123 fresh)))
    by (apply pair_with_fst; vm_compute; reflexivity).
  assert (Hdir : resource_path (host := linux) (lit "hymb.png")
                 <> temp_image_dir (host := linux))
    by (vm_compute; discriminate).
  assert (Hbefore : last_image_path fresh
                    <> Some (resource_path (host := linux) (lit "hymb.png")))
    by discriminate.
  assert (Hafter : last_image_path
                     (snd (handle_heyao_query_stat (host := linux) never_denied
                             (calm (http_200 (found (PDict batch_ABC))) 0)
                             ask_123 fresh))
                   <> Some (resource_path (host := linux) (lit "hymb.png")))
    by (vm_compute; discriminate).
  split; [exact Hrun|]. split; [exact Hdir|]. split; [exact Hbefore|].
  split; [exact Hafter|].
  exact (handler_changes_pointer_files_only (host := linux) never_denied
           (calm (http_200 (found (PDict batch_ABC))) 0) ask_123 fresh _
           (Ok tt) (resource_path (host := linux) (lit "hymb.png"))
           Hrun Hdir Hbefore Hafter).
Defined.

(** A first [heyao 123] in which the [exists()] of line 282 raises for
    the image just written: the handler raises after the
    acknowledgement and the API call, the image is on disk and the
    pointer does not refer to it. *)
Lemma denied_image_is_left_behind :
  fst (handle_heyao_query_stat (host := linux) image_ABC_denied
         (calm (http_200 (found (PDict batch_ABC))) 0) ask_123 fresh)
  = Raise OSError
  /\ last_image_path
       (snd (handle_heyao_query_stat (host := linux) image_ABC_denied
               (calm (http_200 (found (PDict batch_ABC))) 0) ask_123 fresh))
     = None
  /\ path_exists
       (disk (snd (handle_heyao_query_stat (host := linux) image_ABC_denied
                     (calm (http_200 (found (PDict batch_ABC))) 0)
                     ask_123 fresh)))
       image_ABC = true
  /\ events
       (snd (handle_heyao_query_stat (host := linux) image_ABC_denied
               (calm (http_200 (found (PDict batch_ABC))) 0) ask_123 fresh))
     = [Yield (plain_result (searching_text id_123)); Fetch id_123;
        Render batch_ABC].
Proof.
  split; [vm_compute; reflexivity|]. split; [vm_compute; reflexivity|].
  split; vm_compute; reflexivity.
Qed.

(** Two invocations on a fresh instance, the [exists()] of the first
    raising for the image it has written. *)
Lemma assets_survive_witness :
  stamp_without_separator (host := linux)
  /\ (let s' := session_stat (host := linux) two_calls_stat (init installed) in
      disk s' !! resource_path (host := linux) (lit "hymb.png")
      = installed !! resource_path (host := linux) (lit "hymb.png")
      /\ disk s' !! resource_path (host := linux) (lit "FZSTK.TTF")
         = installed !! resource_path (host := linux) (lit "FZSTK.TTF")
      /\ (forall p, last_image_path s' = Some p ->
                    scratch_file (host := linux) p)).
Proof.
  split; [exact linux_stamp_without_separator|].
  exact (assets_survive_every_session (host := linux) two_calls_stat installed
           linux_stamp_without_separator).
Defined.


(** The order id [123]. *)
Lemma plain_order_id_witness :
  forallb (fun c => printable_ascii c && negb (c =? 34) && negb (c =? 92))
          id_123 = true
  /\ contentList id_123
     = lit "[{" ++ [34] ++ lit "key" ++ [34] ++ lit ": "
       ++ [34] ++ lit "v2" ++ [34] ++ lit ", "
       ++ [34] ++ lit "value" ++ [34] ++ lit ": "
       ++ [34] ++ id_123 ++ [34] ++ lit "}]".
Proof.
  assert (Hplain : forallb (fun c => printable_ascii c && negb (c =? 34)
                                     && negb (c =? 92)) id_123 = true)
    by (vm_compute; reflexivity).
  split; [exact Hplain|].
  exact (plain_order_id_sent_verbatim id_123 Hplain).
Defined.

(** The message [heyao  12 34 ]: the order id is [12 34]. *)
Lemma trimmed_rest_witness :
  forallb is_space [] = true
  /\ heyao <> []
  /\ forallb (fun c => negb (is_space c)) heyao = true
  /\ is_space 32 = true
  /\ strip spaced_id <> []
  /\ order_id_of ([] ++ heyao ++ 32 :: spaced_id) = Some (strip spaced_id).
Proof.
  assert (H1 : forallb is_space [] = true) by reflexivity.
  assert (H2 : heyao <> []) by (vm_compute; discriminate).
  assert (H3 : forallb (fun c => negb (is_space c)) heyao = true)
    by (vm_compute; reflexivity).
  assert (H4 : is_space 32 = true) by reflexivity.
  assert (H5 : strip spaced_id <> []) by (vm_compute; discriminate).
  split; [exact H1|]. split; [exact H2|]. split; [exact H3|].
  split; [exact H4|]. split; [exact H5|].
  exact (order_id_is_the_trimmed_rest [] heyao spaced_id 32 H1 H2 H3 H4 H5).
Defined.

(** [heyao 123] on a fresh instance, answered with [batch_ABC], nothing
    failing. *)
Lemma query_to_image_witness :
  order_id_of ask_123 = Some id_123
  /\ http_post (calm (http_200 (found (PDict batch_ABC))) 0) id_123
     = Ok {| status_code := 200; json := Ok (found (PDict batch_ABC)) |}
  /\ lookup_key (found_entries (PDict batch_ABC)) (lit "queryDataList")
     = Some (PList [PDict [(lit "content", PDict batch_ABC)]])
  /\ lookup_key [(lit "content", PDict batch_ABC)] (lit "content")
     = Some (PDict batch_ABC)
  /\ batch_ABC <> []
  /\ fresh.(disk) !! resource_path (host := linux) (lit "hymb.png")
     = Some (ImageFile template)
  /\ pointer_in_temp (host := linux) fresh
  /\ packaging_fails (calm (http_200 (found (PDict batch_ABC))) 0) = false
  /\ exists s' p img timestamp,
      handle_heyao_query (host := linux)
        (calm (http_200 (found (PDict batch_ABC))) 0) ask_123 fresh
      = (Ok tt, s')
      /\ last (events s') = Some (Yield (chain_result [ImageComp p]))
      /\ last_image_path s' = Some p
      /\ disk s' !! p = Some (ImageFile img)
      /\ im_size img = im_size template
      /\ im_text img
         = rev (draw_calls (host := linux) batch_ABC timestamp
                  (font_in_use (host := linux) (disk fresh)))
           ++ im_text template.
Proof.
  assert (Hid : order_id_of ask_123 = Some id_123) by (vm_compute; reflexivity).
  assert (Hpost : http_post (calm (http_200 (found (PDict batch_ABC))) 0) id_123
                  = Ok {| status_code := 200;
                          json := Ok (found (PDict batch_ABC)) |})
    by reflexivity.
  assert (Hq : lookup_key (found_entries (PDict batch_ABC)) (lit "queryDataList")
               = Some (PList [PDict [(lit "content", PDict batch_ABC)]]))
    by (vm_compute; reflexivity).
  assert (Hc : lookup_key [(lit "content", PDict batch_ABC)] (lit "content")
               = Some (PDict batch_ABC)) by (vm_compute; reflexivity).
  assert (Hne : batch_ABC <> []) by discriminate.
  assert (Htmpl : fresh.(disk) !! resource_path (host := linux) (lit "hymb.png")
                  = Some (ImageFile template)) by (vm_compute; reflexivity).
  assert (Hptr : pointer_in_temp (host := linux) fresh)
    by (intros p; discriminate).
  assert (Hpack : packaging_fails (calm (http_200 (found (PDict batch_ABC))) 0)
                  = false) by reflexivity.
  destruct (calm_is_fine (http_200 (found (PDict batch_ABC))) 0)
    as (Hfiles & Hdraw & _).
  split; [exact Hid|]. split; [exact Hpost|]. split; [exact Hq|].
  split; [exact Hc|]. split; [exact Hne|]. split; [exact Htmpl|].
  split; [exact Hptr|]. split; [exact Hpack|].
  exact (query_to_image (host := linux)
           (calm (http_200 (found (PDict batch_ABC))) 0) ask_123 id_123
           {| status_code := 200; json := Ok (found (PDict batch_ABC)) |}
           (found_entries (PDict batch_ABC)) [(lit "content", PDict batch_ABC)]
           batch_ABC [] fresh template
           Hid Hpost eq_refl eq_refl Hq Hc Hne batch_ABC_v0_is_str
           Htmpl Hptr Hfiles Hdraw Hpack).
Defined.

(** A render of [{"v0": "#A/B C"}] in an install without the font. *)
Lemma missing_font_witness :
  no_font !! resource_path (host := linux) (lit "FZSTK.TTF") = None
  /\ no_font !! resource_path (host := linux) (lit "hymb.png")
     = Some (ImageFile template)
  /\ files_and_clock_fine (host := linux)
       (calm (http_200 (found (PDict batch_ABC))) 0)
  /\ (forall v, lookup_key batch_ABC (lit "v0") = Some v -> exists s, v = PStr s)
  /\ exists safe_batch timestamp current_timestamp img,
      sanitize (dict_get batch_ABC (lit "v0") NA) = Ok safe_batch
      /\ libc_strftime (Host := linux) (lit "%Y-%m-%d %H:%M:%S")
           (local_time (draw_clock (calm (http_200 (found (PDict batch_ABC))) 0)))
         = Some timestamp
      /\ libc_strftime (Host := linux) (lit "%Y%m%d%H%M%S_%f")
           (local_time (name_clock (calm (http_200 (found (PDict batch_ABC))) 0)))
         = Some current_timestamp
      /\ generate_image (host := linux)
           (calm (http_200 (found (PDict batch_ABC))) 0) no_font batch_ABC
         = (Some (image_path_for (host := linux) (or_unknown safe_batch)
                    current_timestamp),
            <[image_path_for (host := linux) (or_unknown safe_batch)
                current_timestamp := ImageFile img]> no_font)
      /\ im_mode img = RGB
      /\ im_size img = im_size template
      /\ im_text img
         = (if load_default_fails (calm (http_200 (found (PDict batch_ABC))) 0)
            then []
            else rev (List.filter
                        (draw_works (calm (http_200 (found (PDict batch_ABC))) 0))
                        (draw_calls (host := linux) batch_ABC timestamp
                           DefaultFont)))
           ++ im_text template.
Proof.
  assert (Hfont : no_font !! resource_path (host := linux) (lit "FZSTK.TTF")
                  = None) by (vm_compute; reflexivity).
  assert (Htmpl : no_font !! resource_path (host := linux) (lit "hymb.png")
                  = Some (ImageFile template)) by (vm_compute; reflexivity).
  destruct (calm_is_fine (http_200 (found (PDict batch_ABC))) 0)
    as (Hfiles & _ & _).
  split; [exact Hfont|]. split; [exact Htmpl|]. split; [exact Hfiles|].
  split; [exact batch_ABC_v0_is_str|].
  exact (missing_font_is_not_an_error (host := linux)
           (calm (http_200 (found (PDict batch_ABC))) 0) no_font batch_ABC
           template Hfont Htmpl Hfiles batch_ABC_v0_is_str).
Defined.

End Examples2.
